(** * Health-factor monitor: risk classification, alert cooldown and the
    monitoring cycle

    A shallow embedding of the worker's core:
    - [getRiskLevel] (lib/healthFactor.ts) and the two comparisons inlined
      in the [scheduled] handler (index.ts);
    - [AlertManager] (lib/alertManager.ts): [shouldSendAlert],
      [recordAlert], [getLastAlert];
    - [sendAlert] (lib/alerts.ts) with its retry loop;
    - the [scheduled] handler (index.ts): the per-loan loop, the throttled
      price mirror and the throttled error alert.

    JavaScript numbers that carry a health factor are IEEE 754 binary64
    values, modelled by the Standard Library's [spec_float]; epoch
    milliseconds ([Date.now()]) are integers and are modelled by [Z]. *)

From Stdlib Require Import ZArith Bool List Ascii Lia.
From Stdlib Require Import SpecFloat OrdersEx.
From stdpp Require Import gmap strings sorting.

Local Open Scope Z_scope.

(** ** JavaScript numbers and their comparisons *)

Module Num.

(** A JS [number] holding a health factor or a threshold. *)
Abbreviation number := spec_float.

Definition NaN : number := S754_nan.
Definition Infinity : number := S754_infinity false.

(** [x < y] on numbers: false as soon as one side is NaN. *)
Definition lt (x y : number) : bool := SFltb x y.

(** [x <= y] on numbers: false as soon as one side is NaN. *)
Definition le (x y : number) : bool := SFleb x y.

(** [x >= y], which holds exactly when [y <= x]. *)
Definition ge (x y : number) : bool := SFleb y x.

Definition isNaN (x : number) : bool :=
  match x with S754_nan => true | _ => false end.

(** Literals of the specification's examples, as binary64 values
    (mantissa and exponent of the nearest double). *)
Definition n0 : number := S754_zero false.
Definition n1_4 : number := S754_finite false 6305039478318694 (-52).
Definition n1_5 : number := S754_finite false 6755399441055744 (-52).
Definition n1_6 : number := S754_finite false 7205759403792794 (-52).
Definition n1_7 : number := S754_finite false 7656119366529843 (-52).
Definition n1_8 : number := S754_finite false 8106479329266893 (-52).

End Num.

(** Epoch milliseconds and differences of them. [Date.now()] is an integer;
    a timestamp read back from a stored text may be missing, in which case
    the arithmetic yields NaN: [None] stands for NaN. *)
Module Ms.

Abbreviation ms := (option Z).

Definition sub (x y : ms) : ms :=
  match x, y with Some a, Some b => Some (a - b) | _, _ => None end.

(** [x >= c]: false on NaN. *)
Definition ge (x : ms) (c : Z) : bool :=
  match x with Some a => c <=? a | None => false end.

(** [x > c]: false on NaN. *)
Definition gt (x : ms) (c : Z) : bool :=
  match x with Some a => c <? a | None => false end.

End Ms.

(** ** The risk classifier (lib/healthFactor.ts) *)

Inductive RiskLevel := safe | warning_risk | critical_risk.

(** [getRiskLevel(healthFactor, warnThreshold, criticalThreshold)]. *)
Definition getRiskLevel (healthFactor warnThreshold criticalThreshold : Num.number)
  : RiskLevel :=
  if Num.lt healthFactor criticalThreshold then critical_risk
  else if Num.lt healthFactor warnThreshold then warning_risk
  else safe.

(** ** Exceptions *)

(** The result of an expression that may throw. *)
Inductive outcome (A : Type) : Type :=
| Return (a : A)
| Throw.
Arguments Return {A} a.
Arguments Throw {A}.

Definition obind {A B} (o : outcome A) (k : A -> outcome B) : outcome B :=
  match o with Return a => k a | Throw => Throw end.

(** [try { body } catch { handler }] for a pure body. *)
Definition ocatch {A} (body : outcome A) (handler : A) : A :=
  match body with Return a => a | Throw => handler end.

Declare Scope outcome_scope.
Delimit Scope outcome_scope with outcome.
Notation "'let!' x ':=' e 'in' k" := (obind e (fun x => k))
  (at level 10, x name, e at level 100, k at level 200) : outcome_scope.

(** ** Alert levels and stored records *)

(** [AlertLevel] of lib/alerts.ts. *)
Inductive AlertLevel := info | warning | critical | error.

#[global] Instance AlertLevel_eq_dec : EqDecision AlertLevel.
Proof. solve_decision. Defined.

(** [AlertRecord] of lib/alertManager.ts. *)
Record AlertRecord := mkAlertRecord {
  level : AlertLevel;
  timestamp : Z;
  assetSymbol : string
}.

(** What [JSON.parse] returns on the texts that occur in the store: [null],
    a number, or an object with the three fields of an [AlertRecord]. *)
Inductive json :=
| JNull
| JNumber (n : Z)
| JAlert (r : AlertRecord).

(** A text held by the key-value store, described by what its two readers,
    [JSON.parse] and [parseInt], and the truthiness test make of it. *)
Inductive text :=
| TEmpty                (* the empty string, the only falsy text *)
| TInvalid              (* a text that is not JSON and starts with no digit *)
| TJson (v : json).     (* the JSON text of [v] *)

(** [JSON.stringify(record)]. *)
Definition JSON_stringify (r : AlertRecord) : text := TJson (JAlert r).

(** [n.toString()] for an integer [n]. *)
Definition toString (n : Z) : text := TJson (JNumber n).

(** [JSON.parse(s)]: throws a SyntaxError on a text that is not JSON. *)
Definition JSON_parse (s : text) : outcome json :=
  match s with
  | TEmpty | TInvalid => Throw
  | TJson v => Return v
  end.

(** [parseInt(s)]: NaN unless the text starts with an integer. *)
Definition parseInt (s : text) : Ms.ms :=
  match s with
  | TJson (JNumber n) => Some n
  | _ => None
  end.

(** [!s] for a text or [null]. *)
Definition falsy (s : option text) : bool :=
  match s with
  | None | Some TEmpty => true
  | Some _ => false
  end.

(** [v.timestamp]: a TypeError on [null], [undefined] (hence NaN in
    arithmetic) on a value without that field. *)
Definition get_timestamp (v : json) : outcome Ms.ms :=
  match v with
  | JNull => Throw
  | JNumber _ => Return None
  | JAlert r => Return (Some (timestamp r))
  end.

(** [v.level], read after [v.timestamp] succeeded. *)
Definition get_level (v : json) : option AlertLevel :=
  match v with
  | JAlert r => Some (level r)
  | _ => None
  end.

(** ** The key-value namespace (Cloudflare KV, as the worker uses it) *)

(** A stored value with the instant (epoch milliseconds) at which the store
    drops it, when it was written with [expirationTtl]. The metadata passed
    to [put] is never read back by the worker and is not kept. *)
Record KVEntry := mkKVEntry {
  value : text;
  expiration : option Z
}.

(** The namespace bound as [env.HF_MONITOR_STATE]. When [online] is false
    every request to it rejects. *)
Record KVNamespace := mkKV {
  entries : gmap string KVEntry;
  online : bool
}.

Definition expired (e : KVEntry) (now : Z) : bool :=
  match expiration e with
  | Some t => t <=? now
  | None => false
  end.

(** [await kv.get(key)] at instant [now]: the text, or [null]. *)
Definition kv_get (kv : KVNamespace) (key : string) (now : Z)
  : outcome (option text) :=
  if online kv then
    Return (match entries kv !! key with
            | Some e => if expired e now then None else Some (value e)
            | None => None
            end)
  else Throw.

(** [await kv.put(key, v, { expirationTtl })] at instant [now];
    [expirationTtl] is in seconds. *)
Definition kv_put (kv : KVNamespace) (key : string) (v : text)
    (expirationTtl : option Z) (now : Z) : outcome KVNamespace :=
  if online kv then
    Return (mkKV (<[key := mkKVEntry v
                     (option_map (fun ttl => now + ttl * 1000) expirationTtl)]>
                  (entries kv))
                 (online kv))
  else Throw.

(** ** The alert manager (lib/alertManager.ts) *)

Module AlertManager.

Definition COOLDOWN_MS : Z := 10 * 60 * 1000.
Definition KV_TTL_SECONDS : Z := 3600.

(** The key [`alert:${loanId}`]. *)
Definition key (loanId : string) : string := "alert:" +:+ loanId.

(** [shouldSendAlert(loanId, currentLevel, _assetSymbol)] on a manager
    constructed over [kv], with [Date.now()] reading [now]. *)
Definition shouldSendAlert (kv : option KVNamespace) (now : Z)
    (loanId : string) (currentLevel : AlertLevel) (_assetSymbol : string)
  : bool :=
  match kv with
  | None => true
  | Some kv =>
    if bool_decide (currentLevel <> warning /\ currentLevel <> critical)
    then true
    else
      ocatch
        (let! storedData := kv_get kv (key loanId) now in
         if falsy storedData then Return true
         else
           let! lastAlert :=
             match storedData with
             | Some s => JSON_parse s
             | None => Throw
             end in
           let! stamp := get_timestamp lastAlert in
           let timeSinceLastAlert := Ms.sub (Some now) stamp in
           if bool_decide (currentLevel = critical)
              && bool_decide (get_level lastAlert = Some warning)
           then Return true
           else if Ms.ge timeSinceLastAlert COOLDOWN_MS then Return true
           else Return false)%outcome
        true
  end.

(** [recordAlert(loanId, level, assetSymbol)]: the namespace after the call. *)
Definition recordAlert (kv : option KVNamespace) (now : Z)
    (loanId : string) (lvl : AlertLevel) (sym : string)
  : option KVNamespace :=
  match kv with
  | None => None
  | Some kv =>
    if bool_decide (lvl <> warning /\ lvl <> critical) then Some kv
    else
      let record := mkAlertRecord lvl now sym in
      Some (ocatch
              (kv_put kv (key loanId) (JSON_stringify record)
                      (Some KV_TTL_SECONDS) now)
              kv)
  end.

(** [getLastAlert(loanId)]: the parsed text, or [null] ([JNull]). *)
Definition getLastAlert (kv : option KVNamespace) (now : Z) (loanId : string)
  : json :=
  match kv with
  | None => JNull
  | Some kv =>
    ocatch
      (let! storedData := kv_get kv (key loanId) now in
       match storedData with
       | Some s => if falsy storedData then Return JNull else JSON_parse s
       | None => Return JNull
       end)%outcome
      JNull
  end.

End AlertManager.

(** ** The world the handler runs in *)

(** An answer of the Telegram Bot API to one [fetch]. *)
Inductive Response :=
| Ok200                          (* [response.ok] *)
| TooManyRequests (retryAfter : Z)
    (* status 429; [retryAfter] is the parsed Retry-After header, in seconds *)
| HttpError                      (* any other status *)
| NetworkError.                  (* [fetch] rejects *)

(** The text handed to [sendAlert]: the two loan templates carry the asset
    symbol and the health factor, the error template the failure. *)
Inductive Message :=
| LoanMessage (lvl : AlertLevel) (sym : string) (hf : Num.number)
| ErrorMessage.

(** One call of [sendAlert] and the boolean it resolved to. *)
Record Dispatch := mkDispatch {
  d_level : AlertLevel;
  d_message : Message;
  d_delivered : bool
}.

(** Mutable state and the transport's answers:
    - [kv]: the binding [env.HF_MONITOR_STATE], absent when not configured;
    - [clock]: what [Date.now()] reads;
    - [telegram n]: the answer to the [n]-th request sent to Telegram;
    - [requests]: how many requests were sent so far;
    - [outbox]: the calls of [sendAlert], oldest first;
    - [mirrored]: the symbols whose row the price mirror accepted. *)
Record World := mkWorld {
  kv : option KVNamespace;
  clock : Z;
  telegram : nat -> Response;
  requests : nat;
  outbox : list Dispatch;
  mirrored : list string
}.

Definition set_kv (k : option KVNamespace) (w : World) : World :=
  mkWorld k (clock w) (telegram w) (requests w) (outbox w) (mirrored w).

(** [await new Promise(resolve => setTimeout(resolve, delay))]. *)
Definition sleep (delay : Z) (w : World) : World :=
  mkWorld (kv w) (clock w + Z.max 0 delay) (telegram w) (requests w)
          (outbox w) (mirrored w).

(** [await fetch(apiUrl, ...)]: the next answer of Telegram. *)
Definition fetch (w : World) : Response * World :=
  (telegram w (requests w),
   mkWorld (kv w) (clock w) (telegram w) (S (requests w)) (outbox w)
           (mirrored w)).

Definition log_dispatch (d : Dispatch) (w : World) : World :=
  mkWorld (kv w) (clock w) (telegram w) (requests w) (outbox w ++ [d])
          (mirrored w).

Definition log_mirrored (sym : string) (w : World) : World :=
  mkWorld (kv w) (clock w) (telegram w) (requests w) (outbox w)
          (mirrored w ++ [sym]).

(** Computations of the handler: they read and change the world and either
    return or throw. *)
Definition M (A : Type) : Type := World -> outcome A * World.

Definition ret {A} (a : A) : M A := fun w => (Return a, w).

Definition throw {A} : M A := fun w => (Throw, w).

Definition bind {A B} (m : M A) (k : A -> M B) : M B :=
  fun w =>
    match m w with
    | (Return a, w') => k a w'
    | (Throw, w') => (Throw, w')
    end.

(** [try { body } catch { handler }]. *)
Definition try_catch {A} (body handler : M A) : M A :=
  fun w =>
    match body w with
    | (Return a, w') => (Return a, w')
    | (Throw, w') => handler w'
    end.

(** An expression that may throw and changes nothing. *)
Definition lift {A} (o : outcome A) : M A := fun w => (o, w).

Declare Scope world_scope.
Delimit Scope world_scope with world.
Notation "x <- m ;; k" := (bind m (fun x => k))
  (at level 100, m at next level, right associativity) : world_scope.
Notation "m ;; k" := (bind m (fun _ => k))
  (at level 100, right associativity) : world_scope.

Definition now : M Z := fun w => (Return (clock w), w).

(** ** Configuration (config.ts) and collaborators *)

(** The validated environment, reduced to the fields the handler reads. *)
Record WorkerEnv := mkWorkerEnv {
  HF_WARN : Num.number;
  HF_CRIT : Num.number;
  TELEGRAM_TOKEN : string;
  CHATID : string;
  NOTION_PRICES_DB_ID : option string;
  NOTION_API_TOKEN : option string
}.

(** Truthiness of a string and of an optional string. *)
Definition nonempty (s : string) : bool := negb (String.eqb s "").

Definition present (o : option string) : bool :=
  match o with
  | Some s => nonempty s
  | None => false
  end.

(** A loan of the snapshot ([LoanInfo] of the Liqwid client), reduced to the
    fields the handler reads. *)
Record LoanInfo := mkLoan {
  id : string;
  healthFactor : Num.number;
  loan_assetSymbol : string
}.

(** What the outside answers during one run:
    - [createEnv]: the validation of the raw environment, which throws when
      the schema rejects it;
    - [fetchLoansSnapshot]: the loans of the monitored address;
    - [queryPricesDatabase n]: the answer to the [n]-th query of the
      mirror's rows in the run (the first is made by [getAssetSymbols], the
      second by [updatePriceDatabase]): the Asset titles of the rows, the
      empty string for a row without title;
    - [getPrices symbols]: the symbols the price provider returns prices
      for (the prices themselves are handed to the mirror untouched);
    - [writePriceRow symbol]: whether the mirror accepts the row. *)
Record Services := mkServices {
  createEnv : outcome WorkerEnv;
  fetchLoansSnapshot : outcome (list LoanInfo);
  queryPricesDatabase : nat -> outcome (list string);
  getPrices : list string -> outcome (list string);
  writePriceRow : string -> bool
}.

(** ** The messaging transport (lib/alerts.ts) *)

Definition MAX_RETRIES : Z := 3.

(** The [while (retries <= MAX_RETRIES)] loop of [sendAlert]. [fuel] bounds
    the number of iterations; [None] means the bound was too small. *)
Fixpoint sendAlert_loop (fuel : nat) (retries : Z) (w : World)
  : option (bool * World) :=
  if retries <=? MAX_RETRIES then
    match fuel with
    | O => None
    | S fuel =>
      let '(response, w) := fetch w in
      match response with
      | Ok200 => Some (true, w)
      | TooManyRequests retryAfter =>
        sendAlert_loop fuel (retries + 1) (sleep (retryAfter * 1000) w)
      | HttpError | NetworkError =>
        if retries <? MAX_RETRIES
        then sendAlert_loop fuel (retries + 1) (sleep (2 ^ retries * 1000) w)
        else Some (false, w)
      end
    end
  else Some (false, w).

(** [sendAlert(level, message, config)]. Five iterations always suffice
    (see [sendAlert_loop_returns]). *)
Definition sendAlert (lvl : AlertLevel) (message : Message)
    (config : WorkerEnv) : M bool :=
  fun w =>
    let '(ok, w') :=
      if negb (nonempty (TELEGRAM_TOKEN config))
         || negb (nonempty (CHATID config))
      then (false, w)
      else default (false, w) (sendAlert_loop 5 0 w) in
    (Return ok, log_dispatch (mkDispatch lvl message ok) w').

(** ** The scheduled handler (index.ts) *)

(** The manager built over [env.HF_MONITOR_STATE], called at the current
    instant. *)
Definition shouldSendAlert (loanId : string) (lvl : AlertLevel)
    (sym : string) : M bool :=
  fun w =>
    (Return (AlertManager.shouldSendAlert (kv w) (clock w) loanId lvl sym), w).

Definition recordAlert (loanId : string) (lvl : AlertLevel) (sym : string)
  : M unit :=
  fun w =>
    (Return tt,
     set_kv (AlertManager.recordAlert (kv w) (clock w) loanId lvl sym) w).

(** [env.HF_MONITOR_STATE ? await env.HF_MONITOR_STATE.get(key) : null]. *)
Definition state_get (key : string) : M (option text) :=
  fun w =>
    match kv w with
    | Some k => (kv_get k key (clock w), w)
    | None => (Return None, w)
    end.

(** [if (env.HF_MONITOR_STATE) await env.HF_MONITOR_STATE.put(key, v)]. *)
Definition state_put (key : string) (v : text) : M unit :=
  fun w =>
    match kv w with
    | Some k =>
      match kv_put k key v None (clock w) with
      | Return k' => (Return tt, set_kv (Some k') w)
      | Throw => (Throw, w)
      end
    | None => (Return tt, w)
    end.

(** An entry of [alertsSent]. *)
Record AlertSent := mkAlertSent {
  sent_assetSymbol : string;
  sent_id : string;
  sent_hf : Num.number;
  sent_level : AlertLevel
}.

(** The body of [for (const loan of loansSnapshot)], after the push to
    [hf_results]: the entries it pushes to [alertsSent]. *)
Definition processLoan (validatedEnv : WorkerEnv) (loan : LoanInfo)
  : M (list AlertSent) :=
  (let healthFactor := healthFactor loan in
   let assetSymbol := loan_assetSymbol loan in
   if Num.lt healthFactor (HF_CRIT validatedEnv) then
     ok <- shouldSendAlert (id loan) critical assetSymbol;;
     if (ok : bool) then
       _ <- sendAlert critical (LoanMessage critical assetSymbol healthFactor)
                      validatedEnv;;
       recordAlert (id loan) critical assetSymbol;;
       ret [mkAlertSent assetSymbol (id loan) healthFactor critical]
     else ret []
   else if Num.lt healthFactor (HF_WARN validatedEnv) then
     ok <- shouldSendAlert (id loan) warning assetSymbol;;
     if (ok : bool) then
       _ <- sendAlert warning (LoanMessage warning assetSymbol healthFactor)
                      validatedEnv;;
       recordAlert (id loan) warning assetSymbol;;
       ret [mkAlertSent assetSymbol (id loan) healthFactor warning]
     else ret []
   else ret [])%world.

(** The whole loop: [hf_results] and [alertsSent] when it ends. *)
Fixpoint processLoans (validatedEnv : WorkerEnv) (loansSnapshot : list LoanInfo)
  : M (list LoanInfo * list AlertSent) :=
  match loansSnapshot with
  | [] => ret ([], [])
  | loan :: rest =>
    (sent <- processLoan validatedEnv loan;;
     r <- processLoans validatedEnv rest;;
     ret (loan :: fst r, sent ++ snd r))%world
  end.

(** *** The price mirror (lib/adapters/notionAdapter.ts,
    lib/clients/notionClient.ts) *)

(** [UpdateResult]: the number of rows written and the symbols that failed
    (["all"] when no token is configured). *)
Record UpdateResult := mkUpdateResult {
  updated : nat;
  errors : list string
}.

(** [NotionAdapter.ensureClient()]. *)
Definition ensureClient (config : WorkerEnv) : outcome bool :=
  if negb (present (NOTION_API_TOKEN config)) then Return false
  else if negb (present (NOTION_PRICES_DB_ID config)) then Throw
  else Return true.

(** [NotionAdapter.getAssetSymbols()]. *)
Definition getAssetSymbols (sv : Services) (config : WorkerEnv)
  : M (list string) :=
  (ready <- lift (ensureClient config);;
   if (ready : bool) then
     rows <- lift (queryPricesDatabase sv 0%nat);;
     ret (filter (fun title => nonempty title = true) rows)
   else ret [])%world.

(** The [for] loop of [NotionClient.updatePriceDatabase]: a row that the
    mirror refuses is caught and listed in [errors]. *)
Fixpoint writeRows (sv : Services) (prices : list string)
    (results : UpdateResult) : M UpdateResult :=
  match prices with
  | [] => ret results
  | symbol :: rest =>
    if writePriceRow sv symbol then
      fun w =>
        writeRows sv rest
          (mkUpdateResult (S (updated results)) (errors results))
          (log_mirrored symbol w)
    else
      writeRows sv rest
        (mkUpdateResult (updated results) (errors results ++ [symbol]))
  end.

(** [NotionAdapter.updatePriceDatabase(prices)]. *)
Definition updatePriceDatabase (sv : Services) (config : WorkerEnv)
    (prices : list string) : M UpdateResult :=
  (ready <- lift (ensureClient config);;
   if (ready : bool) then
     _ <- lift (queryPricesDatabase sv 1%nat);;
     writeRows sv prices (mkUpdateResult 0 [])
   else ret (mkUpdateResult 0 ["all"%string]))%world.

Definition PRICE_UPDATE_INTERVAL_MS : Z := 60 * 60 * 1000.
Definition ERROR_ALERT_COOLDOWN_MS : Z := 12 * 60 * 60 * 1000.

(** [assetSymbols.map(symbol => symbol === 'ADA' ? 'Ada' : symbol)]. *)
Definition toLiqwidSymbols (assetSymbols : list string) : list string :=
  map (fun symbol : string =>
         if String.eqb symbol "ADA" then "Ada"%string else symbol)
      assetSymbols.

(** Step 3, the body of the inner [try]. The handler first copies
    [env.NOTION_API_TOKEN] into the configuration when the validated one is
    missing; validation already took the token from the same variable, so
    the copy never changes whether a token is present and is left out. *)
Definition updatePrices (sv : Services) (appConfig : WorkerEnv) : M unit :=
  (lastPriceUpdateTime <- state_get "lastPriceUpdateTime";;
   currentTime <- now;;
   if falsy lastPriceUpdateTime
      || match lastPriceUpdateTime with
         | Some s =>
           Ms.gt (Ms.sub (Some currentTime) (parseInt s))
                 PRICE_UPDATE_INTERVAL_MS
         | None => false
         end
   then
     assetSymbols <- getAssetSymbols sv appConfig;;
     if (0 <? length assetSymbols)%nat then
       let liqwidSymbols := toLiqwidSymbols assetSymbols in
       prices <- lift (getPrices sv liqwidSymbols);;
       _ <- updatePriceDatabase sv appConfig prices;;
       state_put "lastPriceUpdateTime" (toString currentTime)
     else ret tt
   else ret tt)%world.

(** The body of the [try] inside the outer [catch]. *)
Definition errorAlert (sv : Services) : M unit :=
  (lastErrorTime <- state_get "lastErrorAlertTime";;
   currentTime <- now;;
   if falsy lastErrorTime
      || match lastErrorTime with
         | Some s =>
           Ms.gt (Ms.sub (Some currentTime) (parseInt s))
                 ERROR_ALERT_COOLDOWN_MS
         | None => false
         end
   then
     validatedErrorEnv <- lift (createEnv sv);;
     _ <- sendAlert error ErrorMessage validatedErrorEnv;;
     state_put "lastErrorAlertTime" (toString currentTime)
   else ret tt)%world.

(** Steps 1 to 3, the body of the outer [try]. *)
Definition monitor (sv : Services) : M unit :=
  (validatedEnv <- lift (createEnv sv);;
   let appConfig := validatedEnv in
   loansSnapshot <- lift (fetchLoansSnapshot sv);;
   _ <- processLoans validatedEnv loansSnapshot;;
   if present (NOTION_PRICES_DB_ID validatedEnv) then
     try_catch (updatePrices sv appConfig) (ret tt)
   else ret tt)%world.

(** The outer [catch]: the error alert, whose own failures are logged and
    dropped. *)
Definition handleFailure (sv : Services) : M unit :=
  try_catch (errorAlert sv) (ret tt).

(** [scheduled(event, env, ctx)]. *)
Definition scheduled (sv : Services) : M unit :=
  try_catch (monitor sv) (handleFailure sv).

(** ** Notions used in the statements *)

(** The test both throttles make on the text read from the store: nothing
    (or an empty text) was stored, or strictly more than [limit]
    milliseconds passed since the stored instant. *)
Definition window_passed (last : option text) (currentTime limit : Z) : bool :=
  falsy last
  || match last with
     | Some s => Ms.gt (Ms.sub (Some currentTime) (parseInt s)) limit
     | None => false
     end.

(** The alert level the handler uses for a tier, none for [safe]. *)
Definition tier_level (r : RiskLevel) : option AlertLevel :=
  match r with
  | safe => None
  | warning_risk => Some warning
  | critical_risk => Some critical
  end.

(** What a wait or a request to Telegram leaves untouched: the store, the
    outbox and the mirror; the clock does not go back. *)
Definition transport_step (w w' : World) : Prop :=
  kv w' = kv w /\ outbox w' = outbox w /\ mirrored w' = mirrored w /\
  telegram w' = telegram w /\ clock w <= clock w'.

(** ** Sample inputs *)

(** A bound, answering and empty namespace. *)
Definition empty_store : KVNamespace := mkKV ∅ true.

(** A namespace holding one record for loan L1. *)
Definition store_with (r : AlertRecord) : KVNamespace :=
  mkKV {[ AlertManager.key "L1" := mkKVEntry (JSON_stringify r) None ]} true.

(** A namespace holding one text for loan L1. *)
Definition store_with_text (s : text) : KVNamespace :=
  mkKV {[ AlertManager.key "L1" := mkKVEntry s None ]} true.

(** A bound namespace whose requests all reject. *)
Definition unreachable_store : KVNamespace := mkKV ∅ false.

(** A validated environment with the specification's thresholds and no
    price mirror. *)
Definition sample_env : WorkerEnv :=
  mkWorkerEnv Num.n1_7 Num.n1_5 "token" "chat" None None.

(** A world with the given store at instant [1000], where Telegram refuses
    every request. *)
Definition deaf_world (k : option KVNamespace) : World :=
  mkWorld k 1000 (fun _ => NetworkError) 0 [] [].

(** A world with the given store and clock, where Telegram accepts every
    request. *)
Definition calm_world (k : option KVNamespace) (t : Z) : World :=
  mkWorld k t (fun _ => Ok200) 0 [] [].

Definition loan_L1 : LoanInfo := mkLoan "L1" Num.n1_4 "ADA".
Definition loan_L2 : LoanInfo := mkLoan "L2" Num.n1_6 "DJED".

(** Services of a run that fetches the single loan L1 and has no mirror. *)
Definition one_loan_services : Services :=
  mkServices (Return sample_env) (Return [loan_L1]) (fun _ => Return [])
             (fun _ => Return []) (fun _ => true).

(** Services of a run whose loan fetch fails. *)
Definition failing_services : Services :=
  mkServices (Return sample_env) Throw (fun _ => Return [])
             (fun _ => Return []) (fun _ => true).

(** A validated environment with a price mirror configured. *)
Definition mirror_env : WorkerEnv :=
  mkWorkerEnv Num.n1_7 Num.n1_5 "token" "chat" (Some "db"%string)
              (Some "secret"%string).

(** Services of a run with no loans, where the mirror lists one asset and
    refuses every row written to it. *)
Definition refusing_mirror : Services :=
  mkServices (Return mirror_env) (Return []) (fun _ => Return ["ADA"%string])
             (fun symbols => Return symbols) (fun _ => false).


(** A namespace holding one instant under one key. *)
Definition store_with_time (key : string) (t : Z) : KVNamespace :=
  mkKV {[ key := mkKVEntry (toString t) None ]} true.

(** ** What one iteration of the loop does *)

(** One iteration, from world [w] to world [w2] with [sent] pushed to
    [alertsSent]: the loan is classified; a safe loan changes nothing; for a
    loan at risk the cooldown manager is consulted at [w], and when it
    permits, one dispatch is logged (with whatever [ok] the transport gave,
    after the waits that took the world to [wd]) and the alert is recorded
    at the instant of [wd]. *)
Definition iteration (validatedEnv : WorkerEnv) (loan : LoanInfo)
    (w w2 : World) (sent : list AlertSent) : Prop :=
  match tier_level (getRiskLevel (healthFactor loan) (HF_WARN validatedEnv)
                                 (HF_CRIT validatedEnv)) with
  | None => sent = [] /\ w2 = w
  | Some lvl =>
    if AlertManager.shouldSendAlert (kv w) (clock w) (id loan) lvl
         (loan_assetSymbol loan)
    then
      exists ok wd,
        transport_step w wd /\
        sent = [mkAlertSent (loan_assetSymbol loan) (id loan)
                  (healthFactor loan) lvl] /\
        w2 = set_kv
               (AlertManager.recordAlert (kv w) (clock wd) (id loan) lvl
                  (loan_assetSymbol loan))
               (log_dispatch
                  (mkDispatch lvl
                     (LoanMessage lvl (loan_assetSymbol loan)
                        (healthFactor loan)) ok) wd)
    else sent = [] /\ w2 = w
  end.

(** ** Computing a health factor (lib/healthFactor.ts) *)

(** Arithmetic on numbers, in binary64. *)
Definition num_mul (x y : Num.number) : Num.number := SFmul 53 1024 x y.
Definition num_div (x y : Num.number) : Num.number := SFdiv 53 1024 x y.

(** Truthiness of a number: zero of either sign and NaN are falsy. *)
Definition truthy (x : Num.number) : bool :=
  match x with
  | S754_zero _ | S754_nan => false
  | _ => true
  end.

(** [x === 0]. *)
Definition is_zero (x : Num.number) : bool :=
  match x with
  | S754_zero _ => true
  | _ => false
  end.

(** The fields of [Loan] (lib/models.ts) that [calculateHealthFactor] reads;
    [borrowedAmount] may be [undefined]. *)
Record Loan := mkLoanData {
  loan_healthFactor : Num.number;
  collateralValue : Num.number;
  borrowedAmount : option Num.number
}.

(** The default liquidation threshold, [0.825]. *)
Definition default_liquidationThreshold : Num.number :=
  S754_finite false 7430939385161318 (-53).

(** [calculateHealthFactor(loan, liquidationThreshold)]. *)
Definition calculateHealthFactor (loan : Loan)
    (liquidationThreshold : Num.number) : Num.number :=
  if truthy (loan_healthFactor loan) then loan_healthFactor loan
  else
    match borrowedAmount loan with
    | Some borrowed =>
      if truthy (collateralValue loan) then
        if is_zero borrowed then Num.Infinity
        else num_div (num_mul (collateralValue loan) liquidationThreshold)
                     borrowed
      else Num.n0
    | None => Num.n0
    end.

(** ** The in-memory cache (lib/cache/simpleCache.ts) *)

Module SimpleCache.

(** A stored value with its expiry instant. *)
Record entry (T : Type) := mkEntry {
  data : T;
  expiresAt : Z
}.
Arguments mkEntry {T} data expiresAt.
Arguments data {T} e.
Arguments expiresAt {T} e.

(** [get(key)] with [Date.now()] reading [now]: the value or [undefined],
    and the cache after the call (an expired entry is deleted). *)
Definition get {T} (cache : gmap string (entry T)) (now : Z) (key : string)
  : option T * gmap string (entry T) :=
  match cache !! key with
  | None => (None, cache)
  | Some e =>
    if expiresAt e <? now then (None, delete key cache)
    else (Some (data e), cache)
  end.

(** [set(key, data, ttlSeconds)] with [Date.now()] reading [now]. *)
Definition set {T} (cache : gmap string (entry T)) (now : Z) (key : string)
    (d : T) (ttlSeconds : Z) : gmap string (entry T) :=
  <[key := mkEntry d (now + ttlSeconds * 1000)]> cache.

(** [getExpiry(key)]. *)
Definition getExpiry {T} (cache : gmap string (entry T)) (key : string)
  : option Z :=
  match cache !! key with
  | Some e => Some (expiresAt e)
  | None => None
  end.

End SimpleCache.

(** ** The Liqwid client's loan snapshot (lib/clients/liqwidClient.ts) *)

Module LiqwidClient.

Definition LOANS_CACHE_TTL : Z := 60.

(** The client's cache, as far as loan snapshots go (prices live under keys
    of another prefix), and the number of GraphQL requests it has sent. *)
Record state := mkState {
  cache : gmap string (SimpleCache.entry (list LoanInfo));
  sent : nat
}.

(** The key [`loans:${paymentAddress}`]. *)
Definition cacheKey (paymentAddress : string) : string :=
  "loans:" +:+ paymentAddress.

(** [fetchLoansSnapshot({ paymentAddress })]. [answer n] is what the [n]-th
    GraphQL request yields once transformed, or a failure; the call starts
    at [now] and a request it sends is answered at [answered]. *)
Definition fetchLoansSnapshot (answer : nat -> outcome (list LoanInfo))
    (now answered : Z) (st : state) (paymentAddress : string)
  : outcome (list LoanInfo) * state :=
  if negb (nonempty paymentAddress) then (Throw, st)
  else
    let '(cachedData, cache1) :=
      SimpleCache.get (cache st) now (cacheKey paymentAddress) in
    match cachedData with
    | Some loans => (Return loans, mkState cache1 (sent st))
    | None =>
      match answer (sent st) with
      | Return loans =>
        (Return loans,
         mkState (SimpleCache.set cache1 answered (cacheKey paymentAddress)
                    loans LOANS_CACHE_TTL)
                 (S (sent st)))
      | Throw => (Throw, mkState cache1 (S (sent st)))
      end
    end.

End LiqwidClient.

(** ** The price provider (lib/providers/liqwidPriceProvider.ts) *)

(** [AssetPrice] of the Liqwid client. *)
Record AssetPrice := mkAssetPrice {
  ap_priceADA : Num.number;
  ap_exchangeRate : Num.number;
  ap_updatedAt : string;
  ap_priceUpdatedAt : string
}.

(** [PriceInfo] (lib/models/price.ts). *)
Record PriceInfo := mkPriceInfo {
  priceADA : Num.number;
  exchangeRate : Num.number;
  updatedAt : string;
  sourceUpdatedAt : string
}.

(** The number [1]. *)
Definition n1 : Num.number := S754_finite false 4503599627370496 (-52).

(** *** Records as objects

    [Record<string, T>] values are ordinary objects. [Object.entries] and
    [for ... in] enumerate the own properties of such an object with the
    array-index keys first, in ascending numeric order, and the other keys
    after them in the order in which they were created. An object is
    modelled by the list of its entries in that order. *)

(** The value of a decimal digit: the code units 48 to 57. *)
Definition digit (c : ascii) : option N :=
  let code := N_of_ascii c in
  if (48 <=? code)%N && (code <=? 57)%N then Some (code - 48)%N else None.

(** The value of a text made of decimal digits only. *)
Fixpoint digits (s : string) (acc : N) : option N :=
  match s with
  | EmptyString => Some acc
  | String c rest =>
    match digit c with
    | Some d => digits rest (10 * acc + d)%N
    | None => None
    end
  end.

(** An array index is the canonical decimal text of an integer below
    [2^32 - 1]: digits only and no leading zero. *)
Definition array_index (key : string) : option N :=
  match key with
  | EmptyString => None
  | String c rest =>
    if Ascii.eqb c "0" && negb (String.eqb rest "") then None
    else
      match digits key 0 with
      | Some n => if (n <? 4294967295)%N then Some n else None
      | None => None
      end
  end.

(** Whether a property named [key] is enumerated before one named [k]
    that was created earlier. *)
Definition enumerated_before (key k : string) : bool :=
  match array_index key, array_index k with
  | Some i, Some j => (i <? j)%N
  | Some _, None => true
  | None, _ => false
  end.

(** The keys of an object, as enumerated: no key twice, and none enumerated
    before one that precedes it. *)
Fixpoint enumeration_order (keys : list string) : bool :=
  match keys with
  | [] => true
  | k :: rest =>
    forallb (fun key => negb (String.eqb key k)
                        && negb (enumerated_before key k)) rest
    && enumeration_order rest
  end.

Definition has_key {V} (o : list (string * V)) (key : string) : bool :=
  existsb (fun entry => String.eqb (fst entry) key) o.

(** A new property takes its place in the enumeration. *)
Fixpoint create_property {V} (o : list (string * V)) (key : string) (v : V)
  : list (string * V) :=
  match o with
  | [] => [(key, v)]
  | entry :: rest =>
    if enumerated_before key (fst entry) then (key, v) :: entry :: rest
    else entry :: create_property rest key v
  end.

(** [o[key] = v] for a key other than [__proto__] (which names the
    prototype, not a property): an existing property keeps its place. *)
Definition set_property {V} (o : list (string * V)) (key : string) (v : V)
  : list (string * V) :=
  if has_key o key then
    map (fun entry : string * V =>
           if String.eqb (fst entry) key then (fst entry, v) else entry) o
  else create_property o key v.

(** The first loop of [getPrices], as far as [adaUsdPrice] goes: the price
    of the entry named ADA, if there is one, else [1]. *)
Definition adaUsdPrice (rawPrices : list (string * AssetPrice))
  : Num.number :=
  fold_left
    (fun acc (entry : string * AssetPrice) =>
       if String.eqb (fst entry) "ADA" then ap_priceADA (snd entry) else acc)
    rawPrices n1.

(** The first loop of [getPrices], as far as [mappedPrices] goes: starting
    from [{}], one assignment [mappedPrices[symbol] = {...}] per entry of
    [Object.entries(rawPrices)]. *)
Definition mapPrices (rawPrices : list (string * AssetPrice))
  : list (string * PriceInfo) :=
  fold_left
    (fun mappedPrices (entry : string * AssetPrice) =>
       set_property mappedPrices (fst entry)
         (mkPriceInfo (ap_priceADA (snd entry)) (ap_exchangeRate (snd entry))
                      (ap_updatedAt (snd entry))
                      (ap_priceUpdatedAt (snd entry))))
    rawPrices [].

(** [LiqwidPriceProvider.getPrices(symbols)] over a client whose
    [fetchMarketPrices] is given. The client's record is given by
    [Object.entries(rawPrices)] and the result by its entries as enumerated;
    the second loop, [for (const symbol in mappedPrices)], divides every
    price in place. *)
Definition LiqwidPriceProvider_getPrices
    (fetchMarketPrices : list string -> outcome (list (string * AssetPrice)))
    (symbols : list string) : outcome (list (string * PriceInfo)) :=
  if (length symbols =? 0)%nat then Return []
  else
    match fetchMarketPrices symbols with
    | Return rawPrices =>
      Return
        (map (fun entry : string * PriceInfo =>
                (fst entry,
                 mkPriceInfo
                   (num_div (priceADA (snd entry)) (adaUsdPrice rawPrices))
                   (exchangeRate (snd entry))
                   (updatedAt (snd entry))
                   (sourceUpdatedAt (snd entry))))
             (mapPrices rawPrices))
    | Throw => Throw
    end.

(** ** The Liqwid client's market prices (lib/clients/liqwidClient.ts) *)

Module LiqwidPrices.

Definition PRICES_CACHE_TTL : Z := 300.

(** The order of [Array.prototype.sort()] without comparator: strings are
    compared code unit by code unit (for the ASCII symbols of the markets,
    character by character). *)
Definition code_unit_le (a b : string) : Prop :=
  String_as_OT.compare a b <> Gt.

#[global] Instance code_unit_le_dec : RelDecision code_unit_le.
Proof.
  intros a b. unfold code_unit_le.
  destruct (String_as_OT.compare a b); [left|left|right]; congruence.
Defined.

(** [symbols.sort()]. *)
Definition sort (symbols : list string) : list string :=
  merge_sort code_unit_le symbols.

(** [symbols.join(sep)]. *)
Fixpoint join (sep : string) (symbols : list string) : string :=
  match symbols with
  | [] => ""
  | [symbol] => symbol
  | symbol :: rest => symbol +:+ sep +:+ join sep rest
  end.

(** The client's cache, as far as prices go, and the number of GraphQL
    requests it has sent. *)
Record state := mkState {
  cache : gmap string (SimpleCache.entry (list (string * AssetPrice)));
  sent : nat
}.

(** The key [`prices:${opts.symbols.sort().join(',')}`]. *)
Definition cacheKey (symbols : list string) : string :=
  "prices:" +:+ join "," (sort symbols).

(** [fetchMarketPrices({ symbols })]. [answer n ids] is what the [n]-th
    GraphQL request yields for the market ids [ids] once transformed, or a
    failure; the call starts at [now] and a request it sends is answered at
    [answered]. The caller's array is sorted in place: the third component
    is the array after the call. *)
Definition fetchMarketPrices
    (answer : nat -> list string -> outcome (list (string * AssetPrice)))
    (now answered : Z) (st : state) (symbols : list string)
  : outcome (list (string * AssetPrice)) * state * list string :=
  if (length symbols =? 0)%nat then (Throw, st, symbols)
  else
    let sorted := sort symbols in
    let '(cachedData, cache1) :=
      SimpleCache.get (cache st) now (cacheKey symbols) in
    match cachedData with
    | Some prices => (Return prices, mkState cache1 (sent st), sorted)
    | None =>
      match answer (sent st) sorted with
      | Return prices =>
        (Return prices,
         mkState (SimpleCache.set cache1 answered (cacheKey symbols) prices
                    PRICES_CACHE_TTL)
                 (S (sent st)),
         sorted)
      | Throw => (Throw, mkState cache1 (S (sent st)), sorted)
      end
    end.

End LiqwidPrices.

(** ** The context logger (logger.ts) *)

Module Logger.

Inductive LogLevel := trace | debug | info_level | warn | error_level | fatal.

(** One call of the base logger: the level, the merged fields and the
    message. *)
Record LogCall (V : Type) := mkLogCall {
  call_level : LogLevel;
  call_fields : gmap string V;
  call_message : string
}.
Arguments mkLogCall {V} call_level call_fields call_message.
Arguments call_fields {V} l.

(** [{ ...a, ...b }]: the fields of [b] win. *)
Definition spread {V} (a b : gmap string V) : gmap string V := b ∪ a.

(** A [ContextLogger] is its context; the base logger is the list of calls
    it received. *)
Definition withContext {V} (this context : gmap string V) : gmap string V :=
  spread this context.

(** [log(level, message, data)]. *)
Definition log {V} (this : gmap string V) (level : LogLevel)
    (message : string) (data : gmap string V) (base : list (LogCall V))
  : list (LogCall V) :=
  base ++ [mkLogCall level (spread this data) message].

End Logger.

(** ** Further notions used in the statements *)

(** The entry stored under a key of the binding, if any. *)
Definition kv_lookup (o : option KVNamespace) (key : string)
  : option KVEntry :=
  match o with
  | Some k => entries k !! key
  | None => None
  end.

(** Among [attempts] answers of Telegram starting with the one numbered
    [start], the position of the first accepted request. *)
Fixpoint first_ok (answers : nat -> Response) (start attempts : nat)
  : option nat :=
  match attempts with
  | O => None
  | S n =>
    match answers start with
    | Ok200 => Some O
    | _ => option_map S (first_ok answers (S start) n)
    end
  end.

Definition isSome {A} (o : option A) : bool :=
  match o with Some _ => true | None => false end.

Definition rate_limited (r : Response) : bool :=
  match r with TooManyRequests _ => true | _ => false end.

(** The entry of [alertsSent] a loan gives rise to when nothing holds its
    alert back: none for a safe loan. *)
Definition alert_of (validatedEnv : WorkerEnv) (loan : LoanInfo)
  : list AlertSent :=
  match tier_level (getRiskLevel (healthFactor loan) (HF_WARN validatedEnv)
                                 (HF_CRIT validatedEnv)) with
  | Some lvl =>
    [mkAlertSent (loan_assetSymbol loan) (id loan) (healthFactor loan) lvl]
  | None => []
  end.

(** How alarming a tier is. *)
Definition severity (r : RiskLevel) : nat :=
  match r with
  | safe => 0
  | warning_risk => 1
  | critical_risk => 2
  end.

(** * Properties *)

(** ** Order facts on numbers *)

(** Case analysis on the three-way comparison of two numbers. *)
Ltac order_cases :=
  repeat match goal with
    | H : context [PosDef.Pos.compare_cont Eq ?a ?b] |- _ =>
        change (PosDef.Pos.compare_cont Eq a b) with (Pos.compare a b) in H
    | |- context [PosDef.Pos.compare_cont Eq ?a ?b] =>
        change (PosDef.Pos.compare_cont Eq a b) with (Pos.compare a b)
    end;
  repeat match goal with
    | H : context [Z.compare ?a ?b] |- _ =>
        destruct (Z.compare_spec a b); simpl in H; try discriminate H
    | |- context [Z.compare ?a ?b] =>
        destruct (Z.compare_spec a b); simpl
    | H : context [Pos.compare ?a ?b] |- _ =>
        destruct (Pos.compare_spec a b); simpl in H; try discriminate H
    | |- context [Pos.compare ?a ?b] =>
        destruct (Pos.compare_spec a b); simpl
    end;
  subst; try reflexivity; try discriminate; try lia.

Lemma lt_not_nan x y :
  Num.lt x y = true -> Num.isNaN x = false /\ Num.isNaN y = false.
Proof.
  unfold Num.lt, SFltb, SFcompare, Num.isNaN.
  destruct x as [| | |? ? ?], y as [| | |? ? ?]; simpl; intros H;
    try discriminate H; split; reflexivity.
Qed.

(** Among numbers that are not NaN the order is total: [x < y] fails
    exactly when [x >= y]. *)
Lemma lt_false_iff_ge x y :
  Num.isNaN x = false -> Num.isNaN y = false ->
  Num.lt x y = false <-> Num.ge x y = true.
Proof.
  unfold Num.lt, Num.ge, SFltb, SFleb, SFcompare, Num.isNaN.
  destruct x as [[]|[]| |[] mx ex], y as [[]|[]| |[] my ey]; simpl;
    intros Hx Hy; try discriminate; try (split; congruence);
    split; intros H; order_cases.
Qed.

Lemma lt_le_trans x y z :
  Num.lt x y = true -> Num.le y z = true -> Num.lt x z = true.
Proof.
  unfold Num.lt, Num.le, SFltb, SFleb, SFcompare.
  destruct x as [[]|[]| |[] mx ex], y as [[]|[]| |[] my ey],
    z as [[]|[]| |[] mz ez]; simpl;
    intros Hxy Hyz; try discriminate; try reflexivity; order_cases.
Qed.

Lemma lt_le x y : Num.lt x y = true -> Num.le x y = true.
Proof.
  unfold Num.lt, Num.le, SFltb, SFleb.
  destruct (SFcompare x y) as [[]|]; congruence.
Qed.

Lemma lt_nan_l y : Num.lt Num.NaN y = false.
Proof. reflexivity. Qed.

(** Every value of [0, +infinity] is a number. *)
Lemma nonnegative_not_nan x : Num.le Num.n0 x = true -> Num.isNaN x = false.
Proof. destruct x; simpl; intros H; try reflexivity; discriminate H. Qed.

(** ** The risk classifier *)

Example getRiskLevel_1_8 : getRiskLevel Num.n1_8 Num.n1_7 Num.n1_5 = safe.
Proof. reflexivity. Qed.
Example getRiskLevel_1_6 :
  getRiskLevel Num.n1_6 Num.n1_7 Num.n1_5 = warning_risk.
Proof. reflexivity. Qed.
Example getRiskLevel_1_4 :
  getRiskLevel Num.n1_4 Num.n1_7 Num.n1_5 = critical_risk.
Proof. reflexivity. Qed.
Example getRiskLevel_at_warn :
  getRiskLevel Num.n1_7 Num.n1_7 Num.n1_5 = safe.
Proof. reflexivity. Qed.
Example getRiskLevel_at_crit :
  getRiskLevel Num.n1_5 Num.n1_7 Num.n1_5 = warning_risk.
Proof. reflexivity. Qed.
Example getRiskLevel_infinity :
  getRiskLevel Num.Infinity Num.n1_7 Num.n1_5 = safe.
Proof. reflexivity. Qed.
Example getRiskLevel_zero : getRiskLevel Num.n0 Num.n1_7 Num.n1_5 = critical_risk.
Proof. reflexivity. Qed.

(** The branch [processLoan] takes is the tier [getRiskLevel] returns: the
    handler inlines the classifier's two comparisons in the same order. *)
Lemma processLoan_by_tier validatedEnv loan w :
  match getRiskLevel (healthFactor loan) (HF_WARN validatedEnv)
                     (HF_CRIT validatedEnv) with
  | safe => processLoan validatedEnv loan w = (Return [], w)
  | warning_risk =>
      Num.lt (healthFactor loan) (HF_CRIT validatedEnv) = false /\
      Num.lt (healthFactor loan) (HF_WARN validatedEnv) = true
  | critical_risk => Num.lt (healthFactor loan) (HF_CRIT validatedEnv) = true
  end.
Proof.
  unfold getRiskLevel, processLoan.
  destruct (Num.lt (healthFactor loan) (HF_CRIT validatedEnv)); [reflexivity|].
  destruct (Num.lt (healthFactor loan) (HF_WARN validatedEnv)); [split|];
    reflexivity.
Qed.

(** C4. For thresholds with [crit < warn] and a health factor that is a
    number (not NaN; in particular any value of [0, +infinity]),
    [getRiskLevel] returns [critical] exactly when [healthFactor < crit],
    [warning] exactly when [crit <= healthFactor < warn] and [safe] exactly
    when [healthFactor >= warn]: a threshold itself belongs to the safer
    tier, and the three intervals partition the domain. *)
Theorem getRiskLevel_partition (healthFactor warn crit : Num.number) :
  Num.lt crit warn = true ->
  Num.isNaN healthFactor = false ->
  (getRiskLevel healthFactor warn crit = critical_risk
     <-> Num.lt healthFactor crit = true) /\
  (getRiskLevel healthFactor warn crit = warning_risk
     <-> Num.le crit healthFactor = true /\ Num.lt healthFactor warn = true) /\
  (getRiskLevel healthFactor warn crit = safe
     <-> Num.ge healthFactor warn = true).
Proof.
  intros Hcw Hhf.
  destruct (lt_not_nan _ _ Hcw) as [Hc Hw].
  pose proof (lt_false_iff_ge healthFactor crit Hhf Hc) as Tc.
  pose proof (lt_false_iff_ge healthFactor warn Hhf Hw) as Tw.
  unfold Num.ge in Tc, Tw. unfold Num.ge, Num.le, getRiskLevel.
  destruct (Num.lt healthFactor crit) eqn:Ec.
  - (* below the critical threshold *)
    assert (Hlw : Num.lt healthFactor warn = true)
      by (eapply lt_le_trans; [exact Ec | apply lt_le; exact Hcw]).
    split; [split; intros; reflexivity|].
    split; (split; [intros H; discriminate H|]).
    + intros [H _]. apply Tc in H. discriminate H.
    + intros H. apply Tw in H. congruence.
  - assert (Hge : SFleb crit healthFactor = true) by (apply Tc; reflexivity).
    destruct (Num.lt healthFactor warn) eqn:Ew.
    + split; [split; intros H; discriminate H|].
      split; [split; [intros _; split; [exact Hge|reflexivity]
                     |intros _; reflexivity]|].
      split; [intros H; discriminate H|].
      intros H. apply Tw in H. discriminate H.
    + split; [split; intros H; discriminate H|].
      split; [split; [intros H; discriminate H|intros [_ H]; discriminate H]|].
      split; [intros _; apply Tw; reflexivity|intros _; reflexivity].
Qed.

Lemma getRiskLevel_partition_witness :
  Num.lt Num.n1_5 Num.n1_7 = true /\
  Num.isNaN Num.n1_5 = false /\
  ((getRiskLevel Num.n1_5 Num.n1_7 Num.n1_5 = critical_risk
      <-> Num.lt Num.n1_5 Num.n1_5 = true) /\
   (getRiskLevel Num.n1_5 Num.n1_7 Num.n1_5 = warning_risk
      <-> Num.le Num.n1_5 Num.n1_5 = true /\ Num.lt Num.n1_5 Num.n1_7 = true) /\
   (getRiskLevel Num.n1_5 Num.n1_7 Num.n1_5 = safe
      <-> Num.ge Num.n1_5 Num.n1_7 = true)).
Proof.
  split; [reflexivity|]. split; [reflexivity|].
  apply (getRiskLevel_partition Num.n1_5 Num.n1_7 Num.n1_5); reflexivity.
Defined.

(** ** The alert manager *)

Lemma throttled_level lvl :
  lvl = warning \/ lvl = critical ->
  bool_decide (lvl <> warning /\ lvl <> critical) = false.
Proof. intros [-> | ->]; reflexivity. Qed.

(** The decision against a record that the store returns. *)
Lemma shouldSendAlert_stored k id sym r lvl now :
  kv_get k (AlertManager.key id) now = Return (Some (JSON_stringify r)) ->
  lvl = warning \/ lvl = critical ->
  AlertManager.shouldSendAlert (Some k) now id lvl sym =
    (bool_decide (lvl = critical) && bool_decide (level r = warning))
    || (AlertManager.COOLDOWN_MS <=? now - timestamp r).
Proof.
  intros Hget Hl. unfold AlertManager.shouldSendAlert.
  rewrite (throttled_level _ Hl), Hget. simpl.
  destruct Hl as [-> | ->], (level r); simpl;
    destruct (AlertManager.COOLDOWN_MS <=? now - timestamp r); reflexivity.
Qed.

(** The decision when the store returns nothing for the loan. *)
Lemma shouldSendAlert_absent k id sym lvl now :
  kv_get k (AlertManager.key id) now = Return None ->
  AlertManager.shouldSendAlert (Some k) now id lvl sym = true.
Proof.
  intros Hget. unfold AlertManager.shouldSendAlert. rewrite Hget. simpl.
  destruct (bool_decide _); reflexivity.
Qed.

(** What [recordAlert] leaves in a namespace that accepts the write. *)
Lemma recordAlert_online k id sym lvl t :
  online k = true ->
  lvl = warning \/ lvl = critical ->
  AlertManager.recordAlert (Some k) t id lvl sym =
    Some (mkKV (<[AlertManager.key id :=
                   mkKVEntry (JSON_stringify (mkAlertRecord lvl t sym))
                     (Some (t + AlertManager.KV_TTL_SECONDS * 1000))]>
                (entries k)) true).
Proof.
  intros Hon Hl. unfold AlertManager.recordAlert, kv_put.
  rewrite (throttled_level _ Hl), Hon. reflexivity.
Qed.

(** Reading the loan's key back at [t'] after a record made at [t]: the
    record, until the store's retention of one hour drops it. *)
Lemma kv_get_recorded k id sym lvl t t' :
  kv_get (mkKV (<[AlertManager.key id :=
                   mkKVEntry (JSON_stringify (mkAlertRecord lvl t sym))
                     (Some (t + AlertManager.KV_TTL_SECONDS * 1000))]>
                (entries k)) true)
         (AlertManager.key id) t' =
  Return (if t + AlertManager.KV_TTL_SECONDS * 1000 <=? t' then None
          else Some (JSON_stringify (mkAlertRecord lvl t sym))).
Proof.
  unfold kv_get. simpl. rewrite lookup_insert_eq. reflexivity.
Qed.

(** The decision at [t'] after a record made at [t]. *)
Lemma shouldSendAlert_after_record k id sym sym' lvl lvl' t t' :
  online k = true ->
  lvl = warning \/ lvl = critical ->
  lvl' = warning \/ lvl' = critical ->
  AlertManager.shouldSendAlert
    (AlertManager.recordAlert (Some k) t id lvl sym) t' id lvl' sym' =
  (t + AlertManager.KV_TTL_SECONDS * 1000 <=? t')
  || (bool_decide (lvl' = critical) && bool_decide (lvl = warning))
  || (AlertManager.COOLDOWN_MS <=? t' - t).
Proof.
  intros Hon Hl Hl'. rewrite (recordAlert_online _ _ _ _ _ Hon Hl).
  pose proof (kv_get_recorded k id sym lvl t t') as Hget.
  destruct (t + AlertManager.KV_TTL_SECONDS * 1000 <=? t') eqn:Ettl.
  - rewrite (shouldSendAlert_absent _ _ _ _ _ Hget). reflexivity.
  - rewrite (shouldSendAlert_stored _ _ _ _ _ _ Hget Hl'). reflexivity.
Qed.

(** C1. With a store bound and answering, for a level [L] among warning and
    critical: when the store returns no record for the loan,
    [shouldSendAlert] is true; after [recordAlert(id, L, sym)] at [t],
    [shouldSendAlert(id, L, sym)] at [t'] is false when [t' - t] is below
    the ten-minute cooldown and true when it has reached it. *)
Theorem cooldown_rule (k : KVNamespace) (id sym : string) (L : AlertLevel)
    (t t' : Z) :
  online k = true ->
  L = warning \/ L = critical ->
  (kv_get k (AlertManager.key id) t = Return None ->
   AlertManager.shouldSendAlert (Some k) t id L sym = true) /\
  (t' - t < AlertManager.COOLDOWN_MS ->
   AlertManager.shouldSendAlert
     (AlertManager.recordAlert (Some k) t id L sym) t' id L sym = false) /\
  (AlertManager.COOLDOWN_MS <= t' - t ->
   AlertManager.shouldSendAlert
     (AlertManager.recordAlert (Some k) t id L sym) t' id L sym = true).
Proof.
  intros Hon HL. split; [apply shouldSendAlert_absent|].
  rewrite (shouldSendAlert_after_record _ _ _ _ _ _ _ _ Hon HL HL).
  unfold AlertManager.COOLDOWN_MS, AlertManager.KV_TTL_SECONDS.
  assert (Hesc : bool_decide (L = critical) && bool_decide (L = warning)
                 = false) by (destruct HL as [-> | ->]; reflexivity).
  rewrite Hesc, orb_false_r. split; intros Hel.
  - apply orb_false_iff. split; [apply Z.leb_gt|apply Z.leb_gt]; lia.
  - apply orb_true_iff. right. apply Z.leb_le. lia.
Qed.

Lemma cooldown_rule_witness :
  online empty_store = true /\
  (warning = warning \/ warning = critical) /\
  (kv_get empty_store (AlertManager.key "L1") 1000 = Return None ->
   AlertManager.shouldSendAlert (Some empty_store) 1000 "L1" warning "ADA"
   = true) /\
  (1000 - 1000 < AlertManager.COOLDOWN_MS ->
   AlertManager.shouldSendAlert
     (AlertManager.recordAlert (Some empty_store) 1000 "L1" warning "ADA")
     1000 "L1" warning "ADA" = false) /\
  (AlertManager.COOLDOWN_MS <= 601000 - 1000 ->
   AlertManager.shouldSendAlert
     (AlertManager.recordAlert (Some empty_store) 1000 "L1" warning "ADA")
     601000 "L1" warning "ADA" = true).
Proof.
  split; [reflexivity|]. split; [left; reflexivity|].
  split; [|split].
  - apply (cooldown_rule empty_store "L1" "ADA" warning 1000 1000);
      [reflexivity | left; reflexivity].
  - apply (cooldown_rule empty_store "L1" "ADA" warning 1000 1000);
      [reflexivity | left; reflexivity].
  - apply (cooldown_rule empty_store "L1" "ADA" warning 1000 601000);
      [reflexivity | left; reflexivity].
Defined.

Example cooldown_cycle :
  AlertManager.shouldSendAlert (Some empty_store) 1000 "L1" warning "ADA"
  = true /\
  AlertManager.shouldSendAlert
    (AlertManager.recordAlert (Some empty_store) 1000 "L1" warning "ADA")
    1000 "L1" warning "ADA" = false /\
  AlertManager.shouldSendAlert
    (AlertManager.recordAlert (Some empty_store) 1000 "L1" warning "ADA")
    600999 "L1" warning "ADA" = false /\
  AlertManager.shouldSendAlert
    (AlertManager.recordAlert (Some empty_store) 1000 "L1" warning "ADA")
    601000 "L1" warning "ADA" = true.
Proof. repeat split; vm_compute; reflexivity. Qed.

(** C2. When the record stored for a loan has level warning,
    [shouldSendAlert(id, critical, sym)] is true at every instant, however
    little time has passed since the record's timestamp: the escalation is
    decided before the elapsed time is looked at. *)
Theorem escalation_override (k : KVNamespace) (id sym : string)
    (e : KVEntry) (r : AlertRecord) (now : Z) :
  entries k !! AlertManager.key id = Some e ->
  value e = JSON_stringify r ->
  level r = warning ->
  AlertManager.shouldSendAlert (Some k) now id critical sym = true.
Proof.
  intros He Hv Hl. unfold AlertManager.shouldSendAlert, kv_get.
  rewrite He, Hv. simpl.
  destruct (online k); [|reflexivity].
  destruct (expired e now); simpl; [reflexivity|].
  rewrite Hl. reflexivity.
Qed.

Lemma escalation_override_witness :
  entries (store_with (mkAlertRecord warning 1000 "ADA"))
    !! AlertManager.key "L1"
  = Some (mkKVEntry (JSON_stringify (mkAlertRecord warning 1000 "ADA")) None) /\
  level (mkAlertRecord warning 1000 "ADA") = warning /\
  AlertManager.shouldSendAlert
    (Some (store_with (mkAlertRecord warning 1000 "ADA")))
    1000 "L1" critical "ADA" = true.
Proof.
  split; [reflexivity|]. split; [reflexivity|].
  apply (escalation_override
           (store_with (mkAlertRecord warning 1000 "ADA")) "L1" "ADA"
           (mkKVEntry (JSON_stringify (mkAlertRecord warning 1000 "ADA")) None)
           (mkAlertRecord warning 1000 "ADA") 1000); reflexivity.
Defined.

(** C5. When the store returns a record of level critical for a loan,
    [shouldSendAlert(id, warning, sym)] is the plain elapsed-time test
    against that record: false while less than the ten-minute cooldown has
    passed since its timestamp, true from then on. *)
Theorem deescalation_plain_cooldown (k : KVNamespace) (id sym : string)
    (r : AlertRecord) (now : Z) :
  kv_get k (AlertManager.key id) now = Return (Some (JSON_stringify r)) ->
  level r = critical ->
  AlertManager.shouldSendAlert (Some k) now id warning sym
  = (AlertManager.COOLDOWN_MS <=? now - timestamp r) /\
  (now - timestamp r < AlertManager.COOLDOWN_MS ->
   AlertManager.shouldSendAlert (Some k) now id warning sym = false) /\
  (AlertManager.COOLDOWN_MS <= now - timestamp r ->
   AlertManager.shouldSendAlert (Some k) now id warning sym = true).
Proof.
  intros Hget Hl.
  rewrite (shouldSendAlert_stored _ _ _ _ _ _ Hget (or_introl eq_refl)).
  simpl. repeat split.
  - intros H. apply Z.leb_gt. exact H.
  - intros H. apply Z.leb_le. exact H.
Qed.

Lemma deescalation_plain_cooldown_witness :
  kv_get (store_with (mkAlertRecord critical 1000 "ADA"))
         (AlertManager.key "L1") 2000
  = Return (Some (JSON_stringify (mkAlertRecord critical 1000 "ADA"))) /\
  AlertManager.shouldSendAlert
    (Some (store_with (mkAlertRecord critical 1000 "ADA")))
    2000 "L1" warning "ADA" = false.
Proof.
  split; [reflexivity|].
  apply (deescalation_plain_cooldown
           (store_with (mkAlertRecord critical 1000 "ADA")) "L1" "ADA"
           (mkAlertRecord critical 1000 "ADA") 2000);
    [reflexivity | reflexivity | reflexivity].
Defined.

(** C3. Fail-open. With no store bound, [shouldSendAlert] is true and
    [recordAlert] returns without throwing and changes nothing. With a store
    bound, [shouldSendAlert] is true whenever reading the loan's key rejects,
    whenever the text read is not JSON, and whenever reading the parsed
    value's fields throws. [recordAlert] never throws. *)
Theorem fail_open (id sym : string) (lvl : AlertLevel) (now : Z) :
  AlertManager.shouldSendAlert None now id lvl sym = true /\
  (forall w, kv w = None -> recordAlert id lvl sym w = (Return tt, w)) /\
  (forall w, fst (recordAlert id lvl sym w) = Return tt) /\
  (forall k, kv_get k (AlertManager.key id) now = Throw ->
     AlertManager.shouldSendAlert (Some k) now id lvl sym = true) /\
  (forall k s, kv_get k (AlertManager.key id) now = Return (Some s) ->
     JSON_parse s = Throw ->
     AlertManager.shouldSendAlert (Some k) now id lvl sym = true) /\
  (forall k s v, kv_get k (AlertManager.key id) now = Return (Some s) ->
     JSON_parse s = Return v ->
     get_timestamp v = Throw ->
     AlertManager.shouldSendAlert (Some k) now id lvl sym = true).
Proof.
  split; [reflexivity|].
  split.
  { intros [k0 c tg rq ob mr] Hk. simpl in Hk. subst k0. reflexivity. }
  split; [reflexivity|].
  split; [|split].
  - intros k Hget. unfold AlertManager.shouldSendAlert. rewrite Hget.
    destruct (bool_decide _); reflexivity.
  - intros k s Hget Hparse. unfold AlertManager.shouldSendAlert.
    rewrite Hget. destruct (bool_decide _); [reflexivity|].
    simpl. destruct s; simpl in *; try reflexivity. discriminate Hparse.
  - intros k s v Hget Hparse Hts. unfold AlertManager.shouldSendAlert.
    rewrite Hget. destruct (bool_decide _); [reflexivity|].
    simpl. destruct s; simpl in *; try reflexivity.
    injection Hparse as ->. rewrite Hts. reflexivity.
Qed.

Lemma fail_open_witness :
  kv_get unreachable_store (AlertManager.key "L1") 1000 = Throw /\
  AlertManager.shouldSendAlert (Some unreachable_store) 1000 "L1" warning "ADA"
  = true /\
  kv_get (store_with_text TInvalid) (AlertManager.key "L1") 1000
  = Return (Some TInvalid) /\
  JSON_parse TInvalid = Throw /\
  AlertManager.shouldSendAlert (Some (store_with_text TInvalid)) 1000 "L1"
    warning "ADA" = true /\
  get_timestamp JNull = Throw /\
  AlertManager.shouldSendAlert (Some (store_with_text (TJson JNull))) 1000
    "L1" warning "ADA" = true.
Proof.
  pose proof (fail_open "L1" "ADA" warning 1000) as (_ & _ & _ & Hr & Hp & Hn).
  split; [reflexivity|].
  split; [apply Hr; reflexivity|].
  split; [reflexivity|]. split; [reflexivity|].
  split; [apply (Hp _ TInvalid); reflexivity|].
  split; [reflexivity|].
  apply (Hn _ (TJson JNull) JNull); reflexivity.
Defined.

(** A text that parses to a value without the record's fields is no
    failure: the elapsed time is NaN, the comparison fails, and the alert is
    held back for as long as the text stays in the store. *)
Example shouldSendAlert_fieldless_text :
  AlertManager.shouldSendAlert (Some (store_with_text (toString 5))) 1000
    "L1" warning "ADA" = false.
Proof. reflexivity. Qed.

(** ** The messaging transport *)

Lemma transport_step_refl w : transport_step w w.
Proof. unfold transport_step. repeat split; lia. Qed.

Lemma transport_step_trans w1 w2 w3 :
  transport_step w1 w2 -> transport_step w2 w3 -> transport_step w1 w3.
Proof.
  unfold transport_step. intros (?&?&?&?&?) (?&?&?&?&?).
  repeat split; try congruence; lia.
Qed.

Lemma transport_step_fetch_sleep w delay :
  transport_step w (sleep delay (snd (fetch w))).
Proof. unfold transport_step, sleep, fetch. simpl. repeat split; lia. Qed.

Lemma transport_step_fetch w : transport_step w (snd (fetch w)).
Proof. unfold transport_step, fetch. simpl. repeat split; lia. Qed.

(** The retry loop ends within the iterations that are left: with
    [MAX_RETRIES + 1 - retries] units of fuel it returns. *)
Lemma sendAlert_loop_returns fuel retries w :
  (Z.to_nat (MAX_RETRIES + 1 - retries) <= fuel)%nat ->
  exists ok w', sendAlert_loop fuel retries w = Some (ok, w') /\
                transport_step w w'.
Proof.
  revert retries w. induction fuel as [|fuel IH]; intros retries w Hfuel.
  - simpl. destruct (retries <=? MAX_RETRIES) eqn:E.
    + apply Z.leb_le in E. unfold MAX_RETRIES in *. lia.
    + eexists _, _. split; [reflexivity|apply transport_step_refl].
  - simpl. destruct (retries <=? MAX_RETRIES) eqn:E;
      [|eexists _, _; split; [reflexivity|apply transport_step_refl]].
    apply Z.leb_le in E.
    assert (Hnext : (Z.to_nat (MAX_RETRIES + 1 - (retries + 1)) <= fuel)%nat)
      by (unfold MAX_RETRIES in *; lia).
    destruct (telegram w (requests w)) as [|retryAfter| |].
    + eexists _, _. split; [reflexivity|apply transport_step_fetch].
    + destruct (IH (retries + 1)
                  (sleep (retryAfter * 1000) (snd (fetch w))) Hnext)
        as (ok & w' & Hloop & Hstep).
      exists ok, w'. split; [exact Hloop|].
      eapply transport_step_trans; [apply transport_step_fetch_sleep|exact Hstep].
    + destruct (retries <? MAX_RETRIES).
      * destruct (IH (retries + 1)
                    (sleep (2 ^ retries * 1000) (snd (fetch w))) Hnext)
          as (ok & w' & Hloop & Hstep).
        exists ok, w'. split; [exact Hloop|].
        eapply transport_step_trans;
          [apply transport_step_fetch_sleep|exact Hstep].
      * eexists _, _. split; [reflexivity|apply transport_step_fetch].
    + destruct (retries <? MAX_RETRIES).
      * destruct (IH (retries + 1)
                    (sleep (2 ^ retries * 1000) (snd (fetch w))) Hnext)
          as (ok & w' & Hloop & Hstep).
        exists ok, w'. split; [exact Hloop|].
        eapply transport_step_trans;
          [apply transport_step_fetch_sleep|exact Hstep].
      * eexists _, _. split; [reflexivity|apply transport_step_fetch].
Qed.

(** [sendAlert] always resolves to a boolean: it throws on no answer of the
    transport. It logs its call and leaves the store alone. *)
Lemma sendAlert_returns lvl message config w :
  exists ok w',
    sendAlert lvl message config w
    = (Return ok, log_dispatch (mkDispatch lvl message ok) w') /\
    transport_step w w'.
Proof.
  unfold sendAlert.
  destruct (negb (nonempty (TELEGRAM_TOKEN config))
            || negb (nonempty (CHATID config))).
  - exists false, w. split; [reflexivity|apply transport_step_refl].
  - destruct (sendAlert_loop_returns 5 0 w) as (ok & w' & Hloop & Hstep);
      [unfold MAX_RETRIES; lia|].
    exists ok, w'. rewrite Hloop. split; [reflexivity|exact Hstep].
Qed.

(** Four refused requests exhaust the retries. *)
Example sendAlert_gives_up :
  forall w, (forall n, telegram w n = NetworkError) ->
  exists w', sendAlert_loop 5 0 w = Some (false, w') /\
             requests w' = (requests w + 4)%nat /\
             clock w' = clock w + 7000.
Proof.
  intros w Hnet. simpl. unfold fetch, sleep. simpl.
  rewrite !Hnet. simpl.
  eexists. split; [reflexivity|]. simpl. split; lia.
Qed.

(** ** The per-loan loop *)

(** The alert branch of [processLoan] for a tier, once the cooldown manager
    allowed it: the dispatch is logged, whatever it resolved to, and the
    alert is recorded at the instant the dispatch returned. *)
Lemma alert_branch_allowed validatedEnv lvl sym hf loanId w :
  AlertManager.shouldSendAlert (kv w) (clock w) loanId lvl sym = true ->
  exists ok w1,
    sendAlert lvl (LoanMessage lvl sym hf) validatedEnv w
    = (Return ok, log_dispatch (mkDispatch lvl (LoanMessage lvl sym hf) ok) w1)
    /\ transport_step w w1 /\
    (ok <- shouldSendAlert loanId lvl sym;;
     if (ok : bool) then
       _ <- sendAlert lvl (LoanMessage lvl sym hf) validatedEnv;;
       recordAlert loanId lvl sym;;
       ret [mkAlertSent sym loanId hf lvl]
     else ret [])%world w
    = (Return [mkAlertSent sym loanId hf lvl],
       set_kv (AlertManager.recordAlert (kv w) (clock w1) loanId lvl sym)
         (log_dispatch (mkDispatch lvl (LoanMessage lvl sym hf) ok) w1)).
Proof.
  intros Hallow.
  destruct (sendAlert_returns lvl (LoanMessage lvl sym hf) validatedEnv w)
    as (ok & w1 & Hsend & Hstep).
  exists ok, w1. split; [exact Hsend|]. split; [exact Hstep|].
  unfold bind, shouldSendAlert. rewrite Hallow, Hsend.
  unfold recordAlert, ret. simpl.
  destruct Hstep as (Hkv & _). rewrite Hkv. reflexivity.
Qed.

(** The alert branch when the cooldown manager holds the alert back. *)
Lemma alert_branch_suppressed validatedEnv lvl sym hf loanId w :
  AlertManager.shouldSendAlert (kv w) (clock w) loanId lvl sym = false ->
  (ok <- shouldSendAlert loanId lvl sym;;
   if (ok : bool) then
     _ <- sendAlert lvl (LoanMessage lvl sym hf) validatedEnv;;
     recordAlert loanId lvl sym;;
     ret [mkAlertSent sym loanId hf lvl]
   else ret [])%world w
  = (Return [], w).
Proof.
  intros Hno. unfold bind, shouldSendAlert. rewrite Hno. reflexivity.
Qed.

(** One iteration never throws, whatever the transport answers. *)
Lemma processLoan_returns validatedEnv loan w :
  exists sent w', processLoan validatedEnv loan w = (Return sent, w').
Proof.
  unfold processLoan.
  destruct (Num.lt (healthFactor loan) (HF_CRIT validatedEnv)).
  - destruct (AlertManager.shouldSendAlert (kv w) (clock w) (id loan) critical
                (loan_assetSymbol loan)) eqn:E.
    + destruct (alert_branch_allowed validatedEnv critical
                  (loan_assetSymbol loan) (healthFactor loan) (id loan) w E)
        as (ok & w1 & _ & _ & Hrun).
      rewrite Hrun. eauto.
    + rewrite (alert_branch_suppressed _ _ _ _ _ _ E). eauto.
  - destruct (Num.lt (healthFactor loan) (HF_WARN validatedEnv)).
    + destruct (AlertManager.shouldSendAlert (kv w) (clock w) (id loan)
                  warning (loan_assetSymbol loan)) eqn:E.
      * destruct (alert_branch_allowed validatedEnv warning
                    (loan_assetSymbol loan) (healthFactor loan) (id loan) w E)
          as (ok & w1 & _ & _ & Hrun).
        rewrite Hrun. eauto.
      * rewrite (alert_branch_suppressed _ _ _ _ _ _ E). eauto.
    + unfold ret. eauto.
Qed.

(** The loop never throws and lists every loan in [hf_results]. *)
Lemma processLoans_returns validatedEnv loans w :
  exists sent w',
    processLoans validatedEnv loans w = (Return (loans, sent), w').
Proof.
  revert w. induction loans as [|loan rest IH]; intros w.
  - simpl. unfold ret. eauto.
  - simpl. unfold bind.
    destruct (processLoan_returns validatedEnv loan w) as (s1 & w1 & H1).
    rewrite H1. destruct (IH w1) as (s2 & w2 & H2). rewrite H2.
    unfold ret. simpl. eauto.
Qed.

Lemma processLoans_cons validatedEnv loan rest w sent w1 r w2 :
  processLoan validatedEnv loan w = (Return sent, w1) ->
  processLoans validatedEnv rest w1 = (Return r, w2) ->
  processLoans validatedEnv (loan :: rest) w
  = (Return (loan :: fst r, sent ++ snd r), w2).
Proof.
  intros H1 H2. simpl. unfold bind. rewrite H1, H2. reflexivity.
Qed.

Lemma processLoans_app validatedEnv l1 l2 w r1 w1 r2 w2 :
  processLoans validatedEnv l1 w = (Return r1, w1) ->
  processLoans validatedEnv l2 w1 = (Return r2, w2) ->
  processLoans validatedEnv (l1 ++ l2) w
  = (Return (fst r1 ++ fst r2, snd r1 ++ snd r2), w2).
Proof.
  revert w r1 w1. induction l1 as [|loan rest IH]; intros w r1 w1 H1 H2.
  - simpl in H1. unfold ret in H1. injection H1 as <- <-.
    simpl. rewrite H2. destruct r2; reflexivity.
  - destruct (processLoan_returns validatedEnv loan w) as (s & wa & Ha).
    destruct (processLoans_returns validatedEnv rest wa) as (sr & wb & Hb).
    rewrite (processLoans_cons _ _ _ _ _ _ _ _ Ha Hb) in H1.
    injection H1 as <- <-.
    simpl app.
    erewrite (processLoans_cons _ _ _ w); [|exact Ha|].
    2:{ apply (IH _ _ _ Hb H2). }
    simpl. rewrite app_assoc. reflexivity.
Qed.

(** Each iteration classifies, consults, dispatches and records as
    [iteration] describes. *)
Lemma processLoan_spec validatedEnv loan w sent w2 :
  processLoan validatedEnv loan w = (Return sent, w2) ->
  iteration validatedEnv loan w w2 sent.
Proof.
  unfold processLoan, iteration, getRiskLevel.
  destruct (Num.lt (healthFactor loan) (HF_CRIT validatedEnv)); simpl.
  - destruct (AlertManager.shouldSendAlert (kv w) (clock w) (id loan) critical
                (loan_assetSymbol loan)) eqn:E.
    + destruct (alert_branch_allowed validatedEnv critical
                  (loan_assetSymbol loan) (healthFactor loan) (id loan) w E)
        as (ok & wd & _ & Hstep & Hrun).
      rewrite Hrun. intros H. injection H as <- <-. eauto.
    + rewrite (alert_branch_suppressed _ _ _ _ _ _ E).
      intros H. injection H as <- <-. auto.
  - destruct (Num.lt (healthFactor loan) (HF_WARN validatedEnv)); simpl.
    + destruct (AlertManager.shouldSendAlert (kv w) (clock w) (id loan)
                  warning (loan_assetSymbol loan)) eqn:E.
      * destruct (alert_branch_allowed validatedEnv warning
                    (loan_assetSymbol loan) (healthFactor loan) (id loan) w E)
          as (ok & wd & _ & Hstep & Hrun).
        rewrite Hrun. intros H. injection H as <- <-. eauto.
      * rewrite (alert_branch_suppressed _ _ _ _ _ _ E).
        intros H. injection H as <- <-. auto.
    + unfold ret. intros H. injection H as <- <-. auto.
Qed.

(** C8. Whatever happened to the loans processed before it, in particular
    whether their dispatches were delivered or failed, every loan of the
    list gets its own iteration: the loop never throws; the loan is
    classified, the cooldown manager is consulted, and a permitted alert is
    dispatched and recorded, all from the world the earlier loans left; the
    remaining loans follow; and [hf_results] lists every loan. *)
Theorem processLoans_isolation (validatedEnv : WorkerEnv)
    (before : list LoanInfo) (loan : LoanInfo) (after : list LoanInfo)
    (w : World) :
  exists s1 w1 sent w2 s2 w3,
    processLoans validatedEnv before w = (Return (before, s1), w1) /\
    processLoan validatedEnv loan w1 = (Return sent, w2) /\
    iteration validatedEnv loan w1 w2 sent /\
    processLoans validatedEnv after w2 = (Return (after, s2), w3) /\
    processLoans validatedEnv (before ++ loan :: after) w
    = (Return (before ++ loan :: after, s1 ++ sent ++ s2), w3).
Proof.
  destruct (processLoans_returns validatedEnv before w) as (s1 & w1 & H1).
  destruct (processLoan_returns validatedEnv loan w1) as (sent & w2 & H2).
  destruct (processLoans_returns validatedEnv after w2) as (s2 & w3 & H3).
  exists s1, w1, sent, w2, s2, w3.
  split; [exact H1|]. split; [exact H2|].
  split; [apply processLoan_spec; exact H2|]. split; [exact H3|].
  rewrite (processLoans_app _ _ _ _ _ _ _ _ H1
             (processLoans_cons _ _ _ _ _ _ _ _ H2 H3)).
  reflexivity.
Qed.

(** Two loans at risk and a transport that refuses every request: both loans
    are dispatched (and both dispatches fail), both are recorded. *)
Example processLoans_deaf_transport :
  exists w',
    processLoans sample_env [loan_L1; loan_L2] (deaf_world (Some empty_store))
    = (Return ([loan_L1; loan_L2],
               [mkAlertSent "ADA" "L1" Num.n1_4 critical;
                mkAlertSent "DJED" "L2" Num.n1_6 warning]), w') /\
    outbox w'
    = [mkDispatch critical (LoanMessage critical "ADA" Num.n1_4) false;
       mkDispatch warning (LoanMessage warning "DJED" Num.n1_6) false] /\
    AlertManager.getLastAlert (kv w') (clock w') "L1"
    = JAlert (mkAlertRecord critical 8000 "ADA") /\
    AlertManager.getLastAlert (kv w') (clock w') "L2"
    = JAlert (mkAlertRecord warning 15000 "DJED").
Proof.
  eexists. split; [vm_compute; reflexivity|].
  split; vm_compute; try reflexivity. split; reflexivity.
Qed.

(** A loan whose health factor is NaN takes neither branch. *)
Lemma processLoan_nan validatedEnv loanId sym w :
  processLoan validatedEnv (mkLoan loanId Num.NaN sym) w = (Return [], w).
Proof. reflexivity. Qed.

(** C9. Both comparisons of a NaN health factor against the thresholds are
    false, so the loan is classified safe, and its iteration consults no
    cooldown, dispatches nothing and records nothing: wherever the loan
    stands in the snapshot, the alerts sent and the world at the end of the
    loop are those of the snapshot without it. *)
Theorem nan_health_factor_silent (warn crit : Num.number)
    (validatedEnv : WorkerEnv) (loanId sym : string) :
  Num.lt Num.NaN crit = false /\
  Num.lt Num.NaN warn = false /\
  getRiskLevel Num.NaN warn crit = safe /\
  (forall w,
     processLoan validatedEnv (mkLoan loanId Num.NaN sym) w = (Return [], w)) /\
  (forall before after w,
     exists sent w',
       processLoans validatedEnv
         (before ++ mkLoan loanId Num.NaN sym :: after) w
       = (Return (before ++ mkLoan loanId Num.NaN sym :: after, sent), w') /\
       processLoans validatedEnv (before ++ after) w
       = (Return (before ++ after, sent), w')).
Proof.
  split; [reflexivity|]. split; [reflexivity|]. split; [reflexivity|].
  split; [intros w; apply processLoan_nan|].
  intros before after w.
  destruct (processLoans_returns validatedEnv before w) as (s1 & w1 & H1).
  destruct (processLoans_returns validatedEnv after w1) as (s2 & w2 & H2).
  exists (s1 ++ s2), w2. split.
  - rewrite (processLoans_app _ _ _ _ _ _ _ _ H1
               (processLoans_cons _ _ _ _ _ _ _ _
                  (processLoan_nan validatedEnv loanId sym w1) H2)).
    reflexivity.
  - rewrite (processLoans_app _ _ _ _ _ _ _ _ H1 H2). reflexivity.
Qed.



(** The end-to-end scenario: one loan at 1.4 with thresholds 1.7 and 1.5
    and no earlier record gives one critical dispatch and one critical
    record; a second cycle run at once dispatches nothing more. *)
Example scheduled_twice :
  outbox (snd (scheduled one_loan_services
                 (calm_world (Some empty_store) 1000)))
  = [mkDispatch critical (LoanMessage critical "ADA" Num.n1_4) true] /\
  AlertManager.getLastAlert
    (kv (snd (scheduled one_loan_services
                (calm_world (Some empty_store) 1000)))) 1000 "L1"
  = JAlert (mkAlertRecord critical 1000 "ADA") /\
  outbox (snd (scheduled one_loan_services
                 (snd (scheduled one_loan_services
                         (calm_world (Some empty_store) 1000)))))
  = [mkDispatch critical (LoanMessage critical "ADA" Num.n1_4) true].
Proof. repeat split; vm_compute; reflexivity. Qed.

(** ** The two throttles *)

Lemma window_passed_spec last currentTime limit :
  window_passed last currentTime limit = true <->
  falsy last = true \/
  exists s t, last = Some s /\ parseInt s = Some t /\ limit < currentTime - t.
Proof.
  unfold window_passed. split.
  - intros H. apply orb_true_iff in H. destruct H as [H|H]; [left; exact H|].
    destruct last as [s|]; [|discriminate H].
    destruct (parseInt s) as [t|] eqn:Ep; [|discriminate H].
    right. exists s, t. simpl in H. apply Z.ltb_lt in H. auto.
  - intros [H|(s & t & -> & Hp & Hlt)]; [rewrite H; reflexivity|].
    rewrite Hp. simpl. apply orb_true_iff. right. apply Z.ltb_lt. exact Hlt.
Qed.

Lemma state_get_world key w : snd (state_get key w) = w.
Proof. unfold state_get. destruct (kv w); reflexivity. Qed.

Lemma state_get_eq key w : state_get key w = (fst (state_get key w), w).
Proof. unfold state_get. destruct (kv w); reflexivity. Qed.

(** [state_put] touches nothing but the store. *)
Lemma state_put_frame key v w :
  outbox (snd (state_put key v w)) = outbox w /\
  mirrored (snd (state_put key v w)) = mirrored w /\
  clock (snd (state_put key v w)) = clock w.
Proof.
  unfold state_put. destruct (kv w) as [k|]; [|auto].
  destruct (kv_put k key v None (clock w)); auto.
Qed.

(** [state_put] on a bound, answering store. *)
Lemma state_put_online key v w k :
  kv w = Some k -> online k = true ->
  state_put key v w
  = (Return tt,
     set_kv (Some (mkKV (<[key := mkKVEntry v None]> (entries k)) true)) w).
Proof.
  intros Hk Hon. unfold state_put, kv_put. rewrite Hk, Hon. reflexivity.
Qed.

(** Reading back, at any instant, an instant stored without expiration. *)
Lemma state_get_stored key v m w :
  kv w = Some (mkKV (<[key := mkKVEntry v None]> m) true) ->
  state_get key w = (Return (Some v), w).
Proof.
  intros Hk. unfold state_get, kv_get. rewrite Hk. simpl.
  rewrite lookup_insert_eq. reflexivity.
Qed.

Lemma bind_return {A B} (m : M A) (k : A -> M B) w a w' :
  m w = (Return a, w') -> bind m k w = k a w'.
Proof. intros H. unfold bind. rewrite H. reflexivity. Qed.

Lemma bind_throw {A B} (m : M A) (k : A -> M B) w w' :
  m w = (Throw, w') -> bind m k w = (Throw, w').
Proof. intros H. unfold bind. rewrite H. reflexivity. Qed.

(** The three ways [errorAlert] can go. *)
Lemma errorAlert_run sv w :
  match fst (state_get "lastErrorAlertTime" w) with
  | Throw => errorAlert sv w = (Throw, w)
  | Return last =>
    if window_passed last (clock w) ERROR_ALERT_COOLDOWN_MS then
      match createEnv sv with
      | Throw => errorAlert sv w = (Throw, w)
      | Return cfg =>
        exists ok w1,
          transport_step w w1 /\
          errorAlert sv w
          = state_put "lastErrorAlertTime" (toString (clock w))
              (log_dispatch (mkDispatch error ErrorMessage ok) w1)
      end
    else errorAlert sv w = (Return tt, w)
  end.
Proof.
  pose proof (state_get_eq "lastErrorAlertTime" w) as Hget.
  destruct (fst (state_get "lastErrorAlertTime" w)) as [last|].
  - unfold errorAlert.
    rewrite (bind_return _ _ _ _ _ Hget).
    rewrite (bind_return now _ w (clock w) w eq_refl).
    change (falsy last
            || match last with
               | Some s => Ms.gt (Ms.sub (Some (clock w)) (parseInt s))
                                 ERROR_ALERT_COOLDOWN_MS
               | None => false
               end)
      with (window_passed last (clock w) ERROR_ALERT_COOLDOWN_MS).
    destruct (window_passed last (clock w) ERROR_ALERT_COOLDOWN_MS);
      [|reflexivity].
    destruct (createEnv sv) as [cfg|]; [|reflexivity].
    destruct (sendAlert_returns error ErrorMessage cfg w)
      as (ok & w1 & Hsend & Hstep).
    exists ok, w1. split; [exact Hstep|].
    rewrite (bind_return (lift (Return cfg)) _ w cfg w eq_refl).
    rewrite (bind_return _ _ _ _ _ Hsend). reflexivity.
  - unfold errorAlert. rewrite (bind_throw _ _ _ _ Hget). reflexivity.
Qed.

Lemma try_catch_state_put key v w :
  try_catch (state_put key v) (ret tt) w
  = (Return tt, snd (state_put key v w)).
Proof.
  unfold try_catch, state_put, ret. destruct (kv w) as [k|]; [|reflexivity].
  destruct (kv_put k key v None (clock w)); reflexivity.
Qed.

(** The outer [catch] either changes nothing or sends one error alert and
    then tries to store the instant read before sending. *)
Lemma handleFailure_cases sv w :
  handleFailure sv w = (Return tt, w) \/
  exists last ok w1,
    fst (state_get "lastErrorAlertTime" w) = Return last /\
    window_passed last (clock w) ERROR_ALERT_COOLDOWN_MS = true /\
    transport_step w w1 /\
    handleFailure sv w
    = (Return tt,
       snd (state_put "lastErrorAlertTime" (toString (clock w))
              (log_dispatch (mkDispatch error ErrorMessage ok) w1))).
Proof.
  pose proof (errorAlert_run sv w) as Hrun. unfold handleFailure, try_catch.
  destruct (fst (state_get "lastErrorAlertTime" w)) as [last|] eqn:Eget.
  - destruct (window_passed last (clock w) ERROR_ALERT_COOLDOWN_MS) eqn:Ew.
    + destruct (createEnv sv) as [cfg|].
      * destruct Hrun as (ok & w1 & Hstep & Hrun). right.
        exists last, ok, w1.
        split; [reflexivity|]. split; [exact Ew|]. split; [exact Hstep|].
        rewrite Hrun.
        pose proof (try_catch_state_put "lastErrorAlertTime"
                      (toString (clock w))
                      (log_dispatch (mkDispatch error ErrorMessage ok) w1))
          as Htc.
        unfold try_catch in Htc. exact Htc.
      * left. rewrite Hrun. reflexivity.
    + left. rewrite Hrun. reflexivity.
  - left. rewrite Hrun. reflexivity.
Qed.

(** When the monitoring cycle throws, the handler runs the outer [catch]
    from the world the cycle left. *)
Lemma scheduled_on_failure sv w w0 :
  monitor sv w = (Throw, w0) -> scheduled sv w = handleFailure sv w0.
Proof. intros H. unfold scheduled, try_catch. rewrite H. reflexivity. Qed.

(** A failed loan fetch is such a failure, and leaves the world as it was. *)
Lemma monitor_fetch_failure sv w :
  fetchLoansSnapshot sv = Throw -> monitor sv w = (Throw, w).
Proof.
  intros H. unfold monitor, bind, lift. rewrite H.
  destruct (createEnv sv); reflexivity.
Qed.

(** Reading an instant stored without expiration on an answering store. *)
Lemma state_get_entry key v w k :
  kv w = Some k -> online k = true ->
  entries k !! key = Some (mkKVEntry v None) ->
  state_get key w = (Return (Some v), w).
Proof.
  intros Hk Hon He. unfold state_get, kv_get. rewrite Hk, Hon, He.
  reflexivity.
Qed.

(** The outer [catch] when the alert is due and the environment validates
    again: one dispatch, then the attempt to store the instant. *)
Lemma handleFailure_due sv w last cfg :
  fst (state_get "lastErrorAlertTime" w) = Return last ->
  window_passed last (clock w) ERROR_ALERT_COOLDOWN_MS = true ->
  createEnv sv = Return cfg ->
  exists ok w1,
    transport_step w w1 /\
    handleFailure sv w
    = (Return tt,
       snd (state_put "lastErrorAlertTime" (toString (clock w))
              (log_dispatch (mkDispatch error ErrorMessage ok) w1))).
Proof.
  intros Hget Hdue Henv. pose proof (errorAlert_run sv w) as Hrun.
  rewrite Hget, Hdue, Henv in Hrun.
  destruct Hrun as (ok & w1 & Hstep & Hrun). exists ok, w1.
  split; [exact Hstep|].
  unfold handleFailure, try_catch. rewrite Hrun.
  pose proof (try_catch_state_put "lastErrorAlertTime" (toString (clock w))
                (log_dispatch (mkDispatch error ErrorMessage ok) w1)) as Htc.
  unfold try_catch in Htc. exact Htc.
Qed.

(** The outer [catch] when the environment does not validate: the second
    validation throws before anything is sent. *)
Lemma handleFailure_invalid_env sv w :
  createEnv sv = Throw -> handleFailure sv w = (Return tt, w).
Proof.
  intros Henv. pose proof (errorAlert_run sv w) as Hrun.
  rewrite Henv in Hrun. unfold handleFailure, try_catch.
  destruct (fst (state_get "lastErrorAlertTime" w)) as [last|].
  - destruct (window_passed last (clock w) ERROR_ALERT_COOLDOWN_MS);
      rewrite Hrun; reflexivity.
  - rewrite Hrun. reflexivity.
Qed.

(** C6, amended. On a failure of the monitoring cycle:
    - the handler itself never throws;
    - an error alert is dispatched only when no instant is read under
      [lastErrorAlertTime] (no store bound, no text or an empty text) or
      when strictly more than twelve hours passed since the stored instant;
    - in those cases, when the environment validates again inside the
      [catch], exactly one error alert is dispatched, and when that
      validation throws nothing is sent and nothing changes;
    - when a bound store takes the write, an alert leaves the instant read
      before sending under [lastErrorAlertTime], without expiration, and
      every other key as it was;
    - while a store that answers holds an instant [t] under that key, a
      failure at any time up to and including [t] plus twelve hours sends
      nothing and changes nothing, whatever else was written since. *)
Theorem error_alert_throttle (sv : Services) (w : World) :
  fst (handleFailure sv w) = Return tt /\
  (outbox (snd (handleFailure sv w)) <> outbox w ->
   exists last,
     fst (state_get "lastErrorAlertTime" w) = Return last /\
     (falsy last = true \/
      exists s t, last = Some s /\ parseInt s = Some t /\
                  ERROR_ALERT_COOLDOWN_MS < clock w - t)) /\
  (forall last cfg,
     fst (state_get "lastErrorAlertTime" w) = Return last ->
     (falsy last = true \/
      exists s t, last = Some s /\ parseInt s = Some t /\
                  ERROR_ALERT_COOLDOWN_MS < clock w - t) ->
     createEnv sv = Return cfg ->
     exists ok,
       outbox (snd (handleFailure sv w))
       = outbox w ++ [mkDispatch error ErrorMessage ok]) /\
  (createEnv sv = Throw -> handleFailure sv w = (Return tt, w)) /\
  (forall k, kv w = Some k -> online k = true ->
     outbox (snd (handleFailure sv w)) <> outbox w ->
     exists k',
       kv (snd (handleFailure sv w)) = Some k' /\
       online k' = true /\
       entries k' !! "lastErrorAlertTime"
       = Some (mkKVEntry (toString (clock w)) None) /\
       forall key, key <> "lastErrorAlertTime"%string ->
                   entries k' !! key = entries k !! key) /\
  (forall sv' w' k' t,
     kv w' = Some k' -> online k' = true ->
     entries k' !! "lastErrorAlertTime" = Some (mkKVEntry (toString t) None) ->
     clock w' - t <= ERROR_ALERT_COOLDOWN_MS ->
     handleFailure sv' w' = (Return tt, w')).
Proof.
  split; [|split; [|split; [|split; [|split]]]].
  - destruct (handleFailure_cases sv w) as [H|(? & ? & ? & _ & _ & _ & H)];
      rewrite H; reflexivity.
  - destruct (handleFailure_cases sv w)
      as [Hskip|(last & ok & w1 & Hget & Hdue & _ & _)].
    + rewrite Hskip. intros H. contradiction.
    + intros _. exists last. split; [exact Hget|].
      apply window_passed_spec. exact Hdue.
  - intros last cfg Hget Hdue Henv. apply window_passed_spec in Hdue.
    destruct (handleFailure_due sv w last cfg Hget Hdue Henv)
      as (ok & w1 & (_ & Hout & _) & Hrun).
    exists ok. rewrite Hrun. simpl.
    destruct (state_put_frame "lastErrorAlertTime" (toString (clock w))
                (log_dispatch (mkDispatch error ErrorMessage ok) w1))
      as (Hframe & _).
    rewrite Hframe. simpl. rewrite Hout. reflexivity.
  - apply handleFailure_invalid_env.
  - intros k Hk Hon Hsent.
    destruct (handleFailure_cases sv w)
      as [Hskip|(last & ok & w1 & _ & _ & (Hkv1 & _) & Hrun)].
    + rewrite Hskip in Hsent. contradiction.
    + rewrite Hrun. simpl.
      rewrite (state_put_online _ _ _ k); [|simpl; congruence|exact Hon].
      simpl. eexists. split; [reflexivity|]. simpl.
      split; [reflexivity|]. split; [apply lookup_insert_eq|].
      intros key Hne. apply lookup_insert_ne. congruence.
  - intros sv' w' k' t Hk' Hon' He Hclock.
    pose proof (state_get_entry _ _ _ _ Hk' Hon' He) as Hget'.
    pose proof (errorAlert_run sv' w') as Hrun'.
    rewrite Hget' in Hrun'. simpl in Hrun'.
    assert (Hw : window_passed (Some (toString t)) (clock w')
                   ERROR_ALERT_COOLDOWN_MS = false).
    { unfold window_passed. simpl. apply Z.ltb_ge. exact Hclock. }
    rewrite Hw in Hrun'. unfold handleFailure, try_catch.
    rewrite Hrun'. reflexivity.
Qed.

Lemma error_alert_throttle_witness :
  outbox (snd (handleFailure failing_services
                 (calm_world (Some empty_store) 0)))
  = [mkDispatch error ErrorMessage true] /\
  handleFailure failing_services
    (calm_world (kv (snd (handleFailure failing_services
                            (calm_world (Some empty_store) 0))))
                ERROR_ALERT_COOLDOWN_MS)
  = (Return tt,
     calm_world (kv (snd (handleFailure failing_services
                            (calm_world (Some empty_store) 0))))
                ERROR_ALERT_COOLDOWN_MS).
Proof.
  pose proof (error_alert_throttle failing_services
                (calm_world (Some empty_store) 0))
    as (_ & _ & Hsend & _ & Hstored & Hlater).
  split.
  - destruct (Hsend None sample_env) as (ok & Hout).
    + reflexivity.
    + left. reflexivity.
    + reflexivity.
    + vm_compute. reflexivity.
  - destruct (Hstored empty_store) as (k' & Hk' & Hon' & He & _).
    + reflexivity.
    + reflexivity.
    + vm_compute. discriminate.
    + apply (Hlater failing_services _ k' 0).
      * exact Hk'.
      * exact Hon'.
      * exact He.
      * vm_compute. discriminate.
Defined.

(** C6 as stated fails in two ways. A failing cycle exactly twelve hours
    after the stored instant sends no error alert, although the elapsed time
    has reached the cooldown: the handler compares with [>], not [>=]. And
    with no store bound, two failing cycles one millisecond apart both send
    an error alert. *)
Lemma error_alert_counterexample :
  (ERROR_ALERT_COOLDOWN_MS
   <= clock (calm_world (Some (store_with_time "lastErrorAlertTime" 0))
                        ERROR_ALERT_COOLDOWN_MS) - 0 /\
   outbox (snd (scheduled failing_services
                  (calm_world (Some (store_with_time "lastErrorAlertTime" 0))
                              ERROR_ALERT_COOLDOWN_MS))) = []) /\
  (clock (sleep 1 (snd (scheduled failing_services (calm_world None 0))))
   - clock (calm_world None 0) < ERROR_ALERT_COOLDOWN_MS /\
   outbox (snd (scheduled failing_services
                  (sleep 1 (snd (scheduled failing_services
                                   (calm_world None 0))))))
   = [mkDispatch error ErrorMessage true; mkDispatch error ErrorMessage true]).
Proof.
  split; split.
  - vm_compute. discriminate.
  - vm_compute. reflexivity.
  - vm_compute. reflexivity.
  - vm_compute. reflexivity.
Qed.

(** *** The price mirror *)

Lemma getAssetSymbols_eq sv config w :
  getAssetSymbols sv config w = (fst (getAssetSymbols sv config w), w).
Proof.
  unfold getAssetSymbols, bind, lift, ret.
  destruct (ensureClient config) as [[]|]; [|reflexivity|reflexivity].
  destruct (queryPricesDatabase sv 0%nat); reflexivity.
Qed.

(** Writing rows touches the mirror only, and never throws: a refused row is
    counted, not raised. *)
Lemma writeRows_frame sv prices results w :
  exists results' w',
    writeRows sv prices results w = (Return results', w') /\
    kv w' = kv w /\ clock w' = clock w /\ outbox w' = outbox w.
Proof.
  revert results w. induction prices as [|symbol rest IH]; intros results w.
  - simpl. unfold ret. eauto 6.
  - simpl. destruct (writePriceRow sv symbol).
    + destruct (IH (mkUpdateResult (S (updated results)) (errors results))
                  (log_mirrored symbol w)) as (r & w' & H & Hk & Hc & Ho).
      exists r, w'. auto.
    + apply IH.
Qed.

(** The push either throws and changes nothing, or returns a result and has
    touched the mirror only. *)
Lemma updatePriceDatabase_frame sv config prices w :
  updatePriceDatabase sv config prices w = (Throw, w) \/
  exists results w',
    updatePriceDatabase sv config prices w = (Return results, w') /\
    kv w' = kv w /\ clock w' = clock w /\ outbox w' = outbox w.
Proof.
  unfold updatePriceDatabase, bind, lift, ret.
  destruct (ensureClient config) as [[]|]; [|right; eauto 6|left; reflexivity].
  destruct (queryPricesDatabase sv 1%nat); [|left; reflexivity].
  right. apply writeRows_frame.
Qed.

(** The ways [updatePrices] can go. *)
Lemma updatePrices_run sv appConfig w :
  match fst (state_get "lastPriceUpdateTime" w) with
  | Throw => updatePrices sv appConfig w = (Throw, w)
  | Return last =>
    if window_passed last (clock w) PRICE_UPDATE_INTERVAL_MS then
      match fst (getAssetSymbols sv appConfig w) with
      | Throw => updatePrices sv appConfig w = (Throw, w)
      | Return assetSymbols =>
        if (0 <? length assetSymbols)%nat then
          match getPrices sv (toLiqwidSymbols assetSymbols) with
          | Throw => updatePrices sv appConfig w = (Throw, w)
          | Return prices =>
            match updatePriceDatabase sv appConfig prices w with
            | (Throw, w1) => updatePrices sv appConfig w = (Throw, w1)
            | (Return _, w1) =>
              updatePrices sv appConfig w
              = state_put "lastPriceUpdateTime" (toString (clock w)) w1
            end
          end
        else updatePrices sv appConfig w = (Return tt, w)
      end
    else updatePrices sv appConfig w = (Return tt, w)
  end.
Proof.
  pose proof (state_get_eq "lastPriceUpdateTime" w) as Hget.
  destruct (fst (state_get "lastPriceUpdateTime" w)) as [last|].
  - unfold updatePrices.
    rewrite (bind_return _ _ _ _ _ Hget).
    rewrite (bind_return now _ w (clock w) w eq_refl).
    change (falsy last
            || match last with
               | Some s => Ms.gt (Ms.sub (Some (clock w)) (parseInt s))
                                 PRICE_UPDATE_INTERVAL_MS
               | None => false
               end)
      with (window_passed last (clock w) PRICE_UPDATE_INTERVAL_MS).
    destruct (window_passed last (clock w) PRICE_UPDATE_INTERVAL_MS);
      [|reflexivity].
    pose proof (getAssetSymbols_eq sv appConfig w) as Hsym.
    destruct (fst (getAssetSymbols sv appConfig w)) as [assetSymbols|].
    + rewrite (bind_return _ _ _ _ _ Hsym).
      destruct (0 <? length assetSymbols)%nat; [|reflexivity].
      destruct (getPrices sv (toLiqwidSymbols assetSymbols)) as [prices|] eqn:Ep.
      * rewrite (bind_return (lift (Return prices)) _ w prices w eq_refl).
        destruct (updatePriceDatabase sv appConfig prices w) as [[r|] w1] eqn:Eu.
        -- rewrite (bind_return _ _ _ _ _ Eu). reflexivity.
        -- rewrite (bind_throw _ _ _ _ Eu). reflexivity.
      * reflexivity.
    + rewrite (bind_throw _ _ _ _ Hsym). reflexivity.
  - unfold updatePrices. rewrite (bind_throw _ _ _ _ Hget). reflexivity.
Qed.





(** * Further properties of the code *)

(** ** The alert manager, beyond the cooldown rule *)

Lemma key_inj id id' : AlertManager.key id = AlertManager.key id' -> id = id'.
Proof. unfold AlertManager.key. simpl. intros H. injection H. auto. Qed.

(** Levels other than warning and critical pass through. *)
Lemma passthrough_level lvl :
  lvl <> warning -> lvl <> critical ->
  bool_decide (lvl <> warning /\ lvl <> critical) = true.
Proof. intros. apply bool_decide_eq_true. auto. Qed.

(** What [recordAlert] does to the entries of the binding: it writes the
    loan's own key, when the level is throttled and the store answers, and
    no other. *)
Lemma recordAlert_lookup kvo t id lvl sym key' :
  kv_lookup (AlertManager.recordAlert kvo t id lvl sym) key'
  = if bool_decide (key' = AlertManager.key id)
       && bool_decide (lvl = warning \/ lvl = critical)
       && match kvo with Some k => online k | None => false end
    then Some (mkKVEntry (JSON_stringify (mkAlertRecord lvl t sym))
                 (Some (t + AlertManager.KV_TTL_SECONDS * 1000)))
    else kv_lookup kvo key'.
Proof.
  unfold AlertManager.recordAlert, kv_put.
  destruct kvo as [k|]; simpl; [|rewrite andb_false_r; reflexivity].
  destruct lvl; simpl; rewrite ?andb_false_r; try reflexivity;
    destruct (online k); simpl; rewrite ?andb_false_r; try reflexivity;
    rewrite andb_true_r; case_bool_decide as Hk; simpl;
    try (subst key'; apply lookup_insert_eq);
    apply lookup_insert_ne; congruence.
Qed.

Lemma recordAlert_online_flag kvo t id lvl sym :
  option_map online (AlertManager.recordAlert kvo t id lvl sym)
  = option_map online kvo.
Proof.
  unfold AlertManager.recordAlert, kv_put.
  destruct kvo as [k|]; [|reflexivity].
  destruct (bool_decide _); [reflexivity|].
  destruct (online k) eqn:E; simpl; rewrite ?E; reflexivity.
Qed.

(** The decisions of the manager depend on the binding only through its
    answering flag and the entry under the loan's key. *)
Lemma shouldSendAlert_ext kvo kvo' now id lvl sym :
  option_map online kvo' = option_map online kvo ->
  kv_lookup kvo' (AlertManager.key id) = kv_lookup kvo (AlertManager.key id) ->
  AlertManager.shouldSendAlert kvo' now id lvl sym
  = AlertManager.shouldSendAlert kvo now id lvl sym.
Proof.
  unfold AlertManager.shouldSendAlert, kv_get.
  destruct kvo as [k|], kvo' as [k'|]; simpl; try discriminate;
    [|reflexivity].
  intros Hon Hl. injection Hon as ->. rewrite Hl. reflexivity.
Qed.

Lemma getLastAlert_ext kvo kvo' now id :
  option_map online kvo' = option_map online kvo ->
  kv_lookup kvo' (AlertManager.key id) = kv_lookup kvo (AlertManager.key id) ->
  AlertManager.getLastAlert kvo' now id = AlertManager.getLastAlert kvo now id.
Proof.
  unfold AlertManager.getLastAlert, kv_get.
  destruct kvo as [k|], kvo' as [k'|]; simpl; try discriminate;
    [|reflexivity].
  intros Hon Hl. injection Hon as ->. rewrite Hl. reflexivity.
Qed.

(** X1. Round trip of [recordAlert] and [getLastAlert]: on a store that
    answers, the record written at [t] for a warning or critical alert is
    what [getLastAlert] returns until the one-hour retention ends, and
    [null] from then on. *)
Theorem getLastAlert_after_record (k : KVNamespace) (id sym : string)
    (lvl : AlertLevel) (t t' : Z) :
  online k = true ->
  lvl = warning \/ lvl = critical ->
  AlertManager.getLastAlert
    (AlertManager.recordAlert (Some k) t id lvl sym) t' id
  = if t + 3600000 <=? t' then JNull
    else JAlert (mkAlertRecord lvl t sym).
Proof.
  intros Hon Hl. rewrite (recordAlert_online _ _ _ _ _ Hon Hl).
  unfold AlertManager.getLastAlert. rewrite kv_get_recorded.
  unfold AlertManager.KV_TTL_SECONDS.
  change (3600 * 1000) with 3600000.
  destruct (t + 3600000 <=? t'); reflexivity.
Qed.

Lemma getLastAlert_after_record_witness :
  online empty_store = true /\
  (critical = warning \/ critical = critical) /\
  AlertManager.getLastAlert
    (AlertManager.recordAlert (Some empty_store) 1000 "L1" critical "ADA")
    3600999 "L1"
  = JAlert (mkAlertRecord critical 1000 "ADA") /\
  AlertManager.getLastAlert
    (AlertManager.recordAlert (Some empty_store) 1000 "L1" critical "ADA")
    3601000 "L1"
  = JNull.
Proof.
  split; [reflexivity|]. split; [right; reflexivity|].
  split.
  - rewrite (getLastAlert_after_record empty_store "L1" "ADA" critical 1000
               3600999); [reflexivity | reflexivity | right; reflexivity].
  - rewrite (getLastAlert_after_record empty_store "L1" "ADA" critical 1000
               3601000); [reflexivity | reflexivity | right; reflexivity].
Defined.

(** X2. The cooldown state is kept per loan: recording an alert for one loan
    changes neither the decision nor the last alert of any other loan. *)
Theorem recordAlert_other_loan (kvo : option KVNamespace) (id id' : string)
    (lvl lvl' : AlertLevel) (sym sym' : string) (t t' : Z) :
  id <> id' ->
  AlertManager.shouldSendAlert
    (AlertManager.recordAlert kvo t id lvl sym) t' id' lvl' sym'
  = AlertManager.shouldSendAlert kvo t' id' lvl' sym' /\
  AlertManager.getLastAlert
    (AlertManager.recordAlert kvo t id lvl sym) t' id'
  = AlertManager.getLastAlert kvo t' id'.
Proof.
  intros Hne.
  assert (Hl : kv_lookup (AlertManager.recordAlert kvo t id lvl sym)
                 (AlertManager.key id')
               = kv_lookup kvo (AlertManager.key id')).
  { rewrite recordAlert_lookup.
    rewrite (bool_decide_eq_false_2 (AlertManager.key id' = AlertManager.key id));
      [reflexivity|].
    intros H. apply key_inj in H. congruence. }
  split.
  - apply shouldSendAlert_ext; [apply recordAlert_online_flag|exact Hl].
  - apply getLastAlert_ext; [apply recordAlert_online_flag|exact Hl].
Qed.

Lemma recordAlert_other_loan_witness :
  "L1"%string <> "L2"%string /\
  AlertManager.shouldSendAlert
    (AlertManager.recordAlert (Some empty_store) 1000 "L1" critical "ADA")
    1000 "L2" critical "DJED"
  = AlertManager.shouldSendAlert (Some empty_store) 1000 "L2" critical "DJED".
Proof.
  split; [discriminate|].
  apply (recordAlert_other_loan (Some empty_store) "L1" "L2" critical critical
           "ADA" "DJED" 1000 1000). discriminate.
Defined.

(** X3. Levels without cooldown pass through: for info and error alerts,
    whatever the store holds, [shouldSendAlert] is true and [recordAlert]
    writes nothing, so such an alert never delays a later one. *)
Theorem unthrottled_levels (kvo : option KVNamespace) (id sym : string)
    (lvl : AlertLevel) (t : Z) :
  lvl = info \/ lvl = error ->
  AlertManager.shouldSendAlert kvo t id lvl sym = true /\
  AlertManager.recordAlert kvo t id lvl sym = kvo /\
  (forall id' lvl' sym' t',
     AlertManager.shouldSendAlert
       (AlertManager.recordAlert kvo t id lvl sym) t' id' lvl' sym'
     = AlertManager.shouldSendAlert kvo t' id' lvl' sym').
Proof.
  intros Hl.
  assert (Hrec : AlertManager.recordAlert kvo t id lvl sym = kvo).
  { unfold AlertManager.recordAlert.
    destruct kvo as [k|]; [|reflexivity].
    destruct Hl as [-> | ->]; reflexivity. }
  split; [|split; [exact Hrec|]].
  - unfold AlertManager.shouldSendAlert.
    destruct kvo as [k|]; [|reflexivity].
    destruct Hl as [-> | ->]; reflexivity.
  - intros. rewrite Hrec. reflexivity.
Qed.

Lemma unthrottled_levels_witness :
  (error = info \/ error = error) /\
  AlertManager.shouldSendAlert
    (Some (store_with (mkAlertRecord critical 1000 "ADA"))) 1000 "L1" error
    "ADA" = true /\
  AlertManager.recordAlert
    (Some (store_with (mkAlertRecord critical 1000 "ADA"))) 2000 "L1" error
    "ADA"
  = Some (store_with (mkAlertRecord critical 1000 "ADA")).
Proof.
  split; [right; reflexivity|].
  destruct (unthrottled_levels
              (Some (store_with (mkAlertRecord critical 1000 "ADA")))
              "L1" "ADA" error 1000 (or_intror eq_refl)) as (H1 & _ & _).
  destruct (unthrottled_levels
              (Some (store_with (mkAlertRecord critical 1000 "ADA")))
              "L1" "ADA" error 2000 (or_intror eq_refl)) as (_ & H2 & _).
  split; [exact H1|exact H2].
Defined.

(** X4. One record per loan: a warning or critical record overwrites
    whatever was recorded for the loan before, so the store holds the latest
    alert only. *)
Theorem recordAlert_overwrites (kvo : option KVNamespace) (id : string)
    (lvl1 lvl2 : AlertLevel) (sym1 sym2 : string) (t1 t2 : Z) :
  lvl2 = warning \/ lvl2 = critical ->
  AlertManager.recordAlert
    (AlertManager.recordAlert kvo t1 id lvl1 sym1) t2 id lvl2 sym2
  = AlertManager.recordAlert kvo t2 id lvl2 sym2.
Proof.
  intros Hl. unfold AlertManager.recordAlert, kv_put.
  destruct kvo as [k|]; [|reflexivity].
  rewrite (throttled_level _ Hl).
  destruct (bool_decide (lvl1 <> warning /\ lvl1 <> critical)); [reflexivity|].
  destruct (online k) eqn:Hon; simpl; rewrite ?Hon; simpl; [|reflexivity].
  rewrite insert_insert_eq. reflexivity.
Qed.

Lemma recordAlert_overwrites_witness :
  (critical = warning \/ critical = critical) /\
  AlertManager.getLastAlert
    (AlertManager.recordAlert
       (AlertManager.recordAlert (Some empty_store) 1000 "L1" warning "ADA")
       2000 "L1" critical "ADA") 2000 "L1"
  = JAlert (mkAlertRecord critical 2000 "ADA").
Proof.
  split; [right; reflexivity|].
  rewrite (recordAlert_overwrites (Some empty_store) "L1" warning critical
             "ADA" "ADA" 1000 2000 (or_intror eq_refl)).
  reflexivity.
Defined.

(** X5. Against an unchanged store the decision is monotone in time: once
    [shouldSendAlert] is true for a loan and level, it stays true at every
    later instant, until something is recorded. *)
Theorem shouldSendAlert_monotone (kvo : option KVNamespace) (id sym : string)
    (lvl : AlertLevel) (t t' : Z) :
  t <= t' ->
  AlertManager.shouldSendAlert kvo t id lvl sym = true ->
  AlertManager.shouldSendAlert kvo t' id lvl sym = true.
Proof.
  intros Ht. unfold AlertManager.shouldSendAlert, kv_get, expired.
  destruct kvo as [k|]; [|reflexivity].
  destruct (bool_decide (lvl <> warning /\ lvl <> critical)); [reflexivity|].
  destruct (online k); [|reflexivity].
  destruct (entries k !! AlertManager.key id) as [e|]; [|reflexivity].
  assert (Hmain :
    forall v : text,
      ocatch
        (let! storedData := Return (Some v) in
         if falsy storedData then Return true
         else
           let! lastAlert := match storedData with
                             | Some s => JSON_parse s
                             | None => Throw
                             end in
           let! stamp := get_timestamp lastAlert in
           let timeSinceLastAlert := Ms.sub (Some t) stamp in
           if bool_decide (lvl = critical)
              && bool_decide (get_level lastAlert = Some warning)
           then Return true
           else if Ms.ge timeSinceLastAlert AlertManager.COOLDOWN_MS
                then Return true else Return false)%outcome true = true ->
      ocatch
        (let! storedData := Return (Some v) in
         if falsy storedData then Return true
         else
           let! lastAlert := match storedData with
                             | Some s => JSON_parse s
                             | None => Throw
                             end in
           let! stamp := get_timestamp lastAlert in
           let timeSinceLastAlert := Ms.sub (Some t') stamp in
           if bool_decide (lvl = critical)
              && bool_decide (get_level lastAlert = Some warning)
           then Return true
           else if Ms.ge timeSinceLastAlert AlertManager.COOLDOWN_MS
                then Return true else Return false)%outcome true = true).
  { intros [| |[|n|r]]; simpl; try reflexivity; [intros H; exact H|].
    destruct (bool_decide (lvl = critical)
              && bool_decide (Some (level r) = Some warning));
      [reflexivity|].
    destruct (AlertManager.COOLDOWN_MS <=? t - timestamp r) eqn:Ec;
      [|intros H; discriminate H].
    intros _. apply Z.leb_le in Ec.
    assert (Hc : (AlertManager.COOLDOWN_MS <=? t' - timestamp r) = true)
      by (apply Z.leb_le; lia).
    rewrite Hc. reflexivity. }
  destruct (expiration e) as [x|]; [|apply Hmain].
  destruct (x <=? t) eqn:E1; destruct (x <=? t') eqn:E2;
    try (intros; reflexivity); [|apply Hmain].
  apply Z.leb_le in E1. apply Z.leb_gt in E2. lia.
Qed.

Lemma shouldSendAlert_monotone_witness :
  601000 <= 700000 /\
  AlertManager.shouldSendAlert
    (Some (store_with (mkAlertRecord warning 1000 "ADA"))) 601000 "L1" warning
    "ADA" = true /\
  AlertManager.shouldSendAlert
    (Some (store_with (mkAlertRecord warning 1000 "ADA"))) 700000 "L1" warning
    "ADA" = true.
Proof.
  split; [lia|]. split; [reflexivity|].
  apply (shouldSendAlert_monotone
           (Some (store_with (mkAlertRecord warning 1000 "ADA"))) "L1" "ADA"
           warning 601000 700000); [lia | reflexivity].
Defined.

(** ** The messaging transport, request by request *)

Lemma isSome_option_map {A B} (f : A -> B) (o : option A) :
  isSome (option_map f o) = isSome o.
Proof. destruct o; reflexivity. Qed.

(** The loop with [n] attempts left, that is from [retries = 4 - n]. *)
Lemma sendAlert_loop_attempts (n : nat) :
  forall fuel w,
    (n <= 4)%nat -> (n <= fuel)%nat ->
    exists w',
      sendAlert_loop fuel (4 - Z.of_nat n) w
      = Some (isSome (first_ok (telegram w) (requests w) n), w') /\
      requests w'
      = (requests w
         + match first_ok (telegram w) (requests w) n with
           | Some k => S k
           | None => n
           end)%nat /\
      ((forall i, (i < n)%nat ->
          rate_limited (telegram w (requests w + i)%nat) = false) ->
       clock w' <= clock w + 1000 * Z.max 0 (8 - 2 ^ (4 - Z.of_nat n))).
Proof.
  induction n as [|n IH]; intros fuel w Hn Hfuel.
  - exists w. destruct fuel; simpl; (split; [reflexivity|]);
      (split; [lia|]); intros _; lia.
  - destruct fuel as [|fuel]; [lia|].
    assert (Hguard : (4 - Z.of_nat (S n) <=? MAX_RETRIES) = true)
      by (apply Z.leb_le; unfold MAX_RETRIES; lia).
    cbn [sendAlert_loop first_ok]. rewrite Hguard.
    unfold fetch at 1. cbv beta iota.
    assert (Hnext : 4 - Z.of_nat (S n) + 1 = 4 - Z.of_nat n) by lia.
    assert (Hstep : forall delay,
      exists w',
        sendAlert_loop fuel (4 - Z.of_nat (S n) + 1)
          (sleep delay
             (mkWorld (kv w) (clock w) (telegram w) (S (requests w))
                      (outbox w) (mirrored w)))
        = Some (isSome (first_ok (telegram w) (S (requests w)) n), w') /\
        requests w'
        = (S (requests w)
           + match first_ok (telegram w) (S (requests w)) n with
             | Some k => S k
             | None => n
             end)%nat /\
        ((forall i, (i < n)%nat ->
            rate_limited (telegram w (S (requests w) + i)%nat) = false) ->
         clock w' <= clock w + Z.max 0 delay
                     + 1000 * Z.max 0 (8 - 2 ^ (4 - Z.of_nat n)))).
    { intros delay. rewrite Hnext.
      apply (IH fuel
               (sleep delay
                  (mkWorld (kv w) (clock w) (telegram w) (S (requests w))
                           (outbox w) (mirrored w)))); lia. }
    assert (Hshift : (forall i, (i < S n)%nat ->
                        rate_limited (telegram w (requests w + i)%nat) = false) ->
                     forall i, (i < n)%nat ->
                        rate_limited (telegram w (S (requests w) + i)%nat)
                        = false).
    { intros H i Hi. specialize (H (S i)).
      replace (requests w + S i)%nat with (S (requests w) + i)%nat in H by lia.
      apply H. lia. }
    destruct (telegram w (requests w)) as [|retryAfter| |] eqn:Ea.
    + eexists. split; [reflexivity|]. simpl. split; [lia|]. intros _. lia.
    + destruct (Hstep (retryAfter * 1000)) as (w' & Hloop & Hreq & _).
      exists w'. rewrite isSome_option_map. split; [exact Hloop|].
      split.
      * rewrite Hreq.
        destruct (first_ok (telegram w) (S (requests w)) n); simpl; lia.
      * intros H. specialize (H 0%nat). rewrite Nat.add_0_r, Ea in H.
        simpl in H. discriminate H. lia.
    + destruct (4 - Z.of_nat (S n) <? MAX_RETRIES) eqn:Elt.
      * apply Z.ltb_lt in Elt. unfold MAX_RETRIES in Elt.
        destruct (Hstep (2 ^ (4 - Z.of_nat (S n)) * 1000))
          as (w' & Hloop & Hreq & Hclock).
        exists w'. rewrite isSome_option_map. split; [exact Hloop|].
        split.
        -- rewrite Hreq.
           destruct (first_ok (telegram w) (S (requests w)) n); simpl; lia.
        -- intros H. specialize (Hclock (Hshift H)).
           destruct n as [|[|[|[|n]]]]; try lia; simpl in Hclock |- *; lia.
      * apply Z.ltb_ge in Elt. unfold MAX_RETRIES in Elt.
        assert (n = 0%nat) by lia. subst n.
        eexists. split; [reflexivity|]. simpl. split; [lia|]. intros _. lia.
    + destruct (4 - Z.of_nat (S n) <? MAX_RETRIES) eqn:Elt.
      * apply Z.ltb_lt in Elt. unfold MAX_RETRIES in Elt.
        destruct (Hstep (2 ^ (4 - Z.of_nat (S n)) * 1000))
          as (w' & Hloop & Hreq & Hclock).
        exists w'. rewrite isSome_option_map. split; [exact Hloop|].
        split.
        -- rewrite Hreq.
           destruct (first_ok (telegram w) (S (requests w)) n); simpl; lia.
        -- intros H. specialize (Hclock (Hshift H)).
           destruct n as [|[|[|[|n]]]]; try lia; simpl in Hclock |- *; lia.
      * apply Z.ltb_ge in Elt. unfold MAX_RETRIES in Elt.
        assert (n = 0%nat) by lia. subst n.
        eexists. split; [reflexivity|]. simpl. split; [lia|]. intros _. lia.
Qed.

(** The loop on the next four answers. *)
Lemma sendAlert_loop_first_ok w :
  exists w',
    sendAlert_loop 5 0 w
    = Some (isSome (first_ok (telegram w) (requests w) 4), w') /\
    requests w'
    = (requests w
       + match first_ok (telegram w) (requests w) 4 with
         | Some n => S n
         | None => 4
         end)%nat /\
    (rate_limited (telegram w (requests w)) = false ->
     rate_limited (telegram w (S (requests w))) = false ->
     rate_limited (telegram w (S (S (requests w)))) = false ->
     rate_limited (telegram w (S (S (S (requests w))))) = false ->
     clock w' <= clock w + 7000).
Proof.
  destruct (sendAlert_loop_attempts 4 5 w) as (w' & Hloop & Hreq & Hclock);
    [lia|lia|].
  exists w'. split; [exact Hloop|]. split; [exact Hreq|].
  intros H0 H1 H2 H3.
  change (1000 * Z.max 0 (8 - 2 ^ (4 - Z.of_nat 4))) with 7000 in Hclock.
  apply Hclock. intros i Hi.
  destruct i as [|[|[|[|i]]]]; try lia.
  - rewrite Nat.add_0_r. exact H0.
  - rewrite Nat.add_1_r. exact H1.
  - replace (requests w + 2)%nat with (S (S (requests w))) by lia. exact H2.
  - replace (requests w + 3)%nat with (S (S (S (requests w)))) by lia.
    exact H3.
Qed.

(** X6. With a token and a chat id configured, [sendAlert] sends requests
    until one is accepted and gives up after four: it resolves to true
    exactly when one of the next four answers of Telegram is an acceptance,
    and the number of requests it sent is the position of that answer, or
    four. *)
Theorem sendAlert_attempts (lvl : AlertLevel) (message : Message)
    (config : WorkerEnv) (w : World) :
  nonempty (TELEGRAM_TOKEN config) = true ->
  nonempty (CHATID config) = true ->
  fst (sendAlert lvl message config w)
  = Return (isSome (first_ok (telegram w) (requests w) 4)) /\
  requests (snd (sendAlert lvl message config w))
  = (requests w
     + match first_ok (telegram w) (requests w) 4 with
       | Some n => S n
       | None => 4
       end)%nat.
Proof.
  intros Htok Hchat. unfold sendAlert. rewrite Htok, Hchat. cbn [negb orb].
  destruct (sendAlert_loop_first_ok w) as (w' & Hloop & Hreq & _).
  rewrite Hloop. simpl. split; [reflexivity|exact Hreq].
Qed.

Lemma sendAlert_attempts_witness :
  nonempty (TELEGRAM_TOKEN sample_env) = true /\
  nonempty (CHATID sample_env) = true /\
  fst (sendAlert critical ErrorMessage sample_env (deaf_world None))
  = Return false /\
  requests (snd (sendAlert critical ErrorMessage sample_env (deaf_world None)))
  = 4%nat.
Proof.
  split; [reflexivity|]. split; [reflexivity|].
  destruct (sendAlert_attempts critical ErrorMessage sample_env
              (deaf_world None) eq_refl eq_refl) as (H1 & H2).
  split; [exact H1|exact H2].
Defined.

(** X7. Whatever Telegram answers, one call of [sendAlert] sends at most
    four requests, logs exactly one dispatch carrying the boolean it
    resolves to, leaves the store and the mirror untouched and never throws;
    without a token or a chat id it sends no request at all and resolves to
    false at once. *)
Theorem sendAlert_frame (lvl : AlertLevel) (message : Message)
    (config : WorkerEnv) (w : World) :
  (exists ok,
     fst (sendAlert lvl message config w) = Return ok /\
     outbox (snd (sendAlert lvl message config w))
     = outbox w ++ [mkDispatch lvl message ok]) /\
  (requests w <= requests (snd (sendAlert lvl message config w))
   <= requests w + 4)%nat /\
  kv (snd (sendAlert lvl message config w)) = kv w /\
  mirrored (snd (sendAlert lvl message config w)) = mirrored w /\
  clock w <= clock (snd (sendAlert lvl message config w)) /\
  (nonempty (TELEGRAM_TOKEN config) && nonempty (CHATID config) = false ->
   sendAlert lvl message config w
   = (Return false, log_dispatch (mkDispatch lvl message false) w)).
Proof.
  assert (Hreq : (requests w <= requests (snd (sendAlert lvl message config w))
                  <= requests w + 4)%nat).
  { unfold sendAlert.
    destruct (negb (nonempty (TELEGRAM_TOKEN config))
              || negb (nonempty (CHATID config))); [simpl; lia|].
    destruct (sendAlert_loop_first_ok w) as (w2 & Hloop & Hreq & _).
    rewrite Hloop. simpl. rewrite Hreq.
    destruct (first_ok (telegram w) (requests w) 4) as [n|] eqn:E; [|lia].
    assert (n < 4)%nat; [|lia].
    clear -E. simpl in E.
    repeat match type of E with
           | context [match ?r with _ => _ end] => destruct r
           end; simpl in E; try discriminate; injection E as <-; lia. }
  assert (Hoff :
    nonempty (TELEGRAM_TOKEN config) && nonempty (CHATID config) = false ->
    sendAlert lvl message config w
    = (Return false, log_dispatch (mkDispatch lvl message false) w)).
  { intros Hcfg. unfold sendAlert.
    destruct (nonempty (TELEGRAM_TOKEN config)),
      (nonempty (CHATID config)); try discriminate Hcfg; reflexivity. }
  destruct (sendAlert_returns lvl message config w)
    as (ok & w' & Hsend & Hkv & Hout & Hmir & _ & Hclock).
  split; [exists ok; rewrite Hsend; simpl; rewrite Hout; auto|].
  split; [exact Hreq|].
  split; [rewrite Hsend; exact Hkv|].
  split; [rewrite Hsend; exact Hmir|].
  split; [rewrite Hsend; exact Hclock|].
  exact Hoff.
Qed.

(** X8. Without rate limiting the waits are the exponential back-off only:
    when none of the next four answers is a 429, a call of [sendAlert]
    holds the cycle up for at most seven seconds. *)
Theorem sendAlert_backoff_bound (lvl : AlertLevel) (message : Message)
    (config : WorkerEnv) (w : World) :
  (forall n, (n < 4)%nat ->
     rate_limited (telegram w (requests w + n)%nat) = false) ->
  clock (snd (sendAlert lvl message config w)) <= clock w + 7000.
Proof.
  intros Hrl. unfold sendAlert.
  destruct (negb (nonempty (TELEGRAM_TOKEN config))
            || negb (nonempty (CHATID config))); [simpl; lia|].
  destruct (sendAlert_loop_first_ok w) as (w' & Hloop & _ & Hclock).
  rewrite Hloop. simpl. apply Hclock.
  - specialize (Hrl 0%nat). rewrite Nat.add_0_r in Hrl. apply Hrl. lia.
  - specialize (Hrl 1%nat). rewrite Nat.add_1_r in Hrl. apply Hrl. lia.
  - specialize (Hrl 2%nat).
    replace (requests w + 2)%nat with (S (S (requests w))) in Hrl by lia.
    apply Hrl. lia.
  - specialize (Hrl 3%nat).
    replace (requests w + 3)%nat with (S (S (S (requests w)))) in Hrl by lia.
    apply Hrl. lia.
Qed.

Lemma sendAlert_backoff_bound_witness :
  (forall n, (n < 4)%nat ->
     rate_limited (telegram (deaf_world None)
                     (requests (deaf_world None) + n)%nat) = false) /\
  clock (snd (sendAlert critical ErrorMessage sample_env (deaf_world None)))
  <= clock (deaf_world None) + 7000.
Proof.
  split; [intros n _; reflexivity|].
  apply (sendAlert_backoff_bound critical ErrorMessage sample_env
           (deaf_world None)).
  intros n _. reflexivity.
Defined.

Lemma sendAlert_frame_witness :
  nonempty (TELEGRAM_TOKEN (mkWorkerEnv Num.n1_7 Num.n1_5 "" "chat" None None))
  && nonempty (CHATID (mkWorkerEnv Num.n1_7 Num.n1_5 "" "chat" None None))
  = false /\
  sendAlert warning ErrorMessage
    (mkWorkerEnv Num.n1_7 Num.n1_5 "" "chat" None None) (calm_world None 5)
  = (Return false,
     log_dispatch (mkDispatch warning ErrorMessage false) (calm_world None 5)).
Proof.
  split; [reflexivity|].
  apply (sendAlert_frame warning ErrorMessage
           (mkWorkerEnv Num.n1_7 Num.n1_5 "" "chat" None None)
           (calm_world None 5)).
  reflexivity.
Defined.

(** ** The loop as a whole *)

(** What one iteration may change. *)
Lemma processLoan_frame validatedEnv loan w sent w2 :
  processLoan validatedEnv loan w = (Return sent, w2) ->
  exists ds,
    outbox w2 = outbox w ++ ds /\
    map d_level ds = map sent_level sent /\
    (sent = [] \/
     exists lvl,
       (lvl = warning \/ lvl = critical) /\
       sent = [mkAlertSent (loan_assetSymbol loan) (id loan)
                 (healthFactor loan) lvl]) /\
    mirrored w2 = mirrored w /\
    clock w <= clock w2 /\
    option_map online (kv w2) = option_map online (kv w) /\
    (forall key, key <> AlertManager.key (id loan) ->
       kv_lookup (kv w2) key = kv_lookup (kv w) key).
Proof.
  intros Hrun. apply processLoan_spec in Hrun. unfold iteration in Hrun.
  assert (Hnone : sent = [] /\ w2 = w ->
    exists ds,
      outbox w2 = outbox w ++ ds /\
      map d_level ds = map sent_level sent /\
      (sent = [] \/
       exists lvl,
         (lvl = warning \/ lvl = critical) /\
         sent = [mkAlertSent (loan_assetSymbol loan) (id loan)
                   (healthFactor loan) lvl]) /\
      mirrored w2 = mirrored w /\
      clock w <= clock w2 /\
      option_map online (kv w2) = option_map online (kv w) /\
      (forall key, key <> AlertManager.key (id loan) ->
         kv_lookup (kv w2) key = kv_lookup (kv w) key)).
  { intros [-> ->]. exists []. rewrite app_nil_r.
    repeat split; auto; lia. }
  destruct (tier_level _) as [lvl|] eqn:Etier; [|auto].
  assert (Hl : lvl = warning \/ lvl = critical).
  { destruct (getRiskLevel _ _ _); simpl in Etier;
      try discriminate; injection Etier as <-; auto. }
  destruct (AlertManager.shouldSendAlert _ _ _ _ _); [|auto].
  destruct Hrun as (ok & wd & (Hkv & Hout & Hmir & _ & Hclock) & -> & ->).
  exists [mkDispatch lvl
            (LoanMessage lvl (loan_assetSymbol loan) (healthFactor loan)) ok].
  simpl. rewrite Hout.
  split; [reflexivity|]. split; [reflexivity|].
  split; [right; exists lvl; auto|].
  split; [exact Hmir|]. split; [exact Hclock|].
  split; [apply recordAlert_online_flag|].
  intros key Hkey. rewrite recordAlert_lookup.
  rewrite (bool_decide_eq_false_2 _ Hkey). reflexivity.
Qed.

(** What the whole loop may change. *)
Lemma processLoans_frame validatedEnv loans w hf sent w' :
  processLoans validatedEnv loans w = (Return (hf, sent), w') ->
  exists ds,
    outbox w' = outbox w ++ ds /\
    map d_level ds = map sent_level sent /\
    Forall (fun a => sent_level a = warning \/ sent_level a = critical) sent /\
    map sent_id sent `sublist_of` map id loans /\
    mirrored w' = mirrored w /\
    clock w <= clock w' /\
    option_map online (kv w') = option_map online (kv w) /\
    (forall key,
       (forall loan, loan ∈ loans -> key <> AlertManager.key (id loan)) ->
       kv_lookup (kv w') key = kv_lookup (kv w) key).
Proof.
  revert w hf sent w'. induction loans as [|loan rest IH];
    intros w hf sent w' Hrun.
  - simpl in Hrun. unfold ret in Hrun. injection Hrun as <- <- <-.
    exists []. rewrite app_nil_r. simpl.
    repeat split; auto; try lia; try constructor.
  - destruct (processLoan_returns validatedEnv loan w) as (s1 & w1 & H1).
    destruct (processLoans_returns validatedEnv rest w1) as (s2 & w2 & H2).
    rewrite (processLoans_cons _ _ _ _ _ _ _ _ H1 H2) in Hrun.
    injection Hrun as <- <- <-.
    destruct (processLoan_frame _ _ _ _ _ H1)
      as (d1 & Ho1 & Hl1 & Hs1 & Hm1 & Hc1 & Hon1 & Hk1).
    destruct (IH _ _ _ _ H2)
      as (d2 & Ho2 & Hl2 & Hf2 & Hsub2 & Hm2 & Hc2 & Hon2 & Hk2).
    exists (d1 ++ d2). simpl.
    split; [rewrite Ho2, Ho1, app_assoc; reflexivity|].
    split; [rewrite !map_app; congruence|].
    split.
    { apply Forall_app. split; [|exact Hf2].
      destruct Hs1 as [-> | (lvl & Hl & ->)]; [constructor|].
      constructor; [exact Hl|constructor]. }
    split.
    { rewrite map_app.
      destruct Hs1 as [-> | (lvl & Hl & ->)]; simpl.
      - apply sublist_cons. exact Hsub2.
      - apply sublist_skip. exact Hsub2. }
    split; [congruence|]. split; [lia|]. split; [congruence|].
    intros key Hkey. rewrite Hk2, Hk1; [reflexivity| |].
    + apply Hkey. left.
    + intros l Hin. apply Hkey. right. exact Hin.
Qed.

Lemma throttle_keys_not_alert_keys id :
  "lastErrorAlertTime"%string <> AlertManager.key id /\
  "lastPriceUpdateTime"%string <> AlertManager.key id.
Proof. unfold AlertManager.key. simpl. split; discriminate. Qed.

(** X9. In one pass over the snapshot the outbox grows by exactly one
    dispatch per entry of [alertsSent]; every one is a warning or a critical
    alert, and there is at most one per loan, in the order of the snapshot;
    the mirror is not touched. *)
Theorem processLoans_dispatches (validatedEnv : WorkerEnv)
    (loans : list LoanInfo) (w : World) :
  exists sent w' ds,
    processLoans validatedEnv loans w = (Return (loans, sent), w') /\
    outbox w' = outbox w ++ ds /\
    map d_level ds = map sent_level sent /\
    Forall (fun a => sent_level a = warning \/ sent_level a = critical) sent /\
    map sent_id sent `sublist_of` map id loans /\
    (length ds <= length loans)%nat /\
    mirrored w' = mirrored w.
Proof.
  destruct (processLoans_returns validatedEnv loans w) as (sent & w' & Hrun).
  destruct (processLoans_frame _ _ _ _ _ _ Hrun)
    as (ds & Ho & Hl & Hf & Hsub & Hm & _).
  exists sent, w', ds. repeat split; try assumption.
  apply (f_equal length) in Hl. rewrite !length_map in Hl.
  apply sublist_length in Hsub. rewrite !length_map in Hsub. lia.
Qed.

(** X10. The loop writes to the store under the keys of the snapshot's
    loans only: every other entry is as before, in particular the two
    throttle instants [lastErrorAlertTime] and [lastPriceUpdateTime]. *)
Theorem processLoans_store_footprint (validatedEnv : WorkerEnv)
    (loans : list LoanInfo) (w : World) :
  (forall key,
     (forall loan, loan ∈ loans -> key <> AlertManager.key (id loan)) ->
     kv_lookup (kv (snd (processLoans validatedEnv loans w))) key
     = kv_lookup (kv w) key) /\
  kv_lookup (kv (snd (processLoans validatedEnv loans w))) "lastErrorAlertTime"
  = kv_lookup (kv w) "lastErrorAlertTime" /\
  kv_lookup (kv (snd (processLoans validatedEnv loans w))) "lastPriceUpdateTime"
  = kv_lookup (kv w) "lastPriceUpdateTime".
Proof.
  destruct (processLoans_returns validatedEnv loans w) as (sent & w' & Hrun).
  destruct (processLoans_frame _ _ _ _ _ _ Hrun)
    as (ds & _ & _ & _ & _ & _ & _ & _ & Hk).
  rewrite Hrun. simpl.
  split; [exact Hk|].
  split; apply Hk; intros loan _; apply throttle_keys_not_alert_keys.
Qed.

Lemma processLoans_store_footprint_witness :
  kv_lookup
    (kv (snd (processLoans sample_env [loan_L1]
                (calm_world (Some empty_store) 1000))))
    (AlertManager.key "L2")
  = kv_lookup (kv (calm_world (Some empty_store) 1000)) (AlertManager.key "L2").
Proof.
  destruct (processLoans_store_footprint sample_env [loan_L1]
              (calm_world (Some empty_store) 1000)) as (Hother & _).
  apply Hother.
  intros loan Hin. apply list_elem_of_singleton in Hin. subst loan.
  intros H. apply key_inj in H. discriminate H.
Defined.

(** ** The handler as a whole *)

(** The price step changes neither the outbox nor the clock. *)
Lemma updatePrices_frame sv appConfig w :
  outbox (snd (updatePrices sv appConfig w)) = outbox w /\
  clock (snd (updatePrices sv appConfig w)) = clock w.
Proof.
  pose proof (updatePrices_run sv appConfig w) as Hrun.
  destruct (fst (state_get "lastPriceUpdateTime" w)) as [last|];
    [|rewrite Hrun; auto].
  destruct (window_passed last (clock w) PRICE_UPDATE_INTERVAL_MS);
    [|rewrite Hrun; auto].
  destruct (fst (getAssetSymbols sv appConfig w)) as [assetSymbols|];
    [|rewrite Hrun; auto].
  destruct (0 <? length assetSymbols)%nat; [|rewrite Hrun; auto].
  destruct (getPrices sv (toLiqwidSymbols assetSymbols)) as [prices|];
    [|rewrite Hrun; auto].
  destruct (updatePriceDatabase_frame sv appConfig prices w)
    as [Hthrow|(results & w1 & Hpush & Hk & Hc & Ho)].
  - rewrite Hthrow in Hrun. rewrite Hrun. auto.
  - rewrite Hpush in Hrun. rewrite Hrun.
    destruct (state_put_frame "lastPriceUpdateTime" (toString (clock w)) w1)
      as (Ho' & _ & Hc').
    split; congruence.
Qed.

Lemma try_catch_snd {A} (body : M A) (a : A) w :
  snd (try_catch body (ret a) w) = snd (body w).
Proof. unfold try_catch, ret. destruct (body w) as [[x|] w']; reflexivity. Qed.

(** The cycle when the environment is valid and the loans were fetched. *)
Lemma monitor_run sv w cfg loans sent w1 :
  createEnv sv = Return cfg ->
  fetchLoansSnapshot sv = Return loans ->
  processLoans cfg loans w = (Return (loans, sent), w1) ->
  monitor sv w
  = (Return tt,
     if present (NOTION_PRICES_DB_ID cfg)
     then snd (updatePrices sv cfg w1) else w1).
Proof.
  intros Henv Hfetch Hloop. unfold monitor.
  rewrite Henv, Hfetch.
  rewrite (bind_return (lift (Return cfg)) _ w cfg w eq_refl).
  rewrite (bind_return (lift (Return loans)) _ w loans w eq_refl).
  rewrite (bind_return _ _ _ _ _ Hloop).
  destruct (present (NOTION_PRICES_DB_ID cfg)); [|reflexivity].
  unfold try_catch, ret.
  destruct (updatePrices sv cfg w1) as [[[]|] w2]; reflexivity.
Qed.

(** X11. The handler never throws: whatever the environment, the data
    source, the store, the mirror and Telegram do, [scheduled] completes. *)
Theorem scheduled_never_throws (sv : Services) (w : World) :
  fst (scheduled sv w) = Return tt.
Proof.
  unfold scheduled, try_catch.
  destruct (monitor sv w) as [[[]|] w0]; [reflexivity|].
  destruct (handleFailure_cases sv w0) as [H|(? & ? & ? & _ & _ & _ & H)];
    rewrite H; reflexivity.
Qed.

(** X12. When the environment does not validate, the handler does nothing
    at all: no loan is fetched, nothing is written to the store and no alert
    is sent, not even the error alert, because the failure handler validates
    the same environment again before it sends. *)
Theorem scheduled_invalid_env (sv : Services) (w : World) :
  createEnv sv = Throw ->
  scheduled sv w = (Return tt, w).
Proof.
  intros Henv.
  assert (Hmon : monitor sv w = (Throw, w))
    by (unfold monitor, bind, lift; rewrite Henv; reflexivity).
  rewrite (scheduled_on_failure _ _ _ Hmon).
  pose proof (errorAlert_run sv w) as Hrun. rewrite Henv in Hrun.
  unfold handleFailure, try_catch.
  destruct (fst (state_get "lastErrorAlertTime" w)) as [last|];
    [|rewrite Hrun; reflexivity].
  destruct (window_passed last (clock w) ERROR_ALERT_COOLDOWN_MS);
    rewrite Hrun; reflexivity.
Qed.

Lemma scheduled_invalid_env_witness :
  createEnv (mkServices Throw (Return [loan_L1]) (fun _ => Return [])
               (fun _ => Return []) (fun _ => true)) = Throw /\
  scheduled (mkServices Throw (Return [loan_L1]) (fun _ => Return [])
               (fun _ => Return []) (fun _ => true))
            (calm_world (Some empty_store) 1000)
  = (Return tt, calm_world (Some empty_store) 1000).
Proof.
  split; [reflexivity|].
  apply (scheduled_invalid_env
           (mkServices Throw (Return [loan_L1]) (fun _ => Return [])
              (fun _ => Return []) (fun _ => true))
           (calm_world (Some empty_store) 1000)).
  reflexivity.
Defined.

(** X13. When the environment validates and the loans are fetched, the
    handler sends loan alerts only: every dispatch of the run is a warning
    or a critical alert, at most one per loan, and no error alert is sent
    even when the price mirror fails, whose failure is caught on the spot. *)
Theorem scheduled_success_sends_loan_alerts_only (sv : Services) (w : World)
    (cfg : WorkerEnv) (loans : list LoanInfo) :
  createEnv sv = Return cfg ->
  fetchLoansSnapshot sv = Return loans ->
  exists ds,
    outbox (snd (scheduled sv w)) = outbox w ++ ds /\
    outbox (snd (scheduled sv w)) = outbox (snd (processLoans cfg loans w)) /\
    Forall (fun d => d_level d = warning \/ d_level d = critical) ds /\
    (length ds <= length loans)%nat.
Proof.
  intros Henv Hfetch.
  destruct (processLoans_returns cfg loans w) as (sent & w1 & Hloop).
  destruct (processLoans_frame _ _ _ _ _ _ Hloop)
    as (ds & Ho & Hl & Hf & Hsub & _).
  assert (Hout : outbox (snd (scheduled sv w)) = outbox w1).
  { unfold scheduled, try_catch.
    rewrite (monitor_run _ _ _ _ _ _ Henv Hfetch Hloop). simpl.
    destruct (present (NOTION_PRICES_DB_ID cfg)); [|reflexivity].
    apply updatePrices_frame. }
  exists ds. rewrite Hout, Hloop. simpl.
  split; [exact Ho|]. split; [reflexivity|]. split.
  - apply Forall_map with (f := sent_level)
                          (P := fun l => l = warning \/ l = critical) in Hf.
    rewrite <- Hl in Hf. apply Forall_map in Hf. exact Hf.
  - apply (f_equal length) in Hl. rewrite !length_map in Hl.
    apply sublist_length in Hsub. rewrite !length_map in Hsub. lia.
Qed.

Lemma scheduled_success_sends_loan_alerts_only_witness :
  createEnv one_loan_services = Return sample_env /\
  fetchLoansSnapshot one_loan_services = Return [loan_L1] /\
  exists ds,
    outbox (snd (scheduled one_loan_services
                   (deaf_world (Some empty_store))))
    = outbox (deaf_world (Some empty_store)) ++ ds /\
    Forall (fun d => d_level d = warning \/ d_level d = critical) ds.
Proof.
  split; [reflexivity|]. split; [reflexivity|].
  destruct (scheduled_success_sends_loan_alerts_only one_loan_services
              (deaf_world (Some empty_store)) sample_env [loan_L1]
              eq_refl eq_refl) as (ds & H1 & _ & H3 & _).
  exists ds. split; [exact H1|exact H3].
Defined.

(** What [state_put] leaves of the store: every other key, and the binding's
    answering flag. *)
Lemma state_put_lookup key v w key' :
  key' <> key ->
  kv_lookup (kv (snd (state_put key v w))) key' = kv_lookup (kv w) key'.
Proof.
  intros Hne. unfold state_put, kv_put.
  destruct (kv w) as [k|] eqn:Ek; simpl; rewrite ?Ek; [|reflexivity].
  destruct (online k); simpl; rewrite ?Ek; [|reflexivity].
  apply lookup_insert_ne. congruence.
Qed.

(** X14. When the loan fetch fails, no loan alert is sent and nothing is
    mirrored: the run adds at most one dispatch, of level error, and the
    only entry of the store it may write is [lastErrorAlertTime]; the alert
    records of the loans stay as they were. *)
Theorem scheduled_fetch_failure (sv : Services) (w : World) :
  fetchLoansSnapshot sv = Throw ->
  (exists ds,
     outbox (snd (scheduled sv w)) = outbox w ++ ds /\
     (length ds <= 1)%nat /\
     Forall (fun d => d_level d = error) ds) /\
  mirrored (snd (scheduled sv w)) = mirrored w /\
  (forall key, key <> "lastErrorAlertTime"%string ->
     kv_lookup (kv (snd (scheduled sv w))) key = kv_lookup (kv w) key).
Proof.
  intros Hfetch.
  rewrite (scheduled_on_failure _ _ _ (monitor_fetch_failure sv w Hfetch)).
  destruct (handleFailure_cases sv w)
    as [H|(last & ok & w1 & _ & _ & (Hkv & Hout & Hmir & _) & H)];
    rewrite H; simpl.
  - split; [exists []; rewrite app_nil_r; auto|]. auto.
  - destruct (state_put_frame "lastErrorAlertTime" (toString (clock w))
                (log_dispatch (mkDispatch error ErrorMessage ok) w1))
      as (Ho & Hm & _).
    split.
    { exists [mkDispatch error ErrorMessage ok].
      rewrite Ho. simpl. rewrite Hout.
      split; [reflexivity|]. split; [lia|].
      constructor; [reflexivity|constructor]. }
    split; [rewrite Hm; exact Hmir|].
    intros key Hkey. rewrite (state_put_lookup _ _ _ _ Hkey).
    simpl. rewrite Hkv. reflexivity.
Qed.

Lemma scheduled_fetch_failure_witness :
  fetchLoansSnapshot failing_services = Throw /\
  kv_lookup
    (kv (snd (scheduled failing_services
                (calm_world
                   (Some (store_with (mkAlertRecord warning 1000 "ADA")))
                   2000))))
    (AlertManager.key "L1")
  = kv_lookup
      (kv (calm_world (Some (store_with (mkAlertRecord warning 1000 "ADA")))
                      2000))
      (AlertManager.key "L1").
Proof.
  split; [reflexivity|].
  destruct (scheduled_fetch_failure failing_services
              (calm_world
                 (Some (store_with (mkAlertRecord warning 1000 "ADA"))) 2000)
              eq_refl) as (_ & _ & Hk).
  apply Hk. discriminate.
Defined.

(** X15. A mirror database id without an API token switches the price step
    off: the step queries nothing, pushes nothing and leaves the stored
    instant alone, and the run ends where the loop over the loans ended. *)
Theorem updatePrices_without_token (sv : Services) (appConfig : WorkerEnv)
    (w : World) :
  present (NOTION_API_TOKEN appConfig) = false ->
  snd (updatePrices sv appConfig w) = w /\
  (forall loans,
     createEnv sv = Return appConfig ->
     fetchLoansSnapshot sv = Return loans ->
     snd (scheduled sv w) = snd (processLoans appConfig loans w)).
Proof.
  intros Htok.
  assert (Hstep : forall w0, snd (updatePrices sv appConfig w0) = w0).
  { intros w0. pose proof (updatePrices_run sv appConfig w0) as Hrun.
    assert (Hsym : fst (getAssetSymbols sv appConfig w0) = Return [])
      by (unfold getAssetSymbols, ensureClient, bind, lift, ret;
          rewrite Htok; reflexivity).
    rewrite Hsym in Hrun.
    destruct (fst (state_get "lastPriceUpdateTime" w0)) as [last|];
      [|rewrite Hrun; reflexivity].
    destruct (window_passed last (clock w0) PRICE_UPDATE_INTERVAL_MS);
      simpl in Hrun; rewrite Hrun; reflexivity. }
  split; [apply Hstep|].
  intros loans Henv Hfetch.
  destruct (processLoans_returns appConfig loans w) as (sent & w1 & Hloop).
  unfold scheduled, try_catch.
  rewrite (monitor_run _ _ _ _ _ _ Henv Hfetch Hloop), Hloop. simpl.
  destruct (present (NOTION_PRICES_DB_ID appConfig)); [apply Hstep|reflexivity].
Qed.

Lemma updatePrices_without_token_witness :
  present (NOTION_API_TOKEN
             (mkWorkerEnv Num.n1_7 Num.n1_5 "token" "chat" (Some "db"%string)
                          None)) = false /\
  snd (updatePrices refusing_mirror
         (mkWorkerEnv Num.n1_7 Num.n1_5 "token" "chat" (Some "db"%string) None)
         (calm_world (Some empty_store) 5))
  = calm_world (Some empty_store) 5.
Proof.
  split; [reflexivity|].
  apply (updatePrices_without_token refusing_mirror
           (mkWorkerEnv Num.n1_7 Num.n1_5 "token" "chat" (Some "db"%string)
                        None)
           (calm_world (Some empty_store) 5)).
  reflexivity.
Defined.

(** ** The push to the mirror *)

(** The rows written and refused, in the order of the prices. *)
Lemma writeRows_account sv prices results w :
  exists w',
    writeRows sv prices results w
    = (Return
         (mkUpdateResult
            (updated results + length (List.filter (writePriceRow sv) prices))
            (errors results
             ++ List.filter (fun symbol => negb (writePriceRow sv symbol))
                  prices)),
       w') /\
    mirrored w' = mirrored w ++ List.filter (writePriceRow sv) prices /\
    kv w' = kv w /\ outbox w' = outbox w.
Proof.
  revert results w. induction prices as [|symbol rest IH]; intros results w.
  - exists w. simpl. rewrite Nat.add_0_r, !app_nil_r.
    destruct results. auto.
  - simpl. destruct (writePriceRow sv symbol) eqn:E; simpl.
    + destruct (IH (mkUpdateResult (S (updated results)) (errors results))
                  (log_mirrored symbol w)) as (w' & H & Hm & Hk & Ho).
      exists w'. rewrite H. simpl.
      replace (S (updated results + length (List.filter (writePriceRow sv) rest)))
        with (updated results + S (length (List.filter (writePriceRow sv) rest)))%nat
        by lia.
      split; [reflexivity|].
      split; [rewrite Hm; simpl; rewrite <- app_assoc; reflexivity|].
      auto.
    + destruct (IH (mkUpdateResult (updated results)
                      (errors results ++ [symbol])) w)
        as (w' & H & Hm & Hk & Ho).
      exists w'. rewrite H. simpl. rewrite <- app_assoc.
      split; [reflexivity|]. auto.
Qed.

(** X16. The push accounts for every price exactly once: with a token and a
    database id configured and the rows query answered, [updatePriceDatabase]
    returns without throwing, [updated] counts the rows the mirror accepted,
    [errors] lists the refused symbols in order, the two add up to the
    number of prices, and exactly the accepted rows reach the mirror. *)
Theorem updatePriceDatabase_accounting (sv : Services) (config : WorkerEnv)
    (prices rows : list string) (w : World) :
  present (NOTION_API_TOKEN config) = true ->
  present (NOTION_PRICES_DB_ID config) = true ->
  queryPricesDatabase sv 1%nat = Return rows ->
  exists results w',
    updatePriceDatabase sv config prices w = (Return results, w') /\
    updated results = length (List.filter (writePriceRow sv) prices) /\
    errors results
    = List.filter (fun symbol => negb (writePriceRow sv symbol)) prices /\
    (updated results + length (errors results) = length prices)%nat /\
    mirrored w' = mirrored w ++ List.filter (writePriceRow sv) prices.
Proof.
  intros Htok Hdb Hq.
  destruct (writeRows_account sv prices (mkUpdateResult 0 []) w)
    as (w' & Hrun & Hm & _).
  eexists _, w'. split.
  - unfold updatePriceDatabase, ensureClient, bind, lift.
    rewrite Htok, Hdb, Hq. simpl. exact Hrun.
  - simpl. split; [reflexivity|]. split; [reflexivity|].
    split; [|exact Hm].
    clear. induction prices as [|symbol rest IH]; [reflexivity|].
    simpl. destruct (writePriceRow sv symbol); simpl; lia.
Qed.

Lemma updatePriceDatabase_accounting_witness :
  present (NOTION_API_TOKEN mirror_env) = true /\
  present (NOTION_PRICES_DB_ID mirror_env) = true /\
  queryPricesDatabase refusing_mirror 1%nat = Return ["ADA"%string] /\
  exists results w',
    updatePriceDatabase refusing_mirror mirror_env
      ["Ada"%string; "DJED"%string] (calm_world None 5)
    = (Return results, w') /\
    (updated results + length (errors results) = 2)%nat.
Proof.
  split; [reflexivity|]. split; [reflexivity|]. split; [reflexivity|].
  destruct (updatePriceDatabase_accounting refusing_mirror mirror_env
              ["Ada"%string; "DJED"%string] ["ADA"%string]
              (calm_world None 5) eq_refl eq_refl eq_refl)
    as (results & w' & Hrun & _ & _ & Hsum & _).
  exists results, w'. split; [exact Hrun|exact Hsum].
Defined.

(** ** The in-memory cache *)

(** [get] after [set], while the entry lives. *)
Lemma SimpleCache_get_live {T} (cache : gmap string (SimpleCache.entry T))
    (key : string) (d : T) (ttlSeconds t t' : Z) :
  t' <= t + ttlSeconds * 1000 ->
  SimpleCache.get (SimpleCache.set cache t key d ttlSeconds) t' key
  = (Some d, SimpleCache.set cache t key d ttlSeconds).
Proof.
  intros Ht. unfold SimpleCache.get, SimpleCache.set.
  rewrite lookup_insert_eq. simpl.
  apply Z.ltb_ge in Ht. rewrite Ht. reflexivity.
Qed.

(** [get] after [set], once the entry has expired. *)
Lemma SimpleCache_get_expired {T} (cache : gmap string (SimpleCache.entry T))
    (key : string) (d : T) (ttlSeconds t t' : Z) :
  t + ttlSeconds * 1000 < t' ->
  SimpleCache.get (SimpleCache.set cache t key d ttlSeconds) t' key
  = (None, delete key cache).
Proof.
  intros Ht. unfold SimpleCache.get, SimpleCache.set.
  rewrite lookup_insert_eq. simpl.
  apply Z.ltb_lt in Ht. rewrite Ht, delete_insert_eq. reflexivity.
Qed.

(** [get] leaves the other keys alone. *)
Lemma SimpleCache_get_other {T} (cache : gmap string (SimpleCache.entry T))
    (key key' : string) (now : Z) :
  key' <> key ->
  snd (SimpleCache.get cache now key) !! key' = cache !! key'.
Proof.
  intros Hne. unfold SimpleCache.get.
  destruct (cache !! key) as [e|]; [|reflexivity].
  destruct (SimpleCache.expiresAt e <? now); [|reflexivity].
  apply lookup_delete_ne. congruence.
Qed.

(** After a miss the key is absent. *)
Lemma SimpleCache_get_miss {T} (cache : gmap string (SimpleCache.entry T))
    (key : string) (now : Z) :
  fst (SimpleCache.get cache now key) = None ->
  snd (SimpleCache.get cache now key) !! key = None.
Proof.
  unfold SimpleCache.get.
  destruct (cache !! key) as [e|] eqn:E; [|intros _; exact E].
  destruct (SimpleCache.expiresAt e <? now); simpl; [|discriminate].
  intros _. apply lookup_delete_eq.
Qed.

(** [get] of an absent key. *)
Lemma SimpleCache_get_absent {T} (cache : gmap string (SimpleCache.entry T))
    (key : string) (now : Z) :
  cache !! key = None -> SimpleCache.get cache now key = (None, cache).
Proof. intros E. unfold SimpleCache.get. rewrite E. reflexivity. Qed.

(** X17. Round trip of [set] and [get]: a value stored at [t] for
    [ttlSeconds] is returned by [get] up to and including the instant
    [t + ttlSeconds * 1000]; one millisecond later [get] returns
    [undefined] and removes the entry, so that [getExpiry], which reports
    [t + ttlSeconds * 1000] until then, reports nothing any more. *)
Theorem cache_set_get {T} (cache : gmap string (SimpleCache.entry T))
    (key : string) (d : T) (ttlSeconds t t' : Z) :
  SimpleCache.getExpiry (SimpleCache.set cache t key d ttlSeconds) key
  = Some (t + ttlSeconds * 1000) /\
  (t' <= t + ttlSeconds * 1000 ->
   SimpleCache.get (SimpleCache.set cache t key d ttlSeconds) t' key
   = (Some d, SimpleCache.set cache t key d ttlSeconds)) /\
  (t + ttlSeconds * 1000 < t' ->
   SimpleCache.get (SimpleCache.set cache t key d ttlSeconds) t' key
   = (None, delete key cache) /\
   SimpleCache.getExpiry
     (snd (SimpleCache.get (SimpleCache.set cache t key d ttlSeconds) t' key))
     key = None).
Proof.
  split.
  - unfold SimpleCache.getExpiry, SimpleCache.set.
    rewrite lookup_insert_eq. reflexivity.
  - split; [apply SimpleCache_get_live|].
    intros Ht. rewrite (SimpleCache_get_expired _ _ _ _ _ _ Ht).
    split; [reflexivity|].
    unfold SimpleCache.getExpiry. simpl. rewrite lookup_delete_eq.
    reflexivity.
Qed.

Lemma cache_set_get_witness :
  (61000 <= 1000 + 60 * 1000 ->
   SimpleCache.get (SimpleCache.set ∅ 1000 "k" 7%nat 60) 61000 "k"
   = (Some 7%nat, SimpleCache.set ∅ 1000 "k" 7%nat 60)) /\
  (1000 + 60 * 1000 < 61001 ->
   SimpleCache.get (SimpleCache.set ∅ 1000 "k" 7%nat 60) 61001 "k"
   = (None, delete "k" ∅) /\
   SimpleCache.getExpiry
     (snd (SimpleCache.get (SimpleCache.set ∅ 1000 "k" 7%nat 60) 61001 "k"))
     "k" = None).
Proof.
  destruct (cache_set_get (∅ : gmap string (SimpleCache.entry nat)) "k" 7%nat
              60 1000 61000) as (_ & Hhit & _).
  destruct (cache_set_get (∅ : gmap string (SimpleCache.entry nat)) "k" 7%nat
              60 1000 61001) as (_ & _ & Hmiss).
  split; [exact Hhit|exact Hmiss].
Defined.

(** X18. What [get] does to the cache: it never touches another key; a hit
    changes nothing; and after a miss the key is absent, so that every later
    [get] of the key misses too, until the next [set]. *)
Theorem cache_get_frame {T} (cache : gmap string (SimpleCache.entry T))
    (key : string) (now : Z) :
  (forall key', key' <> key ->
     snd (SimpleCache.get cache now key) !! key' = cache !! key') /\
  (forall d, fst (SimpleCache.get cache now key) = Some d ->
     snd (SimpleCache.get cache now key) = cache) /\
  (fst (SimpleCache.get cache now key) = None ->
   snd (SimpleCache.get cache now key) !! key = None /\
   forall now',
     SimpleCache.get (snd (SimpleCache.get cache now key)) now' key
     = (None, snd (SimpleCache.get cache now key))).
Proof.
  split; [intros key' Hne; apply SimpleCache_get_other; exact Hne|].
  split.
  - unfold SimpleCache.get. intros d.
    destruct (cache !! key) as [e|]; [|discriminate].
    destruct (SimpleCache.expiresAt e <? now); [discriminate|reflexivity].
  - intros Hmiss. pose proof (SimpleCache_get_miss _ _ _ Hmiss) as Habs.
    split; [exact Habs|].
    intros now'. apply SimpleCache_get_absent. exact Habs.
Qed.

Lemma cache_get_frame_witness :
  fst (SimpleCache.get (SimpleCache.set ∅ 0 "k" 7%nat 1) 5000 "k") = None /\
  SimpleCache.get
    (snd (SimpleCache.get (SimpleCache.set ∅ 0 "k" 7%nat 1) 5000 "k")) 0 "k"
  = (None, snd (SimpleCache.get (SimpleCache.set ∅ 0 "k" 7%nat 1) 5000 "k")).
Proof.
  split; [reflexivity|].
  destruct (cache_get_frame (SimpleCache.set ∅ 0 "k" 7%nat 1) "k" 5000)
    as (_ & _ & Hmiss).
  destruct (Hmiss eq_refl) as (_ & Hlater). apply Hlater.
Defined.

(** ** The loan snapshot and its cache *)

Lemma cacheKey_inj a a' :
  LiqwidClient.cacheKey a = LiqwidClient.cacheKey a' -> a = a'.
Proof. unfold LiqwidClient.cacheKey. simpl. intros H. injection H. auto. Qed.

(** A call that finds nothing usable in the cache and is answered. *)
Lemma fetchLoansSnapshot_miss answer now answered st address loans :
  nonempty address = true ->
  fst (SimpleCache.get (LiqwidClient.cache st) now
         (LiqwidClient.cacheKey address)) = None ->
  answer (LiqwidClient.sent st) = Return loans ->
  LiqwidClient.fetchLoansSnapshot answer now answered st address
  = (Return loans,
     LiqwidClient.mkState
       (SimpleCache.set
          (snd (SimpleCache.get (LiqwidClient.cache st) now
                  (LiqwidClient.cacheKey address)))
          answered (LiqwidClient.cacheKey address) loans
          LiqwidClient.LOANS_CACHE_TTL)
       (S (LiqwidClient.sent st))).
Proof.
  intros Ha Hmiss Hans. unfold LiqwidClient.fetchLoansSnapshot.
  rewrite Ha. simpl.
  destruct (SimpleCache.get (LiqwidClient.cache st) now
              (LiqwidClient.cacheKey address)) as [c c1].
  simpl in Hmiss. subst c. rewrite Hans. reflexivity.
Qed.

(** X19. The loan snapshot is cached for one minute: after a call that sent
    a request answered at [t1], every call for the same address made up to
    [t1 + 60000] returns the same loans without sending a request, whatever
    the data source would answer by then. *)
Theorem fetchLoansSnapshot_cached
    (answer answer' : nat -> outcome (list LoanInfo)) (t0 t1 t2 t3 : Z)
    (st : LiqwidClient.state) (address : string) (loans : list LoanInfo) :
  nonempty address = true ->
  fst (SimpleCache.get (LiqwidClient.cache st) t0
         (LiqwidClient.cacheKey address)) = None ->
  answer (LiqwidClient.sent st) = Return loans ->
  t2 <= t1 + 60000 ->
  fst (LiqwidClient.fetchLoansSnapshot answer' t2 t3
         (snd (LiqwidClient.fetchLoansSnapshot answer t0 t1 st address))
         address)
  = Return loans /\
  LiqwidClient.sent
    (snd (LiqwidClient.fetchLoansSnapshot answer' t2 t3
            (snd (LiqwidClient.fetchLoansSnapshot answer t0 t1 st address))
            address))
  = S (LiqwidClient.sent st).
Proof.
  intros Ha Hmiss Hans Ht.
  rewrite (fetchLoansSnapshot_miss _ _ _ _ _ _ Ha Hmiss Hans). simpl.
  unfold LiqwidClient.fetchLoansSnapshot. rewrite Ha. simpl.
  rewrite SimpleCache_get_live; [split; reflexivity|].
  unfold LiqwidClient.LOANS_CACHE_TTL. lia.
Qed.

Lemma fetchLoansSnapshot_cached_witness :
  fst (LiqwidClient.fetchLoansSnapshot (fun _ => Throw) 61000 61000
         (snd (LiqwidClient.fetchLoansSnapshot (fun _ => Return [loan_L1])
                 0 1000 (LiqwidClient.mkState ∅ 0) "addr1"))
         "addr1")
  = Return [loan_L1].
Proof.
  apply (fetchLoansSnapshot_cached (fun _ => Return [loan_L1])
           (fun _ => Throw) 0 1000 61000 61000 (LiqwidClient.mkState ∅ 0)
           "addr1" [loan_L1]); [reflexivity|reflexivity|reflexivity|lia].
Defined.

(** X20. The cache expires and is filled by answers only: a call made more
    than a minute after the cached answer sends a new request and returns
    what is answered then; a request that fails is not cached, so the next
    call asks again; and a snapshot cached for one address never serves
    another. *)
Theorem fetchLoansSnapshot_refetch
    (answer : nat -> outcome (list LoanInfo)) (t0 t1 t2 t3 : Z)
    (st : LiqwidClient.state) (address address' : string) :
  nonempty address = true ->
  fst (SimpleCache.get (LiqwidClient.cache st) t0
         (LiqwidClient.cacheKey address)) = None ->
  (t1 + 60000 < t2 ->
   fst (LiqwidClient.fetchLoansSnapshot answer t2 t3
          (snd (LiqwidClient.fetchLoansSnapshot answer t0 t1 st address))
          address)
   = answer (S (LiqwidClient.sent st))) /\
  (answer (LiqwidClient.sent st) = Throw ->
   fst (LiqwidClient.fetchLoansSnapshot answer t0 t1 st address) = Throw /\
   fst (LiqwidClient.fetchLoansSnapshot answer t2 t3
          (snd (LiqwidClient.fetchLoansSnapshot answer t0 t1 st address))
          address)
   = answer (S (LiqwidClient.sent st))) /\
  (nonempty address' = true -> address' <> address ->
   LiqwidClient.cache st !! LiqwidClient.cacheKey address' = None ->
   fst (LiqwidClient.fetchLoansSnapshot answer t2 t3
          (snd (LiqwidClient.fetchLoansSnapshot answer t0 t1 st address))
          address')
   = answer (S (LiqwidClient.sent st))).
Proof.
  intros Ha Hmiss.
  pose proof (SimpleCache_get_miss _ _ _ Hmiss) as Habsent.
  assert (Hlater : forall now',
            SimpleCache.get
              (snd (SimpleCache.get (LiqwidClient.cache st) t0
                      (LiqwidClient.cacheKey address)))
              now' (LiqwidClient.cacheKey address)
            = (None, snd (SimpleCache.get (LiqwidClient.cache st) t0
                            (LiqwidClient.cacheKey address))))
    by (intros now'; apply SimpleCache_get_absent; exact Habsent).
  assert (Hother : forall key',
            key' <> LiqwidClient.cacheKey address ->
            snd (SimpleCache.get (LiqwidClient.cache st) t0
                   (LiqwidClient.cacheKey address)) !! key'
            = LiqwidClient.cache st !! key')
    by (intros key' Hne; apply SimpleCache_get_other; exact Hne).
  assert (Hfinish : forall o st',
            match o with
            | Return loans =>
              (Return loans,
               LiqwidClient.mkState
                 (SimpleCache.set (LiqwidClient.cache st') t3
                    (LiqwidClient.cacheKey address) loans
                    LiqwidClient.LOANS_CACHE_TTL)
                 (S (LiqwidClient.sent st')))
            | Throw =>
              (Throw,
               LiqwidClient.mkState (LiqwidClient.cache st')
                 (S (LiqwidClient.sent st')))
            end.1 = o).
  { intros [l|] st'; reflexivity. }
  unfold LiqwidClient.fetchLoansSnapshot. rewrite Ha. simpl.
  destruct (SimpleCache.get (LiqwidClient.cache st) t0
              (LiqwidClient.cacheKey address)) as [c c1] eqn:Eget.
  simpl in Hmiss, Habsent, Hlater, Hother. subst c.
  split; [|split].
  - intros Ht. destruct (answer (LiqwidClient.sent st)) as [loans|]; simpl.
    + rewrite SimpleCache_get_expired
        by (unfold LiqwidClient.LOANS_CACHE_TTL; lia). destruct (answer (S (LiqwidClient.sent st))); reflexivity.
    + rewrite Hlater.
      destruct (answer (S (LiqwidClient.sent st))); reflexivity.
  - intros Hfail. rewrite Hfail. simpl. split; [reflexivity|].
    rewrite Hlater.
    destruct (answer (S (LiqwidClient.sent st))); reflexivity.
  - intros Ha' Hne Hnone. rewrite Ha'. simpl.
    assert (Hk : LiqwidClient.cacheKey address' <> LiqwidClient.cacheKey address)
      by (intros H; apply cacheKey_inj in H; congruence).
    assert (Hc1 : c1 !! LiqwidClient.cacheKey address' = None)
      by (rewrite (Hother _ Hk); exact Hnone).
    destruct (answer (LiqwidClient.sent st)) as [loans|]; simpl;
      unfold SimpleCache.get, SimpleCache.set;
      rewrite ?lookup_insert_ne by congruence; rewrite Hc1;
      destruct (answer (S (LiqwidClient.sent st))); reflexivity.
Qed.

Lemma fetchLoansSnapshot_refetch_witness :
  fst (LiqwidClient.fetchLoansSnapshot
         (fun n => match n with O => Return [loan_L1] | S _ => Return [] end)
         61001 61001
         (snd (LiqwidClient.fetchLoansSnapshot
                 (fun n => match n with
                           | O => Return [loan_L1]
                           | S _ => Return []
                           end)
                 0 1000 (LiqwidClient.mkState ∅ 0) "addr1"))
         "addr1")
  = Return [].
Proof.
  destruct (fetchLoansSnapshot_refetch
              (fun n => match n with O => Return [loan_L1] | S _ => Return [] end)
              0 1000 61001 61001 (LiqwidClient.mkState ∅ 0) "addr1" "addr2")
    as (Hexp & _ & _); [reflexivity|reflexivity|].
  apply Hexp. lia.
Defined.

(** X21. A client that has cached nothing yet, as the handler builds one in
    every run, asks the data source exactly once and returns its first
    answer, failure included; without a payment address it throws at once
    and asks nothing, whatever the data source would have answered. *)
Theorem fetchLoansSnapshot_fresh_client
    (answer : nat -> outcome (list LoanInfo)) (now answered : Z)
    (address : string) :
  fst (LiqwidClient.fetchLoansSnapshot answer now answered
         (LiqwidClient.mkState ∅ 0) address)
  = (if nonempty address then answer 0%nat else Throw) /\
  LiqwidClient.sent
    (snd (LiqwidClient.fetchLoansSnapshot answer now answered
            (LiqwidClient.mkState ∅ 0) address))
  = (if nonempty address then 1%nat else 0%nat) /\
  (forall st,
     LiqwidClient.fetchLoansSnapshot answer now answered st "" = (Throw, st)).
Proof.
  unfold LiqwidClient.fetchLoansSnapshot, SimpleCache.get.
  destruct (nonempty address); simpl.
  - rewrite lookup_empty. destruct (answer 0%nat); simpl; auto.
  - auto.
Qed.

(** ** The price provider *)

Lemma adaUsdPrice_fold rawPrices acc :
  fold_left
    (fun acc (entry : string * AssetPrice) =>
       if String.eqb (fst entry) "ADA" then ap_priceADA (snd entry) else acc)
    rawPrices acc
  = match
      List.filter (fun entry : string * AssetPrice => String.eqb (fst entry) "ADA")
        (rev rawPrices)
    with
    | entry :: _ => ap_priceADA (snd entry)
    | [] => acc
    end.
Proof.
  revert acc. induction rawPrices as [|e rest IH]; intros acc; [reflexivity|].
  simpl. rewrite IH, List.filter_app. simpl.
  destruct (List.filter _ (rev rest)) as [|e' l]; simpl;
    destruct (String.eqb (fst e) "ADA"); reflexivity.
Qed.

(** Keys in enumeration order are distinct and none of the later ones is
    enumerated before an earlier one. *)
Lemma enumeration_order_earlier ks k rest :
  enumeration_order (ks ++ k :: rest) = true ->
  forall k0, In k0 ks -> k0 <> k /\ enumerated_before k k0 = false.
Proof.
  induction ks as [|a ks IH]; simpl; intros H k0 Hin; [contradiction|].
  apply andb_true_iff in H. destruct H as (Ha & Hrest).
  destruct Hin as [<-|Hin]; [|exact (IH Hrest k0 Hin)].
  rewrite forallb_forall in Ha.
  assert (Hk : In k (ks ++ k :: rest))
    by (apply in_or_app; right; left; reflexivity).
  specialize (Ha k Hk). apply andb_true_iff in Ha. destruct Ha as (Hne & Hnb).
  split.
  - intros ->. rewrite String.eqb_refl in Hne. discriminate Hne.
  - apply negb_true_iff in Hnb. exact Hnb.
Qed.

Lemma enumeration_order_NoDup keys :
  enumeration_order keys = true -> List.NoDup keys.
Proof.
  induction keys as [|k rest IH]; simpl; intros H; [constructor|].
  apply andb_true_iff in H. destruct H as (Hk & Hrest).
  constructor; [|exact (IH Hrest)].
  intros Hin. rewrite forallb_forall in Hk. specialize (Hk k Hin).
  rewrite String.eqb_refl in Hk. discriminate Hk.
Qed.

(** Assigning to a key that is new and enumerated after every key of the
    object appends the property. *)
Lemma set_property_new {V} (o : list (string * V)) key v :
  (forall entry, In entry o ->
     fst entry <> key /\ enumerated_before key (fst entry) = false) ->
  set_property o key v = o ++ [(key, v)].
Proof.
  intros H. unfold set_property.
  assert (Hk : has_key o key = false).
  { unfold has_key. induction o as [|entry rest IH]; [reflexivity|].
    simpl. destruct (H entry (or_introl eq_refl)) as (Hne & _).
    apply String.eqb_neq in Hne. rewrite Hne. simpl.
    apply IH. intros e He. apply H. right. exact He. }
  rewrite Hk. clear Hk.
  induction o as [|entry rest IH]; [reflexivity|].
  simpl. destruct (H entry (or_introl eq_refl)) as (_ & Hb). rewrite Hb.
  f_equal. apply IH. intros e He. apply H. right. exact He.
Qed.

(** Filling an object in enumeration order keeps that order. *)
Lemma fold_set_property {A V} (f : string * A -> V)
    (l : list (string * A)) (acc : list (string * V)) :
  enumeration_order (map fst acc ++ map fst l) = true ->
  fold_left (fun o entry => set_property o (fst entry) (f entry)) l acc
  = acc ++ map (fun entry => (fst entry, f entry)) l.
Proof.
  revert acc. induction l as [|e rest IH]; intros acc H; simpl.
  - rewrite app_nil_r. reflexivity.
  - simpl in H. rewrite set_property_new.
    + rewrite IH.
      * rewrite <- app_assoc. reflexivity.
      * rewrite map_app, <- app_assoc. exact H.
    + intros entry Hin.
      apply (enumeration_order_earlier _ _ _ H (fst entry)).
      apply in_map. exact Hin.
Qed.

Lemma mapPrices_entries rawPrices :
  enumeration_order (map fst rawPrices) = true ->
  mapPrices rawPrices
  = map (fun entry : string * AssetPrice =>
           (fst entry,
            mkPriceInfo (ap_priceADA (snd entry)) (ap_exchangeRate (snd entry))
                        (ap_updatedAt (snd entry))
                        (ap_priceUpdatedAt (snd entry))))
        rawPrices.
Proof.
  intros H. unfold mapPrices.
  rewrite (fold_set_property
             (fun entry : string * AssetPrice =>
                mkPriceInfo (ap_priceADA (snd entry))
                            (ap_exchangeRate (snd entry))
                            (ap_updatedAt (snd entry))
                            (ap_priceUpdatedAt (snd entry)))
             rawPrices []); [reflexivity|exact H].
Qed.

(** X22. [getPrices] returns an empty record for no symbols without calling
    the client, and throws when the client fails. Otherwise, for a record
    of the client given as [Object.entries] enumerates it (array-index keys
    first and ascending, no key twice) and without a key [__proto__], it
    returns one price per market, enumerated under the same symbols in the
    same order, with the exchange rate and the two timestamps copied; every
    price is the client's price divided by the price of the market named
    ADA, wherever that market stands in the record, and by one when there is
    none. *)
Theorem getPrices_shape
    (fetchMarketPrices : list string -> outcome (list (string * AssetPrice)))
    (symbols : list string) :
  (symbols = [] ->
   LiqwidPriceProvider_getPrices fetchMarketPrices symbols = Return []) /\
  (symbols <> [] -> fetchMarketPrices symbols = Throw ->
   LiqwidPriceProvider_getPrices fetchMarketPrices symbols = Throw) /\
  (forall rawPrices,
     symbols <> [] -> fetchMarketPrices symbols = Return rawPrices ->
     enumeration_order (map fst rawPrices) = true ->
     ~ In "__proto__"%string (map fst rawPrices) ->
     exists prices divisor,
       LiqwidPriceProvider_getPrices fetchMarketPrices symbols = Return prices /\
       map fst prices = map fst rawPrices /\
       Forall2
         (fun (p : string * PriceInfo) (r : string * AssetPrice) =>
            priceADA (snd p) = num_div (ap_priceADA (snd r)) divisor /\
            exchangeRate (snd p) = ap_exchangeRate (snd r) /\
            updatedAt (snd p) = ap_updatedAt (snd r) /\
            sourceUpdatedAt (snd p) = ap_priceUpdatedAt (snd r))
         prices rawPrices /\
       (~ In "ADA"%string (map fst rawPrices) -> divisor = n1) /\
       (forall ada,
          In ("ADA"%string, ada) rawPrices -> divisor = ap_priceADA ada)).
Proof.
  unfold LiqwidPriceProvider_getPrices.
  split; [intros ->; reflexivity|].
  assert (Hlen : symbols <> [] -> (length symbols =? 0)%nat = false)
    by (destruct symbols; [congruence|reflexivity]).
  split.
  { intros Hne Hf. rewrite (Hlen Hne), Hf. reflexivity. }
  intros rawPrices Hne Hf Horder _. rewrite (Hlen Hne), Hf.
  rewrite (mapPrices_entries rawPrices Horder).
  apply enumeration_order_NoDup in Horder. rename Horder into Hnd.
  eexists _, (adaUsdPrice rawPrices). split; [reflexivity|].
  split; [rewrite !List.map_map; reflexivity|].
  split.
  { generalize (adaUsdPrice rawPrices). intros d. clear Hf Hnd.
    induction rawPrices as [|e rest IH]; simpl; constructor;
      [simpl; repeat split; reflexivity|exact IH]. }
  unfold adaUsdPrice. rewrite adaUsdPrice_fold.
  split.
  - intros Hno.
    destruct (List.filter _ (rev rawPrices)) as [|e l] eqn:E; [reflexivity|].
    exfalso. apply Hno.
    assert (Hin : In e (List.filter
                          (fun entry : string * AssetPrice =>
                             String.eqb (fst entry) "ADA") (rev rawPrices)))
      by (rewrite E; left; reflexivity).
    apply List.filter_In in Hin. destruct Hin as (Hin & Heq).
    apply String.eqb_eq in Heq. rewrite <- Heq.
    apply in_map. apply in_rev. exact Hin.
  - intros ada Hin.
    destruct (List.filter _ (rev rawPrices)) as [|e l] eqn:E.
    + exfalso.
      assert (Hin' : In ("ADA"%string, ada)
                       (List.filter
                          (fun entry : string * AssetPrice =>
                             String.eqb (fst entry) "ADA") (rev rawPrices))).
      { apply List.filter_In. split; [apply in_rev in Hin; exact Hin|].
        reflexivity. }
      rewrite E in Hin'. destruct Hin'.
    + assert (Hine : In e (List.filter
                             (fun entry : string * AssetPrice =>
                                String.eqb (fst entry) "ADA") (rev rawPrices)))
        by (rewrite E; left; reflexivity).
      apply List.filter_In in Hine. destruct Hine as (Hine & Heq).
      apply String.eqb_eq in Heq. apply in_rev in Hine.
      destruct e as [sym price]. simpl in Heq. subst sym. simpl.
      f_equal.
      clear -Hnd Hin Hine.
      induction rawPrices as [|[s0 p0] rest IH]; [destruct Hin|].
      simpl in Hnd. inversion Hnd as [|? ? Hnotin Hnd']. subst.
      destruct Hin as [Hin|Hin], Hine as [Hine|Hine].
      * congruence.
      * injection Hin as -> ->. exfalso. apply Hnotin.
        change "ADA"%string with (fst ("ADA"%string, price)).
        apply in_map. exact Hine.
      * injection Hine as -> ->. exfalso. apply Hnotin.
        change "ADA"%string with (fst ("ADA"%string, ada)).
        apply in_map. exact Hin.
      * apply IH; assumption.
Qed.

Lemma getPrices_shape_witness :
  exists prices divisor,
    LiqwidPriceProvider_getPrices
      (fun _ => Return [("1"%string, mkAssetPrice Num.n1_5 n1 "t" "u");
                        ("DJED"%string, mkAssetPrice Num.n1_5 n1 "t" "u");
                        ("ADA"%string, mkAssetPrice Num.n1_5 n1 "t" "u")])
      ["DJED"%string; "ADA"%string; "1"%string]
    = Return prices /\
    map fst prices = ["1"%string; "DJED"%string; "ADA"%string] /\
    divisor = Num.n1_5.
Proof.
  destruct (getPrices_shape
              (fun _ => Return [("1"%string, mkAssetPrice Num.n1_5 n1 "t" "u");
                                ("DJED"%string, mkAssetPrice Num.n1_5 n1 "t" "u");
                                ("ADA"%string, mkAssetPrice Num.n1_5 n1 "t" "u")])
              ["DJED"%string; "ADA"%string; "1"%string]) as (_ & _ & H).
  destruct (H [("1"%string, mkAssetPrice Num.n1_5 n1 "t" "u");
               ("DJED"%string, mkAssetPrice Num.n1_5 n1 "t" "u");
               ("ADA"%string, mkAssetPrice Num.n1_5 n1 "t" "u")])
    as (prices & divisor & Hrun & Hkeys & _ & _ & Hada).
  - discriminate.
  - reflexivity.
  - vm_compute. reflexivity.
  - simpl. intros [Hp|[Hp|[Hp|[]]]]; discriminate Hp.
  - exists prices, divisor. split; [exact Hrun|]. split; [exact Hkeys|].
    apply (Hada (mkAssetPrice Num.n1_5 n1 "t" "u")).
    right. right. left. reflexivity.
Defined.

(** The order of the properties: a record in which [B] was created before
    [1] enumerates [1] first, and the record the first loop of [getPrices]
    fills has [1] first in whatever order the assignments are made. *)
Example set_property_array_index :
  set_property (set_property [] "B" n1) "1" Num.n1_5
  = [("1"%string, Num.n1_5); ("B"%string, n1)] /\
  map fst (mapPrices [("B"%string, mkAssetPrice Num.n1_5 n1 "t" "u");
                      ("1"%string, mkAssetPrice Num.n1_5 n1 "t" "u")])
  = ["1"%string; "B"%string] /\
  enumeration_order ["1"%string; "B"%string] = true /\
  enumeration_order ["B"%string; "1"%string] = false /\
  array_index "01" = None /\
  array_index "4294967295" = None /\
  array_index "4294967294" = Some 4294967294%N.
Proof. vm_compute. repeat split; reflexivity. Qed.

(** The provider at work: DJED at 1.5 in a record where ADA is worth 1.5
    comes out at 1. *)
Example getPrices_normalises :
  LiqwidPriceProvider_getPrices
    (fun _ => Return [("DJED"%string, mkAssetPrice Num.n1_5 n1 "t" "u");
                      ("ADA"%string, mkAssetPrice Num.n1_5 n1 "t" "u")])
    ["DJED"%string; "ADA"%string]
  = Return [("DJED"%string, mkPriceInfo n1 n1 "t" "u");
            ("ADA"%string, mkPriceInfo n1 n1 "t" "u")].
Proof. vm_compute. reflexivity. Qed.

(** ** Computing a health factor *)

(** The cases of the repository's unit tests. *)
Example calculateHealthFactor_reported :
  calculateHealthFactor
    (mkLoanData Num.n1_8 (S754_finite false 8796093022208000 (-43))
                (Some (S754_finite false 8796093022208000 (-44))))
    default_liquidationThreshold
  = Num.n1_8.
Proof. reflexivity. Qed.

Example calculateHealthFactor_computed :
  calculateHealthFactor
    (mkLoanData Num.n0 (S754_finite false 8796093022208000 (-43))
                (Some (S754_finite false 8796093022208000 (-44))))
    default_liquidationThreshold
  = S754_finite false 7430939385161318 (-52).
Proof. vm_compute. reflexivity. Qed.

Example calculateHealthFactor_custom_threshold :
  calculateHealthFactor
    (mkLoanData Num.n0 (S754_finite false 8796093022208000 (-43))
                (Some (S754_finite false 8796093022208000 (-44))))
    (S754_finite false 6755399441055744 (-53))
  = Num.n1_5.
Proof. vm_compute. reflexivity. Qed.

(** X23. The fall-backs of [calculateHealthFactor] and what the classifier
    makes of them. A health factor the loan reports (neither zero nor NaN)
    is returned as it is. Otherwise a loan with collateral and a debt of
    zero gets [Infinity] and is classified safe under any thresholds, and a
    loan without collateral value or without a debt figure gets [0] and is
    classified critical under any positive critical threshold. *)
Theorem calculateHealthFactor_fallbacks (loan : Loan)
    (liquidationThreshold warn crit : Num.number) :
  (truthy (loan_healthFactor loan) = true ->
   calculateHealthFactor loan liquidationThreshold = loan_healthFactor loan) /\
  (truthy (loan_healthFactor loan) = false ->
   truthy (collateralValue loan) = true ->
   (exists borrowed,
      borrowedAmount loan = Some borrowed /\ is_zero borrowed = true) ->
   calculateHealthFactor loan liquidationThreshold = Num.Infinity /\
   getRiskLevel (calculateHealthFactor loan liquidationThreshold) warn crit
   = safe) /\
  (truthy (loan_healthFactor loan) = false ->
   truthy (collateralValue loan) = false \/ borrowedAmount loan = None ->
   calculateHealthFactor loan liquidationThreshold = Num.n0 /\
   (Num.lt Num.n0 crit = true ->
    getRiskLevel (calculateHealthFactor loan liquidationThreshold) warn crit
    = critical_risk)).
Proof.
  unfold calculateHealthFactor. split; [|split].
  - intros ->. reflexivity.
  - intros -> -> (borrowed & -> & ->). split; [reflexivity|].
    unfold getRiskLevel, Num.lt, SFltb, Num.Infinity. simpl.
    destruct crit as [[]|[]| |[] ? ?], warn as [[]|[]| |[] ? ?]; reflexivity.
  - intros -> Hcase.
    assert (Hzero :
      match borrowedAmount loan with
      | Some borrowed =>
        if truthy (collateralValue loan) then
          if is_zero borrowed then Num.Infinity
          else num_div (num_mul (collateralValue loan) liquidationThreshold)
                       borrowed
        else Num.n0
      | None => Num.n0
      end = Num.n0).
    { destruct Hcase as [-> | ->]; [|reflexivity].
      destruct (borrowedAmount loan); reflexivity. }
    rewrite Hzero. split; [reflexivity|].
    intros Hcrit. unfold getRiskLevel. rewrite Hcrit. reflexivity.
Qed.

Lemma calculateHealthFactor_fallbacks_witness :
  (truthy (loan_healthFactor (mkLoanData Num.n0 Num.n1_5 (Some Num.n0)))
   = false /\
   truthy (collateralValue (mkLoanData Num.n0 Num.n1_5 (Some Num.n0))) = true) /\
  getRiskLevel
    (calculateHealthFactor (mkLoanData Num.n0 Num.n1_5 (Some Num.n0))
       default_liquidationThreshold) Num.n1_7 Num.n1_5 = safe /\
  Num.lt Num.n0 Num.n1_5 = true /\
  getRiskLevel
    (calculateHealthFactor (mkLoanData Num.NaN Num.n0 (Some Num.n1_5))
       default_liquidationThreshold) Num.n1_7 Num.n1_5 = critical_risk.
Proof.
  split; [split; reflexivity|].
  destruct (calculateHealthFactor_fallbacks
              (mkLoanData Num.n0 Num.n1_5 (Some Num.n0))
              default_liquidationThreshold Num.n1_7 Num.n1_5)
    as (_ & Hinf & _).
  destruct (calculateHealthFactor_fallbacks
              (mkLoanData Num.NaN Num.n0 (Some Num.n1_5))
              default_liquidationThreshold Num.n1_7 Num.n1_5)
    as (_ & _ & Hzero).
  split.
  - apply Hinf; [reflexivity|reflexivity|].
    exists Num.n0. split; reflexivity.
  - split; [reflexivity|].
    apply Hzero; [reflexivity|left; reflexivity|reflexivity].
Defined.

(** ** The context logger *)

(** X24. Contexts nest and later fields win: a logger derived with
    [withContext] twice is the logger derived once with the two contexts
    spread together; and in what reaches the base logger a field of the
    call's data hides the context's field of the same name, which in turn
    hides the parent's. Nothing already handed to the base logger is
    changed. *)
Theorem logger_contexts {V} (this a b data : gmap string V)
    (level : Logger.LogLevel) (message : string)
    (base : list (Logger.LogCall V)) :
  Logger.withContext (Logger.withContext this a) b
  = Logger.withContext this (Logger.spread a b) /\
  (exists call,
     Logger.log (Logger.withContext this a) level message data base
     = base ++ [call] /\
     forall key,
       Logger.call_fields call !! key
       = match data !! key with
         | Some v => Some v
         | None =>
           match a !! key with
           | Some v => Some v
           | None => this !! key
           end
         end).
Proof.
  unfold Logger.withContext, Logger.spread, Logger.log. split.
  - rewrite (assoc_L (∪)). reflexivity.
  - eexists. split; [reflexivity|]. intros key. simpl.
    unfold Logger.spread. rewrite !lookup_union.
    destruct (data !! key), (a !! key), (this !! key); reflexivity.
Qed.

(** ** The market prices and their cache *)

Lemma code_unit_le_iff a b :
  LiqwidPrices.code_unit_le a b <-> String_as_OT.lt a b \/ a = b.
Proof.
  unfold LiqwidPrices.code_unit_le.
  destruct (String_as_OT.compare_spec a b) as [->|H|H].
  - split; [intros _; right; reflexivity|intros _; discriminate].
  - split; [intros _; left; exact H|intros _; discriminate].
  - split; [congruence|]. intros [H'| ->]; exfalso.
    + apply (StrictOrder_Irreflexive a). etransitivity; eassumption.
    + apply (StrictOrder_Irreflexive b). exact H.
Qed.

#[global] Instance code_unit_le_total : Total LiqwidPrices.code_unit_le.
Proof.
  intros a b.
  destruct (String_as_OT.compare_spec a b) as [->|H|H].
  - left. apply code_unit_le_iff. auto.
  - left. apply code_unit_le_iff. auto.
  - right. apply code_unit_le_iff. auto.
Qed.

#[global] Instance code_unit_le_trans : Transitive LiqwidPrices.code_unit_le.
Proof.
  intros a b c H1 H2. apply code_unit_le_iff in H1, H2.
  apply code_unit_le_iff.
  destruct H1 as [H1| ->], H2 as [H2| ->]; auto.
  left. etransitivity; eassumption.
Qed.

#[global] Instance code_unit_le_antisym :
  AntiSymm (=) LiqwidPrices.code_unit_le.
Proof.
  intros a b H1 H2. apply code_unit_le_iff in H1, H2.
  destruct H1 as [H1| ->], H2 as [H2| H2]; auto.
  exfalso. apply (StrictOrder_Irreflexive a). etransitivity; eassumption.
Qed.

(** Two arrays with the same symbols sort to the same array. *)
Lemma sort_permutation (l1 l2 : list string) :
  l1 ≡ₚ l2 -> LiqwidPrices.sort l1 = LiqwidPrices.sort l2.
Proof.
  intros H. unfold LiqwidPrices.sort.
  apply (Sorted_unique LiqwidPrices.code_unit_le).
  - apply Sorted_merge_sort; apply _.
  - apply Sorted_merge_sort; apply _.
  - rewrite !merge_sort_Permutation. exact H.
Qed.

(** X25. Market prices are cached for five minutes under a key that does not
    depend on the order of the symbols: after a call answered at [t1], every
    call made up to [t1 + 300000] with the same symbols, in whatever order,
    returns the same prices without sending a request. Each call leaves the
    caller's array sorted. *)
Theorem fetchMarketPrices_cached
    (answer answer' : nat -> list string -> outcome (list (string * AssetPrice)))
    (t0 t1 t2 t3 : Z) (st : LiqwidPrices.state)
    (symbols symbols' : list string) (prices : list (string * AssetPrice)) :
  symbols <> [] ->
  symbols ≡ₚ symbols' ->
  fst (SimpleCache.get (LiqwidPrices.cache st) t0
         (LiqwidPrices.cacheKey symbols)) = None ->
  answer (LiqwidPrices.sent st) (LiqwidPrices.sort symbols) = Return prices ->
  t2 <= t1 + 300000 ->
  LiqwidPrices.cacheKey symbols' = LiqwidPrices.cacheKey symbols /\
  (exists st1,
     LiqwidPrices.fetchMarketPrices answer t0 t1 st symbols
     = (Return prices, st1, LiqwidPrices.sort symbols) /\
     exists st2,
       LiqwidPrices.fetchMarketPrices answer' t2 t3 st1 symbols'
       = (Return prices, st2, LiqwidPrices.sort symbols) /\
       LiqwidPrices.sent st2 = S (LiqwidPrices.sent st)).
Proof.
  intros Hne Hperm Hmiss Hans Ht.
  assert (Hkey : LiqwidPrices.cacheKey symbols' = LiqwidPrices.cacheKey symbols)
    by (unfold LiqwidPrices.cacheKey;
        rewrite (sort_permutation _ _ Hperm); reflexivity).
  split; [exact Hkey|].
  assert (Hlen : forall l : list string, l <> [] -> (length l =? 0)%nat = false)
    by (intros [|? ?]; [congruence|reflexivity]).
  assert (Hne' : symbols' <> []).
  { intros ->. apply Permutation_nil_r in Hperm. congruence. }
  unfold LiqwidPrices.fetchMarketPrices.
  rewrite (Hlen _ Hne), (Hlen _ Hne'), Hkey.
  rewrite <- (sort_permutation _ _ Hperm).
  destruct (SimpleCache.get (LiqwidPrices.cache st) t0
              (LiqwidPrices.cacheKey symbols)) as [c c1].
  simpl in Hmiss. subst c. rewrite Hans.
  eexists. split; [reflexivity|]. simpl.
  rewrite SimpleCache_get_live
    by (unfold LiqwidPrices.PRICES_CACHE_TTL; lia).
  eexists. split; reflexivity.
Qed.

Lemma fetchMarketPrices_cached_witness :
  LiqwidPrices.cacheKey ["Ada"%string; "SNEK"%string]
  = LiqwidPrices.cacheKey ["SNEK"%string; "Ada"%string] /\
  exists st1,
    LiqwidPrices.fetchMarketPrices (fun _ _ => Return []) 0 1000
      (LiqwidPrices.mkState ∅ 0) ["SNEK"%string; "Ada"%string]
    = (Return [], st1, LiqwidPrices.sort ["SNEK"%string; "Ada"%string]).
Proof.
  destruct (fetchMarketPrices_cached (fun _ _ => Return [])
              (fun _ _ => Throw) 0 1000 301000 301000
              (LiqwidPrices.mkState ∅ 0) ["SNEK"%string; "Ada"%string]
              ["Ada"%string; "SNEK"%string] [])
    as (Hkey & st1 & Hrun & _).
  - discriminate.
  - apply Permutation_swap.
  - reflexivity.
  - reflexivity.
  - lia.
  - split; [exact Hkey|]. exists st1. exact Hrun.
Defined.

Example cacheKey_sorted :
  LiqwidPrices.cacheKey ["SNEK"; "Ada"; "LQ"; "MIN"]%string
  = "prices:Ada,LQ,MIN,SNEK"%string.
Proof. vm_compute. reflexivity. Qed.

(** ** The loop without a store, on healthy loans, and its request budget *)

(** X26. Without a store the loop fails open on every loan: in every run,
    each loan classified warning or critical is dispatched and listed in
    [alertsSent], in the order of the snapshot, and the binding stays
    absent. *)
Theorem processLoans_without_store (validatedEnv : WorkerEnv)
    (loans : list LoanInfo) (w : World) :
  kv w = None ->
  exists w',
    processLoans validatedEnv loans w
    = (Return (loans, flat_map (alert_of validatedEnv) loans), w') /\
    kv w' = None /\
    length (outbox w')
    = (length (outbox w)
       + length (flat_map (alert_of validatedEnv) loans))%nat.
Proof.
  revert w. induction loans as [|loan rest IH]; intros w Hkv.
  - exists w. simpl. unfold ret. rewrite Nat.add_0_r. auto.
  - destruct (processLoan_returns validatedEnv loan w) as (s1 & w1 & H1).
    pose proof (processLoan_spec _ _ _ _ _ H1) as Hit.
    unfold iteration in Hit. rewrite Hkv in Hit.
    assert (Hstep : s1 = alert_of validatedEnv loan /\ kv w1 = None /\
                    length (outbox w1)
                    = (length (outbox w) + length s1)%nat).
    { unfold alert_of.
      destruct (tier_level _) as [lvl|].
      - simpl in Hit.
        destruct Hit as (ok & wd & (_ & Hout & _) & -> & ->).
        simpl. rewrite length_app, Hout. simpl. auto.
      - destruct Hit as [-> ->]. simpl. rewrite Nat.add_0_r. auto. }
    destruct Hstep as (-> & Hkv1 & Hlen1).
    destruct (IH w1 Hkv1) as (w' & H2 & Hkv' & Hlen').
    exists w'. rewrite (processLoans_cons _ _ _ _ _ _ _ _ H1 H2). simpl.
    split; [reflexivity|]. split; [exact Hkv'|].
    rewrite Hlen', Hlen1, length_app. lia.
Qed.

Lemma processLoans_without_store_witness :
  kv (deaf_world None) = None /\
  exists w',
    processLoans sample_env [loan_L1; loan_L2] (deaf_world None)
    = (Return ([loan_L1; loan_L2],
               flat_map (alert_of sample_env) [loan_L1; loan_L2]), w').
Proof.
  split; [reflexivity|].
  destruct (processLoans_without_store sample_env [loan_L1; loan_L2]
              (deaf_world None) eq_refl) as (w' & Hrun & _).
  exists w'. exact Hrun.
Defined.

(** X27. A snapshot of safe loans is silent: when every loan is classified
    safe, the loop sends nothing, records nothing and leaves the world
    exactly as it found it. *)
Theorem processLoans_all_safe (validatedEnv : WorkerEnv)
    (loans : list LoanInfo) (w : World) :
  Forall (fun loan =>
            getRiskLevel (healthFactor loan) (HF_WARN validatedEnv)
                         (HF_CRIT validatedEnv) = safe) loans ->
  processLoans validatedEnv loans w = (Return (loans, []), w).
Proof.
  intros Hsafe. induction Hsafe as [|loan rest Hloan _ IH]; [reflexivity|].
  assert (H1 : processLoan validatedEnv loan w = (Return [], w)).
  { pose proof (processLoan_by_tier validatedEnv loan w) as Ht.
    rewrite Hloan in Ht. exact Ht. }
  rewrite (processLoans_cons _ _ _ _ _ _ _ _ H1 IH). reflexivity.
Qed.

Lemma processLoans_all_safe_witness :
  Forall (fun loan =>
            getRiskLevel (healthFactor loan) (HF_WARN sample_env)
                         (HF_CRIT sample_env) = safe)
         [mkLoan "L3" Num.n1_8 "ADA"; mkLoan "L4" Num.Infinity "DJED"] /\
  processLoans sample_env
    [mkLoan "L3" Num.n1_8 "ADA"; mkLoan "L4" Num.Infinity "DJED"]
    (deaf_world (Some empty_store))
  = (Return ([mkLoan "L3" Num.n1_8 "ADA"; mkLoan "L4" Num.Infinity "DJED"], []),
     deaf_world (Some empty_store)).
Proof.
  assert (H : Forall (fun loan =>
            getRiskLevel (healthFactor loan) (HF_WARN sample_env)
                         (HF_CRIT sample_env) = safe)
         [mkLoan "L3" Num.n1_8 "ADA"; mkLoan "L4" Num.Infinity "DJED"])
    by (repeat constructor).
  split; [exact H|].
  apply (processLoans_all_safe sample_env _ (deaf_world (Some empty_store)) H).
Defined.

(** The requests one call of [sendAlert] may send. *)
Lemma sendAlert_requests lvl message config w :
  (requests w <= requests (snd (sendAlert lvl message config w))
   <= requests w + 4)%nat.
Proof.
  unfold sendAlert.
  destruct (negb (nonempty (TELEGRAM_TOKEN config))
            || negb (nonempty (CHATID config))); [simpl; lia|].
  destruct (sendAlert_loop_first_ok w) as (w2 & Hloop & Hreq & _).
  rewrite Hloop. simpl. rewrite Hreq.
  destruct (first_ok (telegram w) (requests w) 4) as [n|] eqn:E; [|lia].
  assert (n < 4)%nat; [|lia].
  clear -E. simpl in E.
  repeat match type of E with
         | context [match ?r with _ => _ end] => destruct r
         end; simpl in E; try discriminate; injection E as <-; lia.
Qed.

Lemma processLoan_requests validatedEnv loan w :
  (requests w <= requests (snd (processLoan validatedEnv loan w))
   <= requests w + 4)%nat.
Proof.
  assert (Hbranch : forall lvl,
    (requests w
     <= requests
          (snd ((ok <- shouldSendAlert (id loan) lvl (loan_assetSymbol loan);;
                 if (ok : bool) then
                   _ <- sendAlert lvl
                          (LoanMessage lvl (loan_assetSymbol loan)
                             (healthFactor loan)) validatedEnv;;
                   recordAlert (id loan) lvl (loan_assetSymbol loan);;
                   ret [mkAlertSent (loan_assetSymbol loan) (id loan)
                          (healthFactor loan) lvl]
                 else ret [])%world w))
     <= requests w + 4)%nat).
  { intros lvl.
    destruct (AlertManager.shouldSendAlert (kv w) (clock w) (id loan) lvl
                (loan_assetSymbol loan)) eqn:E.
    - destruct (alert_branch_allowed validatedEnv lvl (loan_assetSymbol loan)
                  (healthFactor loan) (id loan) w E)
        as (ok & w1 & Hsend & _ & Hrun).
      rewrite Hrun.
      pose proof (sendAlert_requests lvl
                    (LoanMessage lvl (loan_assetSymbol loan)
                       (healthFactor loan)) validatedEnv w) as Hb.
      rewrite Hsend in Hb. simpl in *. exact Hb.
    - rewrite (alert_branch_suppressed _ _ _ _ _ _ E). simpl. lia. }
  unfold processLoan.
  destruct (Num.lt (healthFactor loan) (HF_CRIT validatedEnv));
    [apply Hbranch|].
  destruct (Num.lt (healthFactor loan) (HF_WARN validatedEnv));
    [apply Hbranch|simpl; lia].
Qed.

(** X28. The request budget of a run: the loop sends at most four requests
    to Telegram per loan of the snapshot. *)
Theorem processLoans_request_budget (validatedEnv : WorkerEnv)
    (loans : list LoanInfo) (w : World) :
  (requests w <= requests (snd (processLoans validatedEnv loans w))
   <= requests w + 4 * length loans)%nat.
Proof.
  revert w. induction loans as [|loan rest IH]; intros w; [simpl; lia|].
  destruct (processLoan_returns validatedEnv loan w) as (s1 & w1 & H1).
  destruct (processLoans_returns validatedEnv rest w1) as (s2 & w2 & H2).
  rewrite (processLoans_cons _ _ _ _ _ _ _ _ H1 H2).
  pose proof (processLoan_requests validatedEnv loan w) as Hb1.
  pose proof (IH w1) as Hb2. rewrite H1 in Hb1. rewrite H2 in Hb2.
  simpl in *. lia.
Qed.

(** ** The classifier, beyond the partition *)

Lemma le_lt_trans x y z :
  Num.le x y = true -> Num.lt y z = true -> Num.lt x z = true.
Proof.
  unfold Num.lt, Num.le, SFltb, SFleb, SFcompare.
  destruct x as [[]|[]| |[] mx ex], y as [[]|[]| |[] my ey],
    z as [[]|[]| |[] mz ez]; simpl;
    intros Hxy Hyz; try discriminate; try reflexivity; order_cases.
Qed.

(** X29. The classifier is monotone: of two health factors the higher one is
    never classified as the riskier, whatever the thresholds. *)
Theorem getRiskLevel_monotone (hf1 hf2 warn crit : Num.number) :
  Num.le hf1 hf2 = true ->
  (severity (getRiskLevel hf2 warn crit)
   <= severity (getRiskLevel hf1 warn crit))%nat.
Proof.
  intros Hle. unfold getRiskLevel.
  destruct (Num.lt hf2 crit) eqn:E2c.
  - rewrite (le_lt_trans _ _ _ Hle E2c). simpl. lia.
  - destruct (Num.lt hf2 warn) eqn:E2w.
    + rewrite (le_lt_trans _ _ _ Hle E2w).
      destruct (Num.lt hf1 crit); simpl; lia.
    + simpl. lia.
Qed.

Lemma getRiskLevel_monotone_witness :
  Num.le Num.n1_4 Num.n1_6 = true /\
  (severity (getRiskLevel Num.n1_6 Num.n1_7 Num.n1_5)
   <= severity (getRiskLevel Num.n1_4 Num.n1_7 Num.n1_5))%nat.
Proof.
  split; [reflexivity|].
  apply (getRiskLevel_monotone Num.n1_4 Num.n1_6 Num.n1_7 Num.n1_5).
  reflexivity.
Defined.

(** X30. Thresholds the wrong way round silence the warning tier: when the
    warning threshold is not above the critical one, no health factor is
    classified warning, and no iteration of the loop sends or lists a
    warning alert. *)
Theorem warning_tier_unreachable (validatedEnv : WorkerEnv)
    (loan : LoanInfo) (w : World) :
  Num.le (HF_WARN validatedEnv) (HF_CRIT validatedEnv) = true ->
  (forall hf,
     getRiskLevel hf (HF_WARN validatedEnv) (HF_CRIT validatedEnv)
     <> warning_risk) /\
  Forall (fun a => sent_level a = critical)
         (match fst (processLoan validatedEnv loan w) with
          | Return sent => sent
          | Throw => []
          end).
Proof.
  intros Hle.
  assert (Hno : forall hf,
            Num.lt hf (HF_CRIT validatedEnv) = false ->
            Num.lt hf (HF_WARN validatedEnv) = false).
  { intros hf Hc. destruct (Num.lt hf (HF_WARN validatedEnv)) eqn:Ew;
      [|reflexivity].
    rewrite (lt_le_trans _ _ _ Ew Hle) in Hc. discriminate Hc. }
  split.
  - intros hf. unfold getRiskLevel.
    destruct (Num.lt hf (HF_CRIT validatedEnv)) eqn:Ec; [discriminate|].
    rewrite (Hno _ Ec). discriminate.
  - destruct (processLoan_returns validatedEnv loan w) as (sent & w2 & Hrun).
    rewrite Hrun. simpl. apply processLoan_spec in Hrun.
    unfold iteration, getRiskLevel in Hrun.
    destruct (Num.lt (healthFactor loan) (HF_CRIT validatedEnv)) eqn:Ec.
    + simpl in Hrun.
      destruct (AlertManager.shouldSendAlert _ _ _ _ _).
      * destruct Hrun as (ok & wd & _ & -> & _).
        constructor; [reflexivity|constructor].
      * destruct Hrun as [-> _]. constructor.
    + rewrite (Hno _ Ec) in Hrun. simpl in Hrun.
      destruct Hrun as [-> _]. constructor.
Qed.

Lemma warning_tier_unreachable_witness :
  Num.le (HF_WARN (mkWorkerEnv Num.n1_5 Num.n1_7 "token" "chat" None None))
         (HF_CRIT (mkWorkerEnv Num.n1_5 Num.n1_7 "token" "chat" None None))
  = true /\
  getRiskLevel Num.n1_6 Num.n1_5 Num.n1_7 <> warning_risk.
Proof.
  split; [reflexivity|].
  apply (warning_tier_unreachable
           (mkWorkerEnv Num.n1_5 Num.n1_7 "token" "chat" None None)
           loan_L1 (deaf_world None)).
  reflexivity.
Defined.
